(** * ng-morph template trees: raw parse tree, visitor, mutable node tree

    A shallow embedding of
      - [src/nodes/ng-ast-node/template/tokenizer/ast.ts]
        (raw parse tree, [visitAll], [RecursiveVisitor], [spanOf], [findNode]);
      - [src/nodes/ng-ast-node/template/template-nodes.ts]
        (mutable template nodes, navigation, attribute classification and
        the text-mutation protocol [_replaceTextByTokens]).

    Objects with identity (template nodes, tokens) live in a store and are
    named by references; mutation is explicit state passing in a small
    state-and-error monad. *)

From Stdlib Require Import ZArith String Ascii List Lia Permutation.
From stdpp Require Import base option list gmap strings.

Set Warnings "-register-all".
Open Scope Z_scope.

(* ===================================================================== *)
(** ** JavaScript values, results and the state-and-error monad *)
(* ===================================================================== *)

Module Js.

(** The values a visitor method may hand back ([any] in the source). *)
Inductive Any : Type :=
| Undefined
| Null
| JBool (b : bool)
| JNum (n : Z)
| JStr (s : string)
| JArr (items : list Any).

(** JavaScript's ToBoolean: what [if (x)] and [x || y] test. *)
Definition truthy (v : Any) : bool :=
  match v with
  | Undefined | Null => false
  | JBool b => b
  | JNum n => negb (n =? 0)
  | JStr s => negb (String.length s =? 0)%nat
  | JArr _ => true
  end.

(** Outcome of running a piece of code: it returns, it throws an [Error]
    with a message, or the bounded unrolling of a self-referential call
    ran out before the code returned. *)
Inductive Result (A : Type) : Type :=
| Ok (a : A)
| Throw (message : string)
| OutOfFuel.
Arguments Ok {A} a.
Arguments Throw {A} message.
Arguments OutOfFuel {A}.

Definition rbind {A B} (r : Result A) (k : A -> Result B) : Result B :=
  match r with
  | Ok a => k a
  | Throw m => Throw m
  | OutOfFuel => OutOfFuel
  end.

(** Code that reads and writes a state [S] and may throw. *)
Definition M (S A : Type) : Type := S -> Result (A * S).

Definition ret {S A} (a : A) : M S A := fun s => Ok (a, s).

Definition bind {S A B} (c : M S A) (k : A -> M S B) : M S B :=
  fun s => match c s with
           | Ok (a, s') => k a s'
           | Throw m => Throw m
           | OutOfFuel => OutOfFuel
           end.

Definition throw {S A} (message : string) : M S A := fun _ => Throw message.
Definition outOfFuel {S A} : M S A := fun _ => OutOfFuel.
Definition get {S} : M S S := fun s => Ok (s, s).
Definition put {S} (s : S) : M S unit := fun _ => Ok (tt, s).
Definition modify {S} (f : S -> S) : M S unit := fun s => Ok (tt, f s).
(** A read-only computation run inside a stateful one. *)
Definition liftR {S A} (r : S -> Result A) : M S A :=
  fun s => match r s with
           | Ok a => Ok (a, s)
           | Throw m => Throw m
           | OutOfFuel => OutOfFuel
           end.

(** [Array.prototype.forEach] with an accumulator the callback updates. *)
Fixpoint forEach {S A R} (xs : list A) (body : A -> R -> M S R) (acc : R)
  : M S R :=
  match xs with
  | [] => ret acc
  | x :: rest => bind (body x acc) (fun acc' => forEach rest body acc')
  end.

(** Running a computation on every element, left to right. *)
Fixpoint mapM {S A B} (f : A -> M S B) (xs : list A) : M S (list B) :=
  match xs with
  | [] => ret []
  | x :: rest =>
      bind (f x) (fun y => bind (mapM f rest) (fun ys => ret (y :: ys)))
  end.

End Js.
Import Js.

Notation "'let!' x ':=' c 'in' k" := (bind c (fun x => k))
  (at level 10, x name, c at level 100, k at level 200).
Notation "c1 '>>' c2" := (bind c1 (fun _ => c2))
  (at level 100, c2 at level 200, right associativity).
Notation "'let?' x ':=' c 'in' k" := (rbind c (fun x => k))
  (at level 10, x name, c at level 100, k at level 200).

(* ===================================================================== *)
(** ** Locations and tokens *)
(* ===================================================================== *)

Module Location.

(** A position in the source text; only its offset is observed. *)
Record Location : Type := mkLocation { getOffset : Z }.

(** Half-open range [[getStart, getEnd)] of offsets into the text. *)
Record LocationSpan : Type := mkLocationSpan {
  getStart : Location;
  getEnd : Location
}.

Definition span (s e : Z) : LocationSpan :=
  mkLocationSpan (mkLocation s) (mkLocation e).

(** Modelled from the spec: [LocationSpan.getLength] (the class
    [LocationSpan] is defined in [location.ts], outside the two files
    embedded here); the length of the half-open offset range. *)
Definition getLength (sp : LocationSpan) : Z :=
  getOffset (getEnd sp) - getOffset (getStart sp).

(** Modelled from the spec: [LocationSpan.moveBy], the directional shift
    of both boundaries by a signed delta. *)
Definition moveBy (delta : Z) (sp : LocationSpan) : LocationSpan :=
  span (getOffset (getStart sp) + delta) (getOffset (getEnd sp) + delta).

(** Modelled from the spec: [moveStartBy] and [moveEndBy], the shift of
    only one boundary. *)
Definition moveStartBy (delta : Z) (sp : LocationSpan) : LocationSpan :=
  span (getOffset (getStart sp) + delta) (getOffset (getEnd sp)).
Definition moveEndBy (delta : Z) (sp : LocationSpan) : LocationSpan :=
  span (getOffset (getStart sp)) (getOffset (getEnd sp) + delta).

End Location.
Import Location.

Module Lexer.

(** The members of the lexer's [TokenType] enum that the template nodes
    name, and a catch-all for the members they do not name (the lexer
    itself is an external collaborator). *)
Inductive TokenType : Type :=
| TEXT
| TAG_OPEN_START
| TAG_CLOSE
| ATTR_NAME
| ATTR_VALUE
| OtherTokenType (typeName : string).

Global Instance TokenType_eq_dec : EqDecision TokenType.
Proof. solve_decision. Defined.

(** Modelled from the spec: [getTokenTypeName], the human-readable name
    of a token type. *)
Definition getTokenTypeName (t : TokenType) : string :=
  match t with
  | TEXT => "TEXT"
  | TAG_OPEN_START => "TAG_OPEN_START"
  | TAG_CLOSE => "TAG_CLOSE"
  | ATTR_NAME => "ATTR_NAME"
  | ATTR_VALUE => "ATTR_VALUE"
  | OtherTokenType n => n
  end.

(** A token: a type tag and the span it currently occupies. *)
Record Token : Type := mkToken {
  type : TokenType;
  locationSpan : LocationSpan
}.

Definition typeName (t : Token) : string := getTokenTypeName (type t).

End Lexer.
Import Lexer.

(* ===================================================================== *)
(** ** Component A: raw parse tree and visitor ([tokenizer/ast.ts]) *)
(* ===================================================================== *)

Module Ast.

Record Text : Type := mkText {
  Text_tokens : list Token;
  Text_value : string;
  Text_locationSpan : LocationSpan
}.

Record Attribute : Type := mkAttribute {
  Attribute_tokens : list Token;
  Attribute_name : string;
  Attribute_value : string;
  Attribute_locationSpan : LocationSpan;
  Attribute_valueSpan : option LocationSpan
}.

Record Comment : Type := mkComment {
  Comment_tokens : list Token;
  Comment_value : option string;
  Comment_locationSpan : LocationSpan
}.

(** The six classes implementing [Node]; [Node] itself is their union. *)
Inductive Node : Type :=
| NText (t : Text)
| NExpansion (e : Expansion)
| NExpansionCase (c : ExpansionCase)
| NAttribute (a : Attribute)
| NElement (e : Element)
| NComment (c : Comment)
with Expansion : Type :=
| mkExpansion (tokens : list Token) (switchValue type : string)
    (cases : list ExpansionCase)
    (locationSpan switchValueSourceSpan : LocationSpan)
with ExpansionCase : Type :=
| mkExpansionCase (tokens : list Token) (value : string)
    (expression : list Node)
    (locationSpan valueSourceSpan expSourceSpan : LocationSpan)
with Element : Type :=
| mkElement (tokens : list Token) (name : string)
    (attrs : list Attribute) (children : list Node)
    (locationSpan : LocationSpan)
    (startSourceSpan endSourceSpan : option LocationSpan).

Definition Expansion_cases (e : Expansion) : list ExpansionCase :=
  match e with mkExpansion _ _ _ cases _ _ => cases end.
Definition Expansion_locationSpan (e : Expansion) : LocationSpan :=
  match e with mkExpansion _ _ _ _ sp _ => sp end.
Definition ExpansionCase_locationSpan (c : ExpansionCase) : LocationSpan :=
  match c with mkExpansionCase _ _ _ sp _ _ => sp end.
Definition Element_name (e : Element) : string :=
  match e with mkElement _ name _ _ _ _ _ => name end.
Definition Element_attrs (e : Element) : list Attribute :=
  match e with mkElement _ _ attrs _ _ _ _ => attrs end.
Definition Element_children (e : Element) : list Node :=
  match e with mkElement _ _ _ children _ _ _ => children end.
Definition Element_locationSpan (e : Element) : LocationSpan :=
  match e with mkElement _ _ _ _ sp _ _ => sp end.
Definition Element_endSourceSpan (e : Element) : option LocationSpan :=
  match e with mkElement _ _ _ _ _ _ endSpan => endSpan end.

(** [node.locationSpan], a member of the [Node] interface. *)
Definition locationSpan (ast : Node) : LocationSpan :=
  match ast with
  | NText t => Text_locationSpan t
  | NExpansion e => Expansion_locationSpan e
  | NExpansionCase c => ExpansionCase_locationSpan c
  | NAttribute a => Attribute_locationSpan a
  | NElement e => Element_locationSpan e
  | NComment c => Comment_locationSpan c
  end.

(** [ast instanceof Element]. *)
Definition instanceofElement (ast : Node) : bool :=
  match ast with NElement _ => true | _ => false end.

(** The [Visitor] interface; [visit] is its optional generic hook. The
    methods run in a state [S] (what the visitor object closes over). *)
Record Visitor (S : Type) : Type := mkVisitor {
  visit : option (Node -> Any -> M S Any);
  visitElement : Element -> Any -> M S Any;
  visitAttribute : Attribute -> Any -> M S Any;
  visitText : Text -> Any -> M S Any;
  visitComment : Comment -> Any -> M S Any;
  visitExpansion : Expansion -> Any -> M S Any;
  visitExpansionCase : ExpansionCase -> Any -> M S Any
}.
Arguments mkVisitor {S}.
Arguments visit {S}.
Arguments visitElement {S}.
Arguments visitAttribute {S}.
Arguments visitText {S}.
Arguments visitComment {S}.
Arguments visitExpansion {S}.
Arguments visitExpansionCase {S}.

(** [ast.visit(visitor, context)]: each class calls the visitor method
    of its own kind. *)
Definition Node_visit {S} (ast : Node) (visitor : Visitor S) (context : Any)
  : M S Any :=
  match ast with
  | NText t => visitText visitor t context
  | NExpansion e => visitExpansion visitor e context
  | NExpansionCase c => visitExpansionCase visitor c context
  | NAttribute a => visitAttribute visitor a context
  | NElement e => visitElement visitor e context
  | NComment c => visitComment visitor c context
  end.

(** The closure [visit] that [visitAll] builds from the visitor. *)
Definition visitAll_visit {S} (visitor : Visitor S) (context : Any)
  : Node -> M S Any :=
  match visit visitor with
  | Some hook =>
      fun ast =>
        let! r := hook ast context in
        if truthy r then ret r else Node_visit ast visitor context
  | None => fun ast => Node_visit ast visitor context
  end.

Definition visitAll {S} (visitor : Visitor S) (nodes : list Node)
    (context : Any) : M S (list Any) :=
  let visit := visitAll_visit visitor context in
  forEach nodes
    (fun ast result =>
       let! astResult := visit ast in
       if truthy astResult then ret (result ++ [astResult]) else ret result)
    [].

(** [RecursiveVisitor.visitChildren]: the callback [cb] is given as the
    child lists it passes to [visit], in call order. *)
Definition visitChildren {S} (t : Visitor S) (context : Any)
    (cb : list (list Node)) : M S (list Any) :=
  let! results :=
    forEach cb
      (fun children results =>
         let! r := visitAll t children context in
         ret (results ++ [r]))
      [] in
  ret (concat results).

(** The class [RecursiveVisitor], open in [this]; [hook] is the [visit]
    member a subclass may add ([None] for the base class). *)
Definition RecursiveVisitor {S} (hook : option (Node -> Any -> M S Any))
    (this : Visitor S) : Visitor S :=
  {| visit := hook;
     visitElement := fun ast context =>
       visitChildren this context
         [NAttribute <$> Element_attrs ast; Element_children ast]
       >> ret Undefined;
     visitAttribute := fun _ _ => ret Undefined;
     visitText := fun _ _ => ret Undefined;
     visitComment := fun _ _ => ret Undefined;
     visitExpansion := fun ast context =>
       let! r := visitChildren this context
                   [NExpansionCase <$> Expansion_cases ast] in
       ret (JArr r);
     visitExpansionCase := fun _ _ => ret Undefined |}.

(** An object whose every method has run out of unrolling depth. *)
Definition exhausted {S} : Visitor S :=
  {| visit := Some (fun _ _ => outOfFuel);
     visitElement := fun _ _ => outOfFuel;
     visitAttribute := fun _ _ => outOfFuel;
     visitText := fun _ _ => outOfFuel;
     visitComment := fun _ _ => outOfFuel;
     visitExpansion := fun _ _ => outOfFuel;
     visitExpansionCase := fun _ _ => outOfFuel |}.

(** [new cls()]: the object is the class closed over itself, unrolled
    [fuel] times (one unrolling per level of nesting it has to enter). *)
Fixpoint new {S} (fuel : nat) (cls : Visitor S -> Visitor S) : Visitor S :=
  match fuel with
  | O => exhausted
  | Datatypes.S fuel' => cls (new fuel' cls)
  end.

(** The [{ start, end }] object [spanOf] returns. *)
Record Span : Type := mkSpan { start : Z; end_ : Z }.

Fixpoint spanOf (ast : Node) : Span :=
  let start := getOffset (getStart (locationSpan ast)) in
  let end_ := getOffset (getStart (locationSpan ast)) in
  match ast with
  | NElement (mkElement _ _ _ children _ _ endSourceSpan) =>
      match endSourceSpan with
      | Some endSpan => mkSpan start (getOffset (getStart endSpan))
      | None =>
          (* children[children.length - 1], when there is one *)
          (fix lastChild (cs : list Node) : Span :=
             match cs with
             | [] => mkSpan start end_
             | [c] => mkSpan start (Ast.end_ (spanOf c))
             | _ :: cs' => lastChild cs'
             end) children
      end
  | _ => mkSpan start end_
  end.

(** [AstPath<Node>], built by [new AstPath(path, position)]. *)
Record AstPath : Type := mkAstPath { path : list Node; position : Z }.

(** The anonymous subclass of [RecursiveVisitor] in [findNode]; its state
    is the array [path] it closes over. *)
Definition findNode_visitor (position : Z)
  : Visitor (list Node) -> Visitor (list Node) :=
  RecursiveVisitor
    (Some (fun ast context =>
             let span := spanOf ast in
             if (start span <=? position) && (position <? end_ span)
             then modify (fun path => path ++ [ast]) >> ret Undefined
             else
               (* Returning a value here will result in the children
                  being skipped. *)
               ret (JBool true))).

(** Nesting depth of the child lists a recursive visitor can enter. *)
Fixpoint height (ast : Node) : nat :=
  match ast with
  | NElement (mkElement _ _ _ children _ _ _) =>
      Datatypes.S
        ((fix heights (cs : list Node) : nat :=
            match cs with
            | [] => O
            | c :: cs' => Nat.max (height c) (heights cs')
            end) children)
  | NExpansion _ => 1%nat
  | _ => O
  end.

Definition heights (nodes : list Node) : nat :=
  foldr (fun c h => Nat.max (height c) h) O nodes.

Definition findNode (nodes : list Node) (position : Z) : Result AstPath :=
  let visitor := new (Datatypes.S (heights nodes)) (findNode_visitor position) in
  match visitAll visitor nodes Null [] with
  | Ok (_, path) => Ok (mkAstPath path position)
  | Throw m => Throw m
  | OutOfFuel => OutOfFuel
  end.

End Ast.

(* ===================================================================== *)
(** ** The owning document ([Template]) and its text *)
(* ===================================================================== *)

Module Doc.

(** Tokens and template nodes are objects with identity. A token is
    named by its position in the document's token sequence, a template
    node by its key in the store. *)
Abbreviation TokenRef := nat (only parsing).
Abbreviation NodeRef := nat (only parsing).

(** Modelled from the spec: the class [Template] (the owning document),
    defined in [template.ts], outside the two files embedded here: the
    text of the file, the canonical ordered token sequence and the
    top-level node list. *)
Record Template : Type := mkTemplate {
  Template_text : string;
  Template_tokens : list Token;
  getRoots : list NodeRef
}.

(** [arr[i]] for a JavaScript number [i]: [undefined] out of range. *)
Definition Array_get {A} (arr : list A) (i : Z) : option A :=
  if i <? 0 then None else arr !! Z.to_nat i.

(** [arr.findIndex(p)]: the first index whose element satisfies [p],
    and [-1] when there is none. *)
Fixpoint findIndex {A} (p : A -> bool) (arr : list A) : Z :=
  match arr with
  | [] => -1
  | x :: rest =>
      if p x then 0
      else let i := findIndex p rest in
           if i =? -1 then -1 else i + 1
  end.

(** The first [n] characters of a text, and the text without them. *)
Fixpoint strTake (n : nat) (s : string) : string :=
  match n, s with
  | Datatypes.S n', String c s' => String c (strTake n' s')
  | _, _ => EmptyString
  end.

Fixpoint strDrop (n : nat) (s : string) : string :=
  match n, s with
  | Datatypes.S n', String _ s' => strDrop n' s'
  | _, _ => s
  end.

(** [s.slice(from, to)] for offsets [0 <= from <= to]. *)
Definition slice (from to : Z) (s : string) : string :=
  strTake (Z.to_nat to - Z.to_nat from) (strDrop (Z.to_nat from) s).

(** Modelled from the spec: the current rendered text of a span
    ([LocationSpan.getText], [Token.toString]). *)
Definition LocationSpan_getText (sp : LocationSpan) (t : Template) : string :=
  slice (getOffset (getStart sp)) (getOffset (getEnd sp)) (Template_text t).

(** The text with the range of [sp] replaced by [newText]. *)
Definition splice (sp : LocationSpan) (newText s : string) : string :=
  strTake (Z.to_nat (getOffset (getStart sp))) s
  +:+ newText
  +:+ strDrop (Z.to_nat (getOffset (getEnd sp))) s.

(** A token that is not in the document's sequence. *)
Definition noSuchToken : string := "Token does not belong to this template.".

(** Modelled from the spec: [Template.getTokenIndex], the index of a
    token of this document. *)
Definition getTokenIndex (token : TokenRef) (t : Template) : Result nat :=
  if Nat.ltb token (length (Template_tokens t)) then Ok token
  else Throw noSuchToken.

Definition getToken (token : TokenRef) (t : Template) : Result Token :=
  match Template_tokens t !! token with
  | Some tok => Ok tok
  | None => Throw noSuchToken
  end.

(** Modelled from the spec: [token.locationSpan.replaceText(newText)],
    the in-place text replacement that changes the span's own length:
    the text of the range becomes [newText] and the span keeps its start
    and ends [length newText] later. *)
Definition replaceText (token : TokenRef) (newText : string)
  : M Template unit :=
  let! tok := liftR (getToken token) in
  let sp := Lexer.locationSpan tok in
  let sp' := span (getOffset (getStart sp))
                  (getOffset (getStart sp) + Z.of_nat (String.length newText)) in
  modify (fun t =>
    mkTemplate (splice sp newText (Template_text t))
               (<[token := mkToken (type tok) sp']> (Template_tokens t))
               (getRoots t)).

(** Modelled from the spec: [Template._forEachTokenAfter(token, fn,
    { inclusive })], which calls [fn] on every token after [token] in
    document order, and on [token] itself when [inclusive]; [fn] is
    given as the update it makes to the token it receives. *)
Definition _forEachTokenAfter (token : TokenRef) (fn : Token -> Token)
    (inclusive : bool) : M Template unit :=
  let! index := liftR (getTokenIndex token) in
  let from := if inclusive then index else Datatypes.S index in
  modify (fun t =>
    mkTemplate (Template_text t)
               (take from (Template_tokens t) ++ (fn <$> drop from (Template_tokens t)))
               (getRoots t)).

(** [token.locationSpan.moveBy(diff)] as an update of the token. *)
Definition Token_moveBy (diff : Z) (token : Token) : Token :=
  mkToken (type token) (moveBy diff (Lexer.locationSpan token)).

(** What [String.prototype.trim] strips: the white space and the line
    terminators of ECMAScript. A character of a text here is one code unit
    below 256, and among those the white space is TAB, VT, FF, SP and the
    no-break space U+00A0, the line terminators LF and CR. *)
Definition isWhiteSpace (c : ascii) : bool :=
  match N_of_ascii c with
  | 9%N | 10%N | 11%N | 12%N | 13%N | 32%N | 160%N => true
  | _ => false
  end.

Fixpoint trimStart (s : string) : string :=
  match s with
  | EmptyString => EmptyString
  | String c s' => if isWhiteSpace c then trimStart s' else s
  end.

Fixpoint trimEnd (s : string) : string :=
  match s with
  | EmptyString => EmptyString
  | String c s' =>
      match trimEnd s' with
      | EmptyString => if isWhiteSpace c then EmptyString
                       else String c EmptyString
      | r => String c r
      end
  end.

Definition trim (s : string) : string := trimEnd (trimStart s).

(** [parts.join(sep)]. *)
Fixpoint join (sep : string) (parts : list string) : string :=
  match parts with
  | [] => EmptyString
  | [p] => p
  | p :: rest => p +:+ sep +:+ join sep rest
  end.

(** Modelled from the spec: [Template._forEachTokenBetween(first, last,
    fn, { inclusiveStart, inclusiveEnd })], which calls [fn] on every
    token between the two given ones in document order, each end counted
    in or out by its own switch. *)
Definition _forEachTokenBetween (first last : TokenRef) (fn : Token -> Token)
    (inclusiveStart inclusiveEnd : bool) : M Template unit :=
  let! firstIndex := liftR (getTokenIndex first) in
  let! lastIndex := liftR (getTokenIndex last) in
  let from := if inclusiveStart then firstIndex else Datatypes.S firstIndex in
  let to := if inclusiveEnd then Datatypes.S lastIndex else lastIndex in
  modify (fun t =>
    mkTemplate (Template_text t)
               (take from (Template_tokens t)
                ++ (fn <$> take (to - from) (drop from (Template_tokens t)))
                ++ drop (Nat.max from to) (Template_tokens t))
               (getRoots t)).

(** [getFirstElementOrThrow(array, message)] and
    [getLastElementOrThrow(array, message)] of the utilities. *)
Definition getFirstElementOrThrow {A} (array : list A) (message : string)
  : Result A :=
  match array with
  | x :: _ => Ok x
  | [] => Throw message
  end.

Definition getLastElementOrThrow {A} (array : list A) (message : string)
  : Result A :=
  match last array with
  | Some x => Ok x
  | None => Throw message
  end.

End Doc.
Import Doc.

(* ===================================================================== *)
(** ** Component B: mutable template nodes ([template-nodes.ts]) *)
(* ===================================================================== *)

Module TemplateNodes.

(** The five arrays an element-like node sorts its attributes into. *)
Record Buckets (A : Type) : Type := mkBuckets {
  textAttributes : list A;
  boundAttributes : list A;
  boundEvents : list A;
  bananaInTheBoxes : list A;
  references : list A
}.
Arguments mkBuckets {A}.
Arguments textAttributes {A}.
Arguments boundAttributes {A}.
Arguments boundEvents {A}.
Arguments bananaInTheBoxes {A}.
Arguments references {A}.

(** The fields [ElementLikeTemplateNode] adds to a template node. *)
Record ElementLike : Type := mkElementLike {
  allAttributes : list NodeRef;
  children : list NodeRef;
  buckets : Buckets NodeRef
}.

(** The concrete classes extending [TemplateNode], with their own
    fields. *)
Inductive NodeClass : Type :=
| TextTemplateNode (text : string)
| InterpolationTemplateNode (text : string)
| ElementTemplateNode (tagName : string) (fields : ElementLike)
| NgTemplateTemplateNode (fields : ElementLike)
| NgContainerTemplateNode (fields : ElementLike)
| TextAttributeTemplateNode (name value : string)
| BoundAttributeTemplateNode (name value : string)
| BoundEventTemplateNode (name handler : string)
| BananaInTheBoxTemplateNode (name value : string)
| ReferenceTemplateNode (text value : string)
| CommentTemplateNode (value : option string)
| PropertyBindingTargetTemplateNode (text name : string)
| EventBindingTargetTemplateNode (text name : string)
| ExpressionTemplateNode
| StatementTemplateNode.

(** [this.constructor.name]. *)
Definition constructorName (c : NodeClass) : string :=
  match c with
  | TextTemplateNode _ => "TextTemplateNode"
  | InterpolationTemplateNode _ => "InterpolationTemplateNode"
  | ElementTemplateNode _ _ => "ElementTemplateNode"
  | NgTemplateTemplateNode _ => "NgTemplateTemplateNode"
  | NgContainerTemplateNode _ => "NgContainerTemplateNode"
  | TextAttributeTemplateNode _ _ => "TextAttributeTemplateNode"
  | BoundAttributeTemplateNode _ _ => "BoundAttributeTemplateNode"
  | BoundEventTemplateNode _ _ => "BoundEventTemplateNode"
  | BananaInTheBoxTemplateNode _ _ => "BananaInTheBoxTemplateNode"
  | ReferenceTemplateNode _ _ => "ReferenceTemplateNode"
  | CommentTemplateNode _ => "CommentTemplateNode"
  | PropertyBindingTargetTemplateNode _ _ => "PropertyBindingTargetTemplateNode"
  | EventBindingTargetTemplateNode _ _ => "EventBindingTargetTemplateNode"
  | ExpressionTemplateNode => "ExpressionTemplateNode"
  | StatementTemplateNode => "StatementTemplateNode"
  end.

(** The fields of the abstract class [TemplateNode] and the concrete
    class of the object. Every node of a store belongs to the store's
    one [template]. *)
Record TemplateNode : Type := mkTemplateNode {
  parentTemplateNode : option NodeRef;
  tokens : list TokenRef;
  locationSpan : LocationSpan;
  class : NodeClass
}.

(** The objects of one document: the document itself and its nodes. *)
Record Store : Type := mkStore {
  template : Template;
  nodes : gmap nat TemplateNode
}.

(** A reference with no object behind it cannot arise in the source;
    using one is reported as this error. *)
Definition noSuchNode : string := "TypeError: no such template node.".

Definition deref (this : NodeRef) (st : Store) : Result TemplateNode :=
  match nodes st !! this with
  | Some n => Ok n
  | None => Throw noSuchNode
  end.

(** A computation on the document run on the store that owns it. *)
Definition onTemplate {A} (c : M Template A) : M Store A :=
  fun st => match c (template st) with
            | Ok (a, t') => Ok (a, mkStore t' (nodes st))
            | Throw m => Throw m
            | OutOfFuel => OutOfFuel
            end.

(** *** Navigation *)

Definition fieldsOf (c : NodeClass) : option ElementLike :=
  match c with
  | ElementTemplateNode _ fields
  | NgTemplateTemplateNode fields
  | NgContainerTemplateNode fields => Some fields
  | _ => None
  end.

(** [getTemplateChildren]: [this.children] for the element-like classes,
    [[]] for every other class. *)
Definition getTemplateChildren (n : TemplateNode) : list NodeRef :=
  match fieldsOf (class n) with
  | Some fields => children fields
  | None => []
  end.

Definition setTemplateParent (this templateParent : NodeRef) : M Store unit :=
  let! self := liftR (deref this) in
  modify (fun st =>
    mkStore (template st)
            (<[this := mkTemplateNode (Some templateParent) (tokens self)
                         (locationSpan self) (class self)]> (nodes st))).

Definition getTemplateParent (this : NodeRef) (st : Store)
  : Result (option NodeRef) :=
  let? self := deref this st in
  Ok (parentTemplateNode self).

Definition getNextTemplateSibling (this : NodeRef) (st : Store)
  : Result (option NodeRef) :=
  let? parent := getTemplateParent this st in
  match parent with
  | Some parent =>
      let? parentNode := deref parent st in
      let children := getTemplateChildren parentNode in
      let index := findIndex (fun child => Nat.eqb child this) children in
      if index =? -1
      then Throw "Expected to have found self in parent's children."
      else
        let nextIndex := index + 1 in
        Ok (Array_get children nextIndex)
  | None =>
      let parent := template st in
      let children := getRoots parent in
      let index := findIndex (fun child => Nat.eqb child this) children in
      if index =? -1
      then Throw "Expected to have found self (root) in template's roots."
      else
        let nextIndex := index + 1 in
        Ok (Array_get children nextIndex)
  end.

(** [throwIfUndefined(value, message)]. *)
Definition throwIfUndefined {A} (value : option A) (message : string)
  : Result A :=
  match value with
  | Some a => Ok a
  | None => Throw message
  end.

Definition getNextTemplateSiblingOrThrow (this : NodeRef) (st : Store)
  : Result NodeRef :=
  let? next := getNextTemplateSibling this st in
  throwIfUndefined next "Expected to have found the next sibling.".

(** A predicate on template nodes, as a caller may pass it. *)
Definition Predicate : Type := Store -> NodeRef -> bool.

(** The [while (queue.length > 0)] loop of [getDescendants]; every turn
    of the loop uses one unit of [fuel]. *)
Fixpoint getDescendants_loop (fuel : nat) (predicate : option Predicate)
    (st : Store) (queue result : list NodeRef) : Result (list NodeRef) :=
  match queue with
  | [] => Ok result
  | node :: queue =>
      match fuel with
      | O => OutOfFuel
      | Datatypes.S fuel =>
          let? n := deref node st in
          let queue := queue ++ getTemplateChildren n in
          let result :=
            match predicate with
            | Some predicate =>
                if predicate st node then result ++ [node] else result
            | None => result
            end in
          getDescendants_loop fuel predicate st queue result
      end
  end.

Definition getDescendants (fuel : nat) (this : NodeRef)
    (predicate : option Predicate) (st : Store) : Result (list NodeRef) :=
  let? self := deref this st in
  let result := [] in
  let queue := getTemplateChildren self in
  getDescendants_loop fuel predicate st queue result.

Fixpoint getDescendant_loop (fuel : nat) (predicate : option Predicate)
    (st : Store) (queue : list NodeRef) : Result (option NodeRef) :=
  match queue with
  | [] => Ok None
  | node :: queue =>
      match fuel with
      | O => OutOfFuel
      | Datatypes.S fuel =>
          let? n := deref node st in
          let queue := queue ++ getTemplateChildren n in
          match predicate with
          | Some predicate =>
              if predicate st node then Ok (Some node)
              else getDescendant_loop fuel (Some predicate) st queue
          | None => getDescendant_loop fuel None st queue
          end
      end
  end.

Definition getDescendant (fuel : nat) (this : NodeRef)
    (predicate : option Predicate) (st : Store) : Result (option NodeRef) :=
  let? self := deref this st in
  let queue := getTemplateChildren self in
  getDescendant_loop fuel predicate st queue.

Definition getDescendantOrThrow (fuel : nat) (this : NodeRef)
    (predicate : option Predicate) (st : Store) : Result NodeRef :=
  let? found := getDescendant fuel this predicate st in
  throwIfUndefined found "Expected to find a descendant of kind.".

(** *** Tokens of a node *)

(** [this.tokens.find(token => token.type == type)]. *)
Fixpoint findTokenOfType (type : TokenType) (t : Template)
    (tokens : list TokenRef) : Result (option TokenRef) :=
  match tokens with
  | [] => Ok None
  | token :: rest =>
      let? tok := getToken token t in
      if decide (Lexer.type tok = type) then Ok (Some token)
      else findTokenOfType type t rest
  end.

Definition getFirstTokenOfType (this : NodeRef) (type : TokenType)
    (st : Store) : Result (option TokenRef) :=
  let? self := deref this st in
  findTokenOfType type (template st) (tokens self).

(** [this.tokens.map(token => token.typeName).join(', ')
     || `(tokens array is empty)`]. *)
Definition tokenTypeNames (t : Template) (tokens : list TokenRef) : string :=
  let names :=
    omap (fun token => typeName <$> Template_tokens t !! token) tokens in
  match join ", " names with
  | EmptyString => "(tokens array is empty)"
  | joined => joined
  end.

Definition getFirstTokenOfTypeOrThrow (this : NodeRef) (type : TokenType)
    (st : Store) : Result TokenRef :=
  let? self := deref this st in
  let? result := getFirstTokenOfType this type st in
  throwIfUndefined result
    ("Expected to find " +:+ getTokenTypeName type +:+ " "
     +:+ "among tokens for " +:+ constructorName (class self) +:+ ": "
     +:+ tokenTypeNames (template st) (tokens self) +:+ ".").

(** *** The mutation protocol *)

Record TextReplaceConfig : Type := mkTextReplaceConfig {
  token : TokenRef;
  newText : string
}.

(** One turn of the [for ... of] loop of [_replaceTextByTokens];
    [this.getTemplate()] is the template of the store. *)
Definition _replaceTextByTokens_step (config : TextReplaceConfig)
  : M Store unit :=
  let! tok := onTemplate (liftR (getToken (token config))) in
  let diff := Z.of_nat (String.length (newText config))
              - getLength (Lexer.locationSpan tok) in
  onTemplate (replaceText (token config) (newText config)) >>
  onTemplate (_forEachTokenAfter (token config) (Token_moveBy diff) false).

Definition _replaceTextByTokens (textReplaceConfigs : list TextReplaceConfig)
  : M Store unit :=
  forEach textReplaceConfigs
    (fun config _ => _replaceTextByTokens_step config) tt.

(** *** Interpolation *)

(** The method exists on the given class only. *)
Definition notAMethod : string := "TypeError: not a function.".

Definition isInterpolation (c : NodeClass) : bool :=
  match c with InterpolationTemplateNode _ => true | _ => false end.
Definition isElement (c : NodeClass) : bool :=
  match c with ElementTemplateNode _ _ => true | _ => false end.

Definition requireClass (test : NodeClass -> bool) (this : NodeRef)
    (st : Store) : Result unit :=
  let? self := deref this st in
  if test (class self) then Ok tt else Throw notAMethod.

Definition getTextToken (this : NodeRef) (st : Store) : Result TokenRef :=
  let? _ := requireClass isInterpolation this st in
  getFirstTokenOfTypeOrThrow this TEXT st.

(** Modelled from the spec: [Token.toString], the token's current
    rendered text. *)
Definition Token_toString (token : TokenRef) (st : Store) : Result string :=
  let? tok := getToken token (template st) in
  Ok (LocationSpan_getText (Lexer.locationSpan tok) (template st)).

Definition getText (this : NodeRef) (st : Store) : Result string :=
  let? token := getTextToken this st in
  Token_toString token st.

Definition changeText (this : NodeRef) (newText : string) : M Store NodeRef :=
  let! token := liftR (getTextToken this) in
  _replaceTextByTokens [ mkTextReplaceConfig token newText ] >>
  ret this.

Definition trimText (this : NodeRef) : M Store NodeRef :=
  let! text := liftR (getText this) in
  let trimmedText := trim text in
  changeText this trimmedText.

(** *** Element-like nodes *)

Definition getTagOpenStartToken (this : NodeRef) (st : Store)
  : Result TokenRef :=
  getFirstTokenOfTypeOrThrow this TAG_OPEN_START st.

Definition getTagEndToken (this : NodeRef) (st : Store) : Result TokenRef :=
  getFirstTokenOfTypeOrThrow this TAG_CLOSE st.

Definition getStartTagNameLocationSpan (this : NodeRef) (st : Store)
  : Result LocationSpan :=
  let? token := getTagOpenStartToken this st in
  let? tok := getToken token (template st) in
  Ok (moveStartBy 1 (Lexer.locationSpan tok)). (* leading "<" *)

Definition getEndTagNameLocationSpan (this : NodeRef) (st : Store)
  : Result LocationSpan :=
  let? token := getTagEndToken this st in
  let? tok := getToken token (template st) in
  Ok (moveEndBy (-1) (Lexer.locationSpan tok)). (* trailing ">" *)

(** [ElementTemplateNode.getTagName]. *)
Definition getTagName (this : NodeRef) (st : Store) : Result string :=
  let? _ := requireClass isElement this st in
  let? sp := getStartTagNameLocationSpan this st in
  Ok (LocationSpan_getText sp (template st)).

Definition changeTagName (this : NodeRef) (newTagName : string)
  : M Store NodeRef :=
  let! _ := liftR (requireClass isElement this) in
  let! openToken := liftR (getTagOpenStartToken this) in
  let! closeToken := liftR (getTagEndToken this) in
  _replaceTextByTokens
    [ mkTextReplaceConfig openToken ("<" +:+ newTagName);
      mkTextReplaceConfig closeToken ("</" +:+ newTagName +:+ ">") ] >>
  ret this.

(** *** Attribute classification *)

Section Classification.
Context {A : Type}.
(** The five type guards of [template-nodes-type-guards], which is not
    among the source files, and the class name of an attribute. *)
Variables isTextAttribute isBoundAttribute isBoundEvent
          isBananaInTheBox isReference : A -> bool.
Variable constructorNameOf : A -> string.

Definition emptyBuckets : Buckets A := mkBuckets [] [] [] [] [].

(** The body of the [for ... of] loop of the constructor. *)
Definition classify_step (attribute : A) (b : Buckets A)
  : Result (Buckets A) :=
  if isTextAttribute attribute then
    Ok (mkBuckets (textAttributes b ++ [attribute]) (boundAttributes b)
          (boundEvents b) (bananaInTheBoxes b) (references b))
  else if isBoundAttribute attribute then
    Ok (mkBuckets (textAttributes b) (boundAttributes b ++ [attribute])
          (boundEvents b) (bananaInTheBoxes b) (references b))
  else if isBoundEvent attribute then
    Ok (mkBuckets (textAttributes b) (boundAttributes b)
          (boundEvents b ++ [attribute]) (bananaInTheBoxes b) (references b))
  else if isBananaInTheBox attribute then
    Ok (mkBuckets (textAttributes b) (boundAttributes b)
          (boundEvents b) (bananaInTheBoxes b ++ [attribute]) (references b))
  else if isReference attribute then
    Ok (mkBuckets (textAttributes b) (boundAttributes b)
          (boundEvents b) (bananaInTheBoxes b) (references b ++ [attribute]))
  else
    Throw ("Unexpected type of attribute "
           +:+ constructorNameOf attribute +:+ ".").

Fixpoint classify (allAttributes : list A) (b : Buckets A)
  : Result (Buckets A) :=
  match allAttributes with
  | [] => Ok b
  | attribute :: rest =>
      let? b' := classify_step attribute b in
      classify rest b'
  end.

End Classification.

(** The constructor of [ElementLikeTemplateNode], given the five type
    guards it imports; [subclass] is the concrete class being constructed.
    The new object has no parent yet. *)
Definition ElementLikeTemplateNode_constructor
    (isTextAttribute isBoundAttribute isBoundEvent isBananaInTheBox
       isReference : NodeRef -> bool)
    (constructorNameOf : NodeRef -> string)
    (locationSpan : LocationSpan) (tokens : list TokenRef)
    (allAttributes : list NodeRef) (children : list NodeRef)
    (subclass : ElementLike -> NodeClass) : Result TemplateNode :=
  let? b := classify isTextAttribute isBoundAttribute isBoundEvent
              isBananaInTheBox isReference constructorNameOf
              allAttributes emptyBuckets in
  Ok (mkTemplateNode None tokens locationSpan
        (subclass (mkElementLike allAttributes children b))).

(** Modelled from the spec: the five classification predicates on the
    nodes of a store, one per attribute class. *)
Definition hasClass (test : NodeClass -> bool) (st : Store) (r : NodeRef)
  : bool :=
  match nodes st !! r with
  | Some n => test (class n)
  | None => false
  end.
Definition isTextAttribute : Store -> NodeRef -> bool :=
  hasClass (fun c => match c with TextAttributeTemplateNode _ _ => true
                                | _ => false end).
Definition isBoundAttribute : Store -> NodeRef -> bool :=
  hasClass (fun c => match c with BoundAttributeTemplateNode _ _ => true
                                | _ => false end).
Definition isBoundEvent : Store -> NodeRef -> bool :=
  hasClass (fun c => match c with BoundEventTemplateNode _ _ => true
                                | _ => false end).
Definition isBananaInTheBox : Store -> NodeRef -> bool :=
  hasClass (fun c => match c with BananaInTheBoxTemplateNode _ _ => true
                                | _ => false end).
Definition isReference : Store -> NodeRef -> bool :=
  hasClass (fun c => match c with ReferenceTemplateNode _ _ => true
                                | _ => false end).

Definition constructorNameOf (st : Store) (r : NodeRef) : string :=
  match nodes st !! r with
  | Some n => constructorName (class n)
  | None => "undefined"
  end.

(** [new ElementTemplateNode(...)] in a store, with the guards above. *)
Definition newElementTemplateNode (st : Store) (locationSpan : LocationSpan)
    (tokens : list TokenRef) (tagName : string)
    (allAttributes : list NodeRef) (children : list NodeRef)
  : Result TemplateNode :=
  ElementLikeTemplateNode_constructor
    (isTextAttribute st) (isBoundAttribute st) (isBoundEvent st)
    (isBananaInTheBox st) (isReference st) (constructorNameOf st)
    locationSpan tokens allAttributes children (ElementTemplateNode tagName).

(** *** Further accessors of [TemplateNode] *)

(** A predicate on tokens, as a caller may pass it. *)
Definition TokenPredicate : Type := Token -> bool.

(** [getTokens(predicate?)]: the node's own tokens, filtered when a
    predicate is given. A token reference outside the document has no
    token to test and is reported as an error. *)
Fixpoint filterTokens (predicate : TokenPredicate) (t : Template)
    (tokens : list TokenRef) : Result (list TokenRef) :=
  match tokens with
  | [] => Ok []
  | token :: rest =>
      let? tok := getToken token t in
      let? kept := filterTokens predicate t rest in
      Ok (if predicate tok then token :: kept else kept)
  end.

Definition getTokens (this : NodeRef) (predicate : option TokenPredicate)
    (st : Store) : Result (list TokenRef) :=
  let? self := deref this st in
  match predicate with
  | None => Ok (tokens self)
  | Some predicate => filterTokens predicate (template st) (tokens self)
  end.

Definition getFirstTokenIndex (this : NodeRef) (st : Store) : Result nat :=
  let? self := deref this st in
  let? firstToken :=
    getFirstElementOrThrow (tokens self) "The tokens array is empty." in
  getTokenIndex firstToken (template st).

Definition forEachTokenAfterHere (this : NodeRef) (fn : Token -> Token)
  : M Store unit :=
  let! self := liftR (deref this) in
  let! lastToken :=
    liftR (fun _ =>
      getLastElementOrThrow (tokens self) "The tokens array is empty.") in
  onTemplate (_forEachTokenAfter lastToken fn false).

Definition forEachTokenHere (this : NodeRef) (fn : Token -> Token)
  : M Store unit :=
  let! self := liftR (deref this) in
  let! firstToken :=
    liftR (fun _ =>
      getFirstElementOrThrow (tokens self) "The tokens array is empty.") in
  let! lastToken :=
    liftR (fun _ =>
      getLastElementOrThrow (tokens self) "The tokens array is empty.") in
  onTemplate (_forEachTokenBetween firstToken lastToken fn true true).

Definition forEachTokenHereAndAfterHere (this : NodeRef)
    (fn : Token -> Token) : M Store unit :=
  forEachTokenHere this fn >>
  forEachTokenAfterHere this fn.

(** *** Further accessors of element-like nodes *)

Definition elementLikeFields (this : NodeRef) (st : Store)
  : Result ElementLike :=
  let? self := deref this st in
  match fieldsOf (class self) with
  | Some fields => Ok fields
  | None => Throw notAMethod
  end.

(** [arr.find(p)]. *)
Definition Array_find {A} (p : A -> bool) (arr : list A) : option A :=
  List.find p arr.

Definition getAttributes (this : NodeRef) (predicate : option Predicate)
    (st : Store) : Result (list NodeRef) :=
  let? fields := elementLikeFields this st in
  match predicate with
  | None => Ok (allAttributes fields)
  | Some predicate => Ok (List.filter (predicate st) (allAttributes fields))
  end.

Definition getFirstAttribute (this : NodeRef) (predicate : option Predicate)
    (st : Store) : Result (option NodeRef) :=
  let? fields := elementLikeFields this st in
  match predicate with
  | None => Ok (Array_get (allAttributes fields) 0)
  | Some predicate => Ok (Array_find (predicate st) (allAttributes fields))
  end.

Definition getFirstAttributeOrThrow (this : NodeRef)
    (predicate : option Predicate) (st : Store) : Result NodeRef :=
  let? found := getFirstAttribute this predicate st in
  throwIfUndefined found "Expected to find an attribute.".

(** [ReferenceTemplateNode.getName]: the text without its leading [#]. *)
Definition ReferenceTemplateNode_getName (this : NodeRef) (st : Store)
  : Result string :=
  let? self := deref this st in
  match class self with
  | ReferenceTemplateNode text _ =>
      (* Remove leading '#' *)
      Ok (strDrop 1 text)
  | _ => Throw notAMethod
  end.

(** [this.references.find(reference => reference.getName() ==
    referenceName)]. *)
Fixpoint findReferenceNamed (referenceName : string) (st : Store)
    (references : list NodeRef) : Result (option NodeRef) :=
  match references with
  | [] => Ok None
  | reference :: rest =>
      let? name := ReferenceTemplateNode_getName reference st in
      if String.eqb name referenceName then Ok (Some reference)
      else findReferenceNamed referenceName st rest
  end.

Definition getReferenceNamed (this : NodeRef) (referenceName : string)
    (st : Store) : Result (option NodeRef) :=
  let? fields := elementLikeFields this st in
  findReferenceNamed referenceName st (references (buckets fields)).

Definition hasReferenceNamed (this : NodeRef) (referenceName : string)
    (st : Store) : Result bool :=
  let? found := getReferenceNamed this referenceName st in
  Ok (match found with Some _ => true | None => false end).

(** [ElementTemplateNode.hasTagName]. *)
Definition hasTagName (this : NodeRef) (tagName : string) (st : Store)
  : Result bool :=
  let? name := getTagName this st in
  Ok (String.eqb name tagName).

(** *** Attributes *)

Definition isAttribute (c : NodeClass) : bool :=
  match c with
  | TextAttributeTemplateNode _ _ | BoundAttributeTemplateNode _ _
  | BoundEventTemplateNode _ _ | BananaInTheBoxTemplateNode _ _
  | ReferenceTemplateNode _ _ => true
  | _ => false
  end.

Definition getNameToken (this : NodeRef) (st : Store) : Result TokenRef :=
  let? _ := requireClass isAttribute this st in
  getFirstTokenOfTypeOrThrow this ATTR_NAME st.

Definition getValueToken (this : NodeRef) (st : Store)
  : Result (option TokenRef) :=
  let? _ := requireClass isAttribute this st in
  getFirstTokenOfType this ATTR_VALUE st.

Definition changeName (this : NodeRef) (newName : string) : M Store NodeRef :=
  let! token := liftR (getNameToken this) in
  _replaceTextByTokens [ mkTextReplaceConfig token newName ] >>
  ret this.

End TemplateNodes.

(* ===================================================================== *)
(** ** Sample documents *)
(* ===================================================================== *)

Module Samples.
Import Ast TemplateNodes.

(** The raw tree of [<div><span>{{x}}</span></div>]: offsets
    [<div>] 0-5, [<span>] 5-11, [{{x}}] 11-16, [</span>] 16-23,
    [</div>] 23-29. *)
Definition interpolationText : Node :=
  NText (mkText [mkToken TEXT (span 11 16)] "{{x}}" (span 11 16)).

Definition spanElement : Node :=
  NElement (mkElement
    [mkToken TAG_OPEN_START (span 5 10);
     mkToken (OtherTokenType "TAG_OPEN_END") (span 10 11);
     mkToken TAG_CLOSE (span 16 23)]
    "span" [] [interpolationText] (span 5 23)
    (Some (span 5 11)) (Some (span 16 23))).

Definition divElement : Node :=
  NElement (mkElement
    [mkToken TAG_OPEN_START (span 0 4);
     mkToken (OtherTokenType "TAG_OPEN_END") (span 4 5);
     mkToken TAG_CLOSE (span 23 29)]
    "div" [] [spanElement] (span 0 29)
    (Some (span 0 5)) (Some (span 23 29))).

Definition nestedRawTree : list Node := [divElement].

(** The mutable tree of the same source: node 0 is the [div], node 1
    the [span], node 2 the interpolation. *)
Definition noAttributes : ElementLike := mkElementLike [] [] emptyBuckets.

Definition nestedStore : Store :=
  mkStore
    (mkTemplate "<div><span>{{x}}</span></div>"
       [mkToken TAG_OPEN_START (span 0 4);
        mkToken (OtherTokenType "TAG_OPEN_END") (span 4 5);
        mkToken TAG_OPEN_START (span 5 10);
        mkToken (OtherTokenType "TAG_OPEN_END") (span 10 11);
        mkToken TEXT (span 11 16);
        mkToken TAG_CLOSE (span 16 23);
        mkToken TAG_CLOSE (span 23 29);
        mkToken (OtherTokenType "EOF") (span 29 29)]
       [0%nat])
    (list_to_map
       [(0%nat, mkTemplateNode None [0; 1; 6]%nat (span 0 29)
                  (ElementTemplateNode "div"
                     (mkElementLike [] [1%nat] emptyBuckets)));
        (1%nat, mkTemplateNode (Some 0%nat) [2; 3; 5]%nat (span 5 23)
                  (ElementTemplateNode "span"
                     (mkElementLike [] [2%nat] emptyBuckets)));
        (2%nat, mkTemplateNode (Some 1%nat) [4%nat] (span 11 16)
                  (InterpolationTemplateNode "{{x}}"))]).



(** A visitor without state that answers with the name of the kind it
    is dispatched to, and whose hook answers for comments only. *)
Definition kindVisitor : Visitor unit :=
  {| visit := Some (fun ast _ =>
                      match ast with
                      | NComment _ => ret (JStr "hook")
                      | _ => ret Undefined
                      end);
     visitElement := fun _ _ => ret (JStr "element");
     visitAttribute := fun _ _ => ret (JStr "attribute");
     visitText := fun _ _ => ret Undefined;
     visitComment := fun _ _ => ret (JStr "comment");
     visitExpansion := fun _ _ => ret (JStr "expansion");
     visitExpansionCase := fun _ _ => ret (JStr "case") |}.

(** Attributes of [<input [(ngModel)]=name (click)=go() #box>] and a
    node that is no attribute. *)
Definition attributeStore : Store :=
  mkStore
    (mkTemplate "<input [(ngModel)]=name (click)=go() #box>" [] [])
    (list_to_map
       [(1%nat, mkTemplateNode None [] (span 7 23)
                  (BananaInTheBoxTemplateNode "ngModel" "name"));
        (2%nat, mkTemplateNode None [] (span 24 36)
                  (BoundEventTemplateNode "click" "go()"));
        (3%nat, mkTemplateNode None [] (span 37 41)
                  (ReferenceTemplateNode "#box" EmptyString));
        (4%nat, mkTemplateNode None [] (span 0 0)
                  (CommentTemplateNode None))]).

(** The mutable tree of [<ul><li></li><li></li></ul><p></p>], tokens
    left out: node 0 is the [ul] with the two [li] (nodes 1 and 2) as
    children, node 3 the [p]; node 4 is an [li] whose parent link names
    the [ul] although the [ul] does not list it. *)
Definition listStore : Store :=
  mkStore
    (mkTemplate "<ul><li></li><li></li></ul><p></p>" [] [0%nat; 3%nat])
    (list_to_map
       [(0%nat, mkTemplateNode None [] (span 0 27)
                  (ElementTemplateNode "ul"
                     (mkElementLike [] [1%nat; 2%nat] emptyBuckets)));
        (1%nat, mkTemplateNode (Some 0%nat) [] (span 4 13)
                  (ElementTemplateNode "li" noAttributes));
        (2%nat, mkTemplateNode (Some 0%nat) [] (span 13 22)
                  (ElementTemplateNode "li" noAttributes));
        (3%nat, mkTemplateNode None [] (span 27 34)
                  (ElementTemplateNode "p" noAttributes));
        (4%nat, mkTemplateNode (Some 0%nat) [] (span 0 0)
                  (ElementTemplateNode "li" noAttributes));
        (5%nat, mkTemplateNode None [] (span 0 0)
                  (ElementTemplateNode "p" noAttributes))]).


(** The document [<input>] as one element node (node 0): a void element,
    with no close tag. *)
Definition voidStore : Store :=
  mkStore
    (mkTemplate "<input>"
       [mkToken TAG_OPEN_START (span 0 6);
        mkToken (OtherTokenType "TAG_OPEN_END_VOID") (span 6 7)]
       [0%nat])
    {[ 0%nat := mkTemplateNode None [0; 1]%nat (span 0 7)
                  (ElementTemplateNode "input" noAttributes) ]}.

(** The no-break space U+00A0 as a text of one code unit. *)
Definition nbsp : string := String (ascii_of_nat 160) EmptyString.

(** A document that is one interpolation (node 0) with white space around
    it, a no-break space at either end. *)
Definition paddedStore : Store :=
  mkStore
    (mkTemplate (nbsp +:+ " {{ x }} " +:+ nbsp)
       [mkToken TEXT (span 0 11);
        mkToken (OtherTokenType "EOF") (span 11 11)]
       [0%nat])
    {[ 0%nat := mkTemplateNode None [0%nat] (span 0 11)
                  (InterpolationTemplateNode
                     (nbsp +:+ " {{ x }} " +:+ nbsp)) ]}.

(** The document [<a href='x'>]: node 0 is the element, node 1 its
    attribute with the name token [href] and the value token [x]. *)
Definition linkStore : Store :=
  mkStore
    (mkTemplate "<a href='x'>"
       [mkToken TAG_OPEN_START (span 0 2);
        mkToken ATTR_NAME (span 3 7);
        mkToken ATTR_VALUE (span 9 10);
        mkToken (OtherTokenType "TAG_OPEN_END") (span 11 12)]
       [0%nat])
    (list_to_map
       [(0%nat, mkTemplateNode None [0; 1; 2; 3]%nat (span 0 12)
                  (ElementTemplateNode "a"
                     (mkElementLike [1%nat] []
                        (mkBuckets [1%nat] [] [] [] []))));
        (1%nat, mkTemplateNode (Some 0%nat) [1; 2]%nat (span 3 11)
                  (TextAttributeTemplateNode "href" "x"))]).

(** The element of [<input [(ngModel)]=name (click)=go() #box>] (node 0)
    with its three attributes (nodes 1 to 3) sorted into its buckets. *)
Definition inputStore : Store :=
  mkStore
    (mkTemplate "<input [(ngModel)]=name (click)=go() #box>" [] [0%nat])
    (list_to_map
       [(0%nat, mkTemplateNode None [] (span 0 42)
                  (ElementTemplateNode "input"
                     (mkElementLike [1; 2; 3]%nat []
                        (mkBuckets [] [] [2%nat] [1%nat] [3%nat]))));
        (1%nat, mkTemplateNode (Some 0%nat) [] (span 7 23)
                  (BananaInTheBoxTemplateNode "ngModel" "name"));
        (2%nat, mkTemplateNode (Some 0%nat) [] (span 24 36)
                  (BoundEventTemplateNode "click" "go()"));
        (3%nat, mkTemplateNode (Some 0%nat) [] (span 37 41)
                  (ReferenceTemplateNode "#box" EmptyString))]).

End Samples.

(* ===================================================================== *)
(** ** Notions used to state the properties *)
(* ===================================================================== *)

Module Notions.
Import Ast TemplateNodes.

(** The visitor object of [findNode] at a given unrolling depth. *)
Definition findNode_object (position : Z) (fuel : nat)
  : Visitor (list Node) :=
  new fuel (findNode_visitor position).

(** What a call may do to [path]: push elements at its end. *)
Definition pushesElements (path path' : list Node) : Prop :=
  exists added,
    path' = path ++ added
    /\ Forall (fun ast => instanceofElement ast = true) added.

(** The five buckets of an element-like node, in declaration order. *)
Definition bucketLists {A} (b : Buckets A) : list (list A) :=
  [textAttributes b; boundAttributes b; boundEvents b;
   bananaInTheBoxes b; references b].

(** No value occurs in two different lists of [ls]. *)
Definition pairwiseDisjoint {A} (ls : list (list A)) : Prop :=
  forall (i j : nat) (li lj : list A) (x : A),
    i <> j -> ls !! i = Some li -> ls !! j = Some lj ->
    x ∈ li -> x ∈ lj -> False.

(** The length delta of replacing the text of [tok] by [newText]. *)
Definition editDelta (tok : Token) (newText : string) : Z :=
  Z.of_nat (String.length newText) - getLength (Lexer.locationSpan tok).

(** The token [tok] once its text is [newText]. *)
Definition editedToken (tok : Token) (newText : string) : Token :=
  mkToken (type tok)
    (span (getOffset (getStart (Lexer.locationSpan tok)))
          (getOffset (getStart (Lexer.locationSpan tok))
           + Z.of_nat (String.length newText))).

(** A span lies within a text. *)
Definition withinText (sp : LocationSpan) (text : string) : Prop :=
  0 <= getOffset (getStart sp) <= getOffset (getEnd sp)
  /\ getOffset (getEnd sp) <= Z.of_nat (String.length text).

(** Each token ends before the next one starts. *)
Definition spansOrdered (toks : list Token) : Prop :=
  forall (i j : nat) (ti tj : Token),
    (i < j)%nat -> toks !! i = Some ti -> toks !! j = Some tj ->
    getOffset (getEnd (Lexer.locationSpan ti))
    <= getOffset (getStart (Lexer.locationSpan tj)).

(** A document whose token spans lie within its text, in document order
    and without overlap. *)
Definition wellFormed (t : Template) : Prop :=
  (forall (i : nat) (tok : Token),
     Template_tokens t !! i = Some tok ->
     withinText (Lexer.locationSpan tok) (Template_text t))
  /\ spansOrdered (Template_tokens t).

(** The rendered text of the token at index [i], when there is one. *)
Definition renderedAt (t : Template) (i : nat) : option string :=
  (fun tok => LocationSpan_getText (Lexer.locationSpan tok) t)
  <$> Template_tokens t !! i.

(** The document after the text of its token [T] (which is [tok]) has
    been replaced by [newText]. *)
Definition editedTemplate (t : Template) (T : nat) (tok : Token)
    (newText : string) : Template :=
  mkTemplate
    (splice (Lexer.locationSpan tok) newText (Template_text t))
    (take (Datatypes.S T)
       (<[T := editedToken tok newText]> (Template_tokens t))
     ++ (Token_moveBy (editDelta tok newText)
         <$> drop (Datatypes.S T)
               (<[T := editedToken tok newText]> (Template_tokens t))))
    (getRoots t).

(** [y] is one of the template children of the node [x]. *)
Definition childOf (st : Store) (x y : nat) : Prop :=
  exists n, nodes st !! x = Some n /\ y ∈ getTemplateChildren n.

(** [x] is a child of [this] or a descendant of one of its children. *)
Definition descendantOf (st : Store) (this x : nat) : Prop :=
  exists c, childOf st this c /\ rtc (childOf st) c x.

(** The predicate every node satisfies. *)
Definition anyNode : Predicate := fun _ _ => true.

(** The sum of [f] over a list of nodes. *)
Definition total (f : nat -> nat) (l : list nat) : nat :=
  foldr (fun x sum => (f x + sum)%nat) 0%nat l.

(** The nodes below [x] form a finite tree of depth at most [h]: [x] is a
    node of the store, and so is every node reached from it through
    [getTemplateChildren], which takes at most [h] steps. *)
Fixpoint depthAtMost (st : Store) (h x : nat) {struct h} : Prop :=
  match nodes st !! x with
  | None => False
  | Some n =>
      match h with
      | O => getTemplateChildren n = []
      | Datatypes.S h' => Forall (depthAtMost st h') (getTemplateChildren n)
      end
  end.

(** The number of nodes met on the way down from [x], [x] included, going
    at most [h] steps deep; a node reached along two ways counts twice. *)
Fixpoint visits (st : Store) (h x : nat) {struct h} : nat :=
  Datatypes.S
    match h with
    | O => 0%nat
    | Datatypes.S h' =>
        match nodes st !! x with
        | Some n => total (visits st h') (getTemplateChildren n)
        | None => 0%nat
        end
    end.

(** The test of [findNode]: the computed span of the node holds the
    position. *)
Definition contains (position : Z) (ast : Node) : bool :=
  (start (spanOf ast) <=? position) && (position <? end_ (spanOf ast)).

(** The nodes holding the position, from [ast] down: [ast] itself when it
    holds the position, then, child by child, those of its children; a
    node that does not hold the position hides all that is below it. *)
Fixpoint containingChain (position : Z) (ast : Node) : list Node :=
  if contains position ast then
    ast :: match ast with
           | NElement (mkElement _ _ _ children _ _ _) =>
               (fix chains (cs : list Node) : list Node :=
                  match cs with
                  | [] => []
                  | c :: cs' => containingChain position c ++ chains cs'
                  end) children
           | _ => []
           end
  else [].

Definition containingChains (position : Z) (nodes : list Node) : list Node :=
  concat (containingChain position <$> nodes).

(** What the plain [RecursiveVisitor] answers for a node: an empty array
    for an expansion, nothing it would keep for any other kind. *)
Definition recursiveResult (ast : Node) : list Any :=
  match ast with
  | NExpansion _ => [JArr []]
  | _ => []
  end.

(** The plain [RecursiveVisitor] object at a given unrolling depth. *)
Definition recursive_object (S : Type) (fuel : nat) : Visitor S :=
  new fuel (RecursiveVisitor None).

End Notions.
Import Notions.

(* ===================================================================== *)
(** ** Properties of the raw parse tree and visitor *)
(* ===================================================================== *)

Section MonadFacts.
Context {S : Type}.

Lemma bind_ret_l {A B} (a : A) (k : A -> M S B) (s : S) :
  bind (ret a) k s = k a s.
Proof. reflexivity. Qed.

Lemma bind_assoc {A B C} (c : M S A) (k : A -> M S B) (h : B -> M S C) s :
  bind (bind c k) h s = bind c (fun a => bind (k a) h) s.
Proof. unfold bind. destruct (c s) as [[a s']| |]; reflexivity. Qed.

Lemma bind_ext {A B} (c : M S A) (k k' : A -> M S B) s :
  (forall a s', k a s' = k' a s') -> bind c k s = bind c k' s.
Proof.
  intros Hk. unfold bind. destruct (c s) as [[a s']| |]; auto.
Qed.
End MonadFacts.

Section VisitAll.
Import Ast.
Context {S : Type}.
Variable visitor : Visitor S.
Variable context : Any.

(** The accumulating loop of [visitAll], started from any [result]. *)
Lemma visitAll_loop (nodes : list Node) (result : list Any) (s : S) :
  forEach nodes
    (fun ast result =>
       let! astResult := visitAll_visit visitor context ast in
       if truthy astResult then ret (result ++ [astResult]) else ret result)
    result s
  = (let! results := mapM (visitAll_visit visitor context) nodes in
     ret (result ++ List.filter truthy results)) s.
Proof.
  revert result s. induction nodes as [|ast nodes IH]; intros result s.
  - cbn. unfold bind, ret. cbn. by rewrite app_nil_r.
  - simpl. rewrite !bind_assoc. apply bind_ext. intros r s'.
    rewrite bind_assoc.
    destruct (truthy r) eqn:Hr.
    + rewrite bind_ret_l, IH. apply bind_ext. intros rs s''.
      rewrite bind_ret_l. simpl. rewrite Hr. unfold ret.
      by rewrite <- app_assoc.
    + rewrite bind_ret_l, IH. apply bind_ext. intros rs s''.
      rewrite bind_ret_l. simpl. by rewrite Hr.
Qed.
End VisitAll.

Section SpanOf.
Import Ast.

(** The inner walk of [spanOf] to the last child. *)
Lemma spanOf_last_child (tokens : list Token) (name : string)
    (attrs : list Attribute) (children : list Node) (c : Node)
    (sp : LocationSpan) (startSpan : option LocationSpan) :
  spanOf (NElement (mkElement tokens name attrs (children ++ [c]) sp
                      startSpan None))
  = mkSpan (getOffset (getStart sp)) (end_ (spanOf c)).
Proof.
  simpl. induction children as [|c' children IH]; [reflexivity|].
  simpl. destruct (children ++ [c]) eqn:E; [|exact IH].
  by destruct children.
Qed.

(** A node that is no [Element] has an empty span. *)
Lemma spanOf_not_element (ast : Node) :
  instanceofElement ast = false ->
  spanOf ast = mkSpan (getOffset (getStart (locationSpan ast)))
                      (getOffset (getStart (locationSpan ast))).
Proof. destruct ast; simpl; intros H; try reflexivity; discriminate. Qed.

Lemma spanOf_start (ast : Node) :
  start (spanOf ast) = getOffset (getStart (locationSpan ast)).
Proof.
  destruct ast as [t|e|c|a|e|c]; try reflexivity.
  destruct e as [tokens name attrs children sp startSpan [endSpan|]];
    [reflexivity|].
  destruct children as [|c children] using rev_ind; [reflexivity|].
  by rewrite spanOf_last_child.
Qed.
End SpanOf.

(** C5. [spanOf] on an [Element] starts at the node's start offset and ends
    at the start offset of the explicit end-tag span when there is one,
    otherwise at the computed end of its last child when it has children,
    otherwise at the node's own start offset; on each of the five other
    kinds it is the empty span at the node's start offset. *)
Theorem C5_spanOf_by_kind :
  (forall tokens name attrs children sp startSpan endSpan,
     Ast.spanOf (Ast.NElement (Ast.mkElement tokens name attrs children sp
                                 startSpan (Some endSpan)))
     = Ast.mkSpan (getOffset (getStart sp)) (getOffset (getStart endSpan)))
  /\ (forall tokens name attrs children lastChild sp startSpan,
        Ast.spanOf (Ast.NElement (Ast.mkElement tokens name attrs
                                    (children ++ [lastChild]) sp startSpan None))
        = Ast.mkSpan (getOffset (getStart sp))
                     (Ast.end_ (Ast.spanOf lastChild)))
  /\ (forall tokens name attrs sp startSpan,
        Ast.spanOf (Ast.NElement (Ast.mkElement tokens name attrs [] sp
                                    startSpan None))
        = Ast.mkSpan (getOffset (getStart sp)) (getOffset (getStart sp)))
  /\ (forall t, Ast.spanOf (Ast.NText t)
                = Ast.mkSpan (getOffset (getStart (Ast.Text_locationSpan t)))
                             (getOffset (getStart (Ast.Text_locationSpan t))))
  /\ (forall e, Ast.spanOf (Ast.NExpansion e)
                = Ast.mkSpan
                    (getOffset (getStart (Ast.Expansion_locationSpan e)))
                    (getOffset (getStart (Ast.Expansion_locationSpan e))))
  /\ (forall c, Ast.spanOf (Ast.NExpansionCase c)
                = Ast.mkSpan
                    (getOffset (getStart (Ast.ExpansionCase_locationSpan c)))
                    (getOffset (getStart (Ast.ExpansionCase_locationSpan c))))
  /\ (forall a, Ast.spanOf (Ast.NAttribute a)
                = Ast.mkSpan
                    (getOffset (getStart (Ast.Attribute_locationSpan a)))
                    (getOffset (getStart (Ast.Attribute_locationSpan a))))
  /\ (forall c, Ast.spanOf (Ast.NComment c)
                = Ast.mkSpan
                    (getOffset (getStart (Ast.Comment_locationSpan c)))
                    (getOffset (getStart (Ast.Comment_locationSpan c)))).
Proof.
  repeat split; intros; try reflexivity.
  apply spanOf_last_child.
Qed.

(** C6. [visitAll] returns exactly the truthy per-node results in input
    order. The per-node result is that of the generic hook when the visitor
    has one and its result is truthy, the kind-specific dispatch being
    skipped; it is that of the kind-specific dispatch, run after the hook,
    when the hook's result is falsy, and that of the dispatch alone when
    there is no hook. *)
Theorem C6_visitAll_collects_truthy {S : Type} (visitor : Ast.Visitor S)
    (nodes : list Ast.Node) (context : Any) (s : S) :
  Ast.visitAll visitor nodes context s
  = (let! results := mapM (Ast.visitAll_visit visitor context) nodes in
     ret (List.filter truthy results)) s
  /\ (forall hook ast r s',
        Ast.visit visitor = Some hook ->
        hook ast context s = Ok (r, s') ->
        truthy r = true ->
        Ast.visitAll_visit visitor context ast s = Ok (r, s'))
  /\ (forall hook ast r s',
        Ast.visit visitor = Some hook ->
        hook ast context s = Ok (r, s') ->
        truthy r = false ->
        Ast.visitAll_visit visitor context ast s
        = Ast.Node_visit ast visitor context s')
  /\ (forall ast,
        Ast.visit visitor = None ->
        Ast.visitAll_visit visitor context ast s
        = Ast.Node_visit ast visitor context s).
Proof.
  split; [|split; [|split]].
  - unfold Ast.visitAll. by rewrite visitAll_loop.
  - intros hook ast r s' Hhook Hrun Hr. unfold Ast.visitAll_visit.
    rewrite Hhook. unfold bind. by rewrite Hrun, Hr.
  - intros hook ast r s' Hhook Hrun Hr. unfold Ast.visitAll_visit.
    rewrite Hhook. unfold bind. by rewrite Hrun, Hr.
  - intros ast Hnone. unfold Ast.visitAll_visit. by rewrite Hnone.
Qed.

(** C6 on a comment, a text, an element and an attribute, with a visitor
    whose hook answers for the comment: the text's falsy result is left
    out; and on an expansion with the hook-less [RecursiveVisitor]. *)
Lemma C6_visitAll_collects_truthy_witness :
  let comment := Ast.NComment (Ast.mkComment [] None (span 0 7)) in
  let attribute :=
    Ast.NAttribute (Ast.mkAttribute [] "id" "a" (span 5 11) None) in
  let expansion :=
    Ast.NExpansion (Ast.mkExpansion [] "n" "plural" [] (span 0 9) (span 1 2)) in
  let nodes :=
    [comment; Samples.interpolationText; Samples.divElement; attribute] in
  let recursive : Ast.Visitor unit := Ast.new 1 (Ast.RecursiveVisitor None) in
  Ast.visitAll Samples.kindVisitor nodes Null tt
  = Ok ([JStr "hook"; JStr "element"; JStr "attribute"], tt)
  /\ Ast.visitAll_visit Samples.kindVisitor Null comment tt
     = Ok (JStr "hook", tt)
  /\ Ast.visitAll_visit Samples.kindVisitor Null Samples.divElement tt
     = Ok (JStr "element", tt)
  /\ Ast.visitAll_visit recursive Null expansion tt = Ok (JArr [], tt).
Proof.
  intros comment attribute expansion nodes recursive.
  destruct (C6_visitAll_collects_truthy Samples.kindVisitor nodes Null tt)
    as (Hall & Htruthy & Hfalsy & _).
  destruct (C6_visitAll_collects_truthy recursive [expansion] Null tt)
    as (_ & _ & _ & Hnohook).
  split; [|split; [|split]].
  - rewrite Hall. reflexivity.
  - eapply Htruthy; reflexivity.
  - erewrite Hfalsy; reflexivity.
  - rewrite Hnohook; reflexivity.
Defined.

Section FindNode.
Import Ast.
Variable position : Z.

Lemma pushesElements_refl path : pushesElements path path.
Proof. exists []. split; [by rewrite app_nil_r | constructor]. Qed.

Lemma pushesElements_trans p1 p2 p3 :
  pushesElements p1 p2 -> pushesElements p2 p3 -> pushesElements p1 p3.
Proof.
  intros (a & -> & Ha) (b & -> & Hb). exists (a ++ b).
  split; [by rewrite app_assoc | by apply Forall_app].
Qed.

Lemma mapM_pushesElements {B} (f : Node -> M (list Node) B) nodes :
  (forall ast p y p', f ast p = Ok (y, p') -> pushesElements p p') ->
  forall p ys p', mapM f nodes p = Ok (ys, p') -> pushesElements p p'.
Proof.
  intros Hf. induction nodes as [|ast nodes IH]; intros p ys p' Hrun.
  - inversion Hrun; subst. apply pushesElements_refl.
  - simpl in Hrun. unfold bind at 1 in Hrun.
    destruct (f ast p) as [[y p1]| |] eqn:E1; try discriminate.
    unfold bind at 1 in Hrun.
    destruct (mapM f nodes p1) as [[ys' p2]| |] eqn:E2; try discriminate.
    inversion Hrun; subst.
    eapply pushesElements_trans; eauto.
Qed.

Lemma visitAll_state {S} (v : Visitor S) nodes context s r s' :
  visitAll v nodes context s = Ok (r, s') ->
  exists rs, mapM (visitAll_visit v context) nodes s = Ok (rs, s').
Proof.
  unfold visitAll. rewrite visitAll_loop. unfold bind.
  destruct (mapM _ nodes s) as [[rs s1]| |]; try discriminate.
  intros H. inversion H; subst. eauto.
Qed.

(** Only a node with a non-empty span is recorded, and such a node is
    an [Element]. *)
Lemma in_span_is_element (ast : Node) :
  (start (spanOf ast) <=? position) && (position <? end_ (spanOf ast)) = true ->
  instanceofElement ast = true.
Proof.
  intros H. destruct (instanceofElement ast) eqn:E; [done|].
  rewrite (spanOf_not_element _ E) in H. simpl in H. lia.
Qed.

(** Whatever the depth, the visitor of [findNode] records elements only. *)
Lemma findNode_object_pushesElements (fuel : nat) :
  forall nodes context p r p',
    visitAll (findNode_object position fuel) nodes context p = Ok (r, p') ->
    pushesElements p p'.
Proof.
  induction fuel as [|fuel IH]; intros nodes context p r p' Hrun.
  - destruct nodes as [|ast nodes]; [|discriminate].
    inversion Hrun; subst. apply pushesElements_refl.
  - apply visitAll_state in Hrun as [rs Hrun].
    revert Hrun. apply mapM_pushesElements. clear -IH.
    intros ast p y p'. unfold visitAll_visit. simpl. unfold bind at 1.
    destruct ((start (spanOf ast) <=? position)
              && (position <? end_ (spanOf ast))) eqn:Hin.
    + apply in_span_is_element in Hin.
      destruct ast as [t|e|c|a|e|c]; try discriminate. simpl.
      unfold visitChildren. simpl. unfold bind, ret.
      fold (findNode_object position fuel).
      destruct (visitAll (findNode_object position fuel) _ context (p ++ [NElement e]))
        as [[r1 p1]| |] eqn:E1; try discriminate.
      destruct (visitAll (findNode_object position fuel) _ context p1)
        as [[r2 p2]| |] eqn:E2; try discriminate.
      intros H. inversion H; subst.
      apply IH in E1. apply IH in E2.
      apply (pushesElements_trans _ (p ++ [NElement e])).
      { exists [NElement e]. split; [done|]. by constructor. }
      by apply (pushesElements_trans _ p1).
    + simpl. intros H. inversion H; subst. apply pushesElements_refl.
Qed.

Lemma findNode_path_elements (nodes : list Node) (result : AstPath) :
  findNode nodes position = Ok result ->
  Forall (fun ast => instanceofElement ast = true) (path result).
Proof.
  unfold findNode.
  destruct (visitAll _ nodes Null []) as [[r p]| |] eqn:E; try discriminate.
  intros H. inversion H; subst. simpl.
  apply findNode_object_pushesElements in E as (added & -> & Hadded).
  exact Hadded.
Qed.
End FindNode.

Section FindNodeReturns.
Import Ast.
Variable position : Z.

Lemma height_element tokens name attrs children sp startSpan endSpan :
  height (NElement (mkElement tokens name attrs children sp startSpan endSpan))
  = Datatypes.S (heights children).
Proof. reflexivity. Qed.

Lemma heights_attributes (attrs : list Attribute) :
  heights (NAttribute <$> attrs) = O.
Proof. induction attrs as [|a attrs IH]; [reflexivity|]. exact IH. Qed.

Lemma heights_elem_of (nodes : list Node) (ast : Node) :
  ast ∈ nodes -> (height ast <= heights nodes)%nat.
Proof.
  induction 1 as [ast nodes|ast c nodes _ IH]; simpl; lia.
Qed.

Lemma mapM_returns {S B} (f : Node -> M S B) (nodes : list Node) :
  (forall ast, ast ∈ nodes -> forall s, exists y s', f ast s = Ok (y, s')) ->
  forall s, exists ys s', mapM f nodes s = Ok (ys, s').
Proof.
  induction nodes as [|ast nodes IH]; intros Hf s.
  - by exists [], s.
  - destruct (Hf ast (list_elem_of_here _ _) s) as (y & s1 & E1).
    destruct (IH (fun a Ha => Hf a (list_elem_of_further _ _ _ Ha)) s1)
      as (ys & s2 & E2).
    exists (y :: ys), s2. simpl. unfold bind. by rewrite E1, E2.
Qed.

Lemma visitAll_of_mapM {S} (v : Visitor S) nodes context s rs s' :
  mapM (visitAll_visit v context) nodes s = Ok (rs, s') ->
  visitAll v nodes context s = Ok (List.filter truthy rs, s').
Proof.
  intros H. unfold visitAll. rewrite visitAll_loop. unfold bind.
  by rewrite H.
Qed.

(** One node, given that shallower lists are handled. *)
Lemma findNode_visit_returns (n : nat) :
  (forall m, (m < n)%nat -> forall nodes context p,
     (heights nodes <= m)%nat ->
     exists r p',
       visitAll (findNode_object position (Datatypes.S m)) nodes context p
       = Ok (r, p')) ->
  forall ast context q,
    (height ast <= n)%nat ->
    exists y q',
      visitAll_visit (findNode_object position (Datatypes.S n)) context ast q
      = Ok (y, q').
Proof.
  intros IH ast context q Hast.
  destruct ((start (spanOf ast) <=? position)
            && (position <? end_ (spanOf ast))) eqn:Hin.
  - pose proof (in_span_is_element _ _ Hin) as Hel.
    destruct ast as [t|e|c|a|e|c]; try discriminate.
    destruct e as [tokens name attrs children sp startSpan endSpan].
    rewrite height_element in Hast.
    destruct n as [|n]; [lia|].
    change (findNode_object position (Datatypes.S (Datatypes.S n)))
      with (findNode_visitor position
              (findNode_object position (Datatypes.S n))).
    remember (findNode_object position (Datatypes.S n)) as inner eqn:Hinner.
    unfold visitAll_visit. cbn [visit findNode_visitor RecursiveVisitor].
    unfold bind at 1. rewrite Hin.
    cbn -[visitAll]. unfold visitChildren. cbn -[visitAll]. unfold bind, ret.
    subst inner.
    destruct (IH n ltac:(lia) (NAttribute <$> attrs) context
                (q ++ [NElement (mkElement tokens name attrs children sp
                                   startSpan endSpan)]))
      as (r1 & p1 & E1); [rewrite heights_attributes; lia|].
    rewrite E1.
    destruct (IH n ltac:(lia) children context p1) as (r2 & p2 & E2); [lia|].
    rewrite E2. by eexists _, _.
  - unfold visitAll_visit. simpl. unfold bind at 1. rewrite Hin.
    by eexists _, _.
Qed.

(** With one unrolling more than the nesting depth of the node list, the
    visitor of [findNode] returns. *)
Lemma findNode_object_returns (n : nat) :
  forall nodes context p,
    (heights nodes <= n)%nat ->
    exists r p',
      visitAll (findNode_object position (Datatypes.S n)) nodes context p
      = Ok (r, p').
Proof.
  induction n as [n IH] using lt_wf_ind. intros nodes context p Hh.
  destruct (mapM_returns
              (visitAll_visit (findNode_object position (Datatypes.S n)) context)
              nodes) with (s := p) as (rs & p' & E).
  - intros ast Hast q. apply heights_elem_of in Hast.
    apply findNode_visit_returns; [exact IH | lia].
  - apply visitAll_of_mapM in E. eauto.
Qed.

Lemma findNode_returns (nodes : list Node) :
  exists path, findNode nodes position = Ok (mkAstPath path position).
Proof.
  unfold findNode.
  destruct (findNode_object_returns (heights nodes) nodes Null [])
    as (r & p' & E); [lia|].
  unfold findNode_object in E. rewrite E. by exists p'.
Qed.
End FindNodeReturns.

(** C2. On the raw tree of [<div><span>{{x}}</span></div>], at every
    offset of the interpolation text [{{x}}] (offsets 11 to 15),
    [findNode] returns the chain [[div; span]]: the interpolation text node
    is not part of it. *)
Theorem C2_findNode_stops_at_span (position : Z) :
  11 <= position < 16 ->
  Ast.findNode Samples.nestedRawTree position
  = Ok (Ast.mkAstPath [Samples.divElement; Samples.spanElement] position).
Proof.
  intros H.
  assert (position = 11 \/ position = 12 \/ position = 13
          \/ position = 14 \/ position = 15) as Hcases by lia.
  destruct Hcases as [->|[->|[->|[->| ->]]]]; reflexivity.
Qed.

Lemma C2_findNode_stops_at_span_witness :
  Ast.findNode Samples.nestedRawTree 13
  = Ok (Ast.mkAstPath [Samples.divElement; Samples.spanElement] 13).
Proof. apply C2_findNode_stops_at_span. lia. Defined.

(* ===================================================================== *)
(** ** Properties of navigation in the mutable tree *)
(* ===================================================================== *)

Section Descendants.
Import TemplateNodes.

(** Without a predicate the loop of [getDescendants] never pushes. *)
Lemma getDescendants_loop_unfiltered (fuel : nat) (st : Store) :
  forall queue result r,
    getDescendants_loop fuel None st queue result = Ok r -> r = result.
Proof.
  induction fuel as [|fuel IH]; intros [|node queue] result r H;
    simpl in H; try discriminate; try (by inversion H).
  destruct (deref node st) as [n| |]; simpl in H; try discriminate.
  by apply IH in H.
Qed.

Lemma getDescendants_unfiltered (fuel : nat) (this : NodeRef) (st : Store) r :
  getDescendants fuel this None st = Ok r -> r = [].
Proof.
  unfold getDescendants. destruct (deref this st) as [n| |]; try discriminate.
  simpl. apply getDescendants_loop_unfiltered.
Qed.

Lemma getDescendant_loop_unfiltered (fuel : nat) (st : Store) :
  forall queue r, getDescendant_loop fuel None st queue = Ok r -> r = None.
Proof.
  induction fuel as [|fuel IH]; intros [|node queue] r H;
    simpl in H; try discriminate; try (by inversion H).
  destruct (deref node st) as [n| |]; simpl in H; try discriminate.
  by apply IH in H.
Qed.

Lemma getDescendant_unfiltered (fuel : nat) (this : NodeRef) (st : Store) r :
  getDescendant fuel this None st = Ok r -> r = None.
Proof.
  unfold getDescendant. destruct (deref this st) as [n| |]; try discriminate.
  simpl. apply getDescendant_loop_unfiltered.
Qed.
End Descendants.

(** C1. On the tree of [<div><span>{{x}}</span></div>], the [div] has
    the descendants [span] and interpolation (an always-true predicate
    collects them, breadth-first), yet [getDescendants] called without a
    predicate returns the empty list and [getDescendant] called without a
    predicate returns [undefined]. *)
Theorem C1_unfiltered_descendants_are_dropped :
  TemplateNodes.getDescendants 3 0%nat (Some (fun _ _ => true))
    Samples.nestedStore = Ok [1%nat; 2%nat]
  /\ TemplateNodes.getDescendants 3 0%nat None Samples.nestedStore = Ok []
  /\ TemplateNodes.getDescendant 3 0%nat (Some (fun _ _ => true))
       Samples.nestedStore = Ok (Some 1%nat)
  /\ TemplateNodes.getDescendant 3 0%nat None Samples.nestedStore = Ok None.
Proof. repeat split; vm_compute; reflexivity. Qed.

Section Siblings.
Import TemplateNodes.

Lemma findIndex_found (this : NodeRef) (before after : list NodeRef) :
  this ∉ before ->
  findIndex (fun child => Nat.eqb child this) (before ++ this :: after)
  = Z.of_nat (length before).
Proof.
  induction before as [|b before IH]; intros Hnot; simpl.
  - by rewrite Nat.eqb_refl.
  - apply not_elem_of_cons in Hnot as [Hne Hnot].
    destruct (Nat.eqb_spec b this) as [->|_]; [done|].
    rewrite (IH Hnot).
    destruct (Z.eqb_spec (Z.of_nat (length before)) (-1)); lia.
Qed.

Lemma findIndex_missing (this : NodeRef) (list : list NodeRef) :
  this ∉ list ->
  findIndex (fun child => Nat.eqb child this) list = -1.
Proof.
  induction list as [|b list IH]; intros Hnot; simpl; [done|].
  apply not_elem_of_cons in Hnot as [Hne Hnot].
  destruct (Nat.eqb_spec b this) as [->|_]; [done|].
  by rewrite (IH Hnot).
Qed.

Lemma Array_get_next (before after : list NodeRef) (this : NodeRef) :
  Array_get (before ++ this :: after) (Z.of_nat (length before) + 1)
  = head after.
Proof.
  unfold Array_get.
  destruct (Z.ltb_spec (Z.of_nat (length before) + 1) 0); [lia|].
  replace (Z.to_nat (Z.of_nat (length before) + 1))
    with (length before + 1)%nat by lia.
  rewrite lookup_app_r by lia.
  replace (length before + 1 - length before)%nat with 1%nat by lia.
  by destruct after.
Qed.

(** The search for [this] and the step to the next element, on any list. *)
Lemma next_in_list_found (this : NodeRef) (before after : list NodeRef)
    (message : string) :
  this ∉ before ->
  (let children := before ++ this :: after in
   let index := findIndex (fun child => Nat.eqb child this) children in
   if index =? -1 then Throw message
   else Ok (Array_get children (index + 1)))
  = Ok (head after).
Proof.
  intros Hnot. simpl. rewrite (findIndex_found _ _ _ Hnot).
  destruct (Z.eqb_spec (Z.of_nat (length before)) (-1)); [lia|].
  by rewrite Array_get_next.
Qed.
End Siblings.

(** C9. For a node of the store: with a parent, [getNextTemplateSibling]
    finds the node by identity among the parent's children and returns
    the child after its first occurrence ([undefined] when it is the
    last); without a parent it does the same on the roots of the
    template; and when the node is not in the list searched it throws. *)
Theorem C9_getNextTemplateSibling (st : TemplateNodes.Store)
    (this : nat) (self : TemplateNodes.TemplateNode) :
  TemplateNodes.nodes st !! this = Some self ->
  (forall parent parentNode before after,
     TemplateNodes.parentTemplateNode self = Some parent ->
     TemplateNodes.nodes st !! parent = Some parentNode ->
     TemplateNodes.getTemplateChildren parentNode = before ++ this :: after ->
     this ∉ before ->
     TemplateNodes.getNextTemplateSibling this st = Ok (head after))
  /\ (forall parent parentNode,
        TemplateNodes.parentTemplateNode self = Some parent ->
        TemplateNodes.nodes st !! parent = Some parentNode ->
        this ∉ TemplateNodes.getTemplateChildren parentNode ->
        TemplateNodes.getNextTemplateSibling this st
        = Throw "Expected to have found self in parent's children.")
  /\ (forall before after,
        TemplateNodes.parentTemplateNode self = None ->
        getRoots (TemplateNodes.template st) = before ++ this :: after ->
        this ∉ before ->
        TemplateNodes.getNextTemplateSibling this st = Ok (head after))
  /\ (TemplateNodes.parentTemplateNode self = None ->
      this ∉ getRoots (TemplateNodes.template st) ->
      TemplateNodes.getNextTemplateSibling this st
      = Throw "Expected to have found self (root) in template's roots.").
Proof.
  intros Hself.
  unfold TemplateNodes.getNextTemplateSibling, TemplateNodes.getTemplateParent,
    TemplateNodes.deref.
  rewrite Hself. simpl.
  split; [|split; [|split]].
  - intros parent parentNode before after -> Hparent Hchildren Hnot.
    rewrite Hparent. simpl. rewrite Hchildren.
    by apply next_in_list_found.
  - intros parent parentNode -> Hparent Hnot.
    rewrite Hparent. simpl. by rewrite (findIndex_missing _ _ Hnot).
  - intros before after -> Hroots Hnot. rewrite Hroots.
    by apply next_in_list_found.
  - intros -> Hnot. by rewrite (findIndex_missing _ _ Hnot).
Qed.

(** C9 on [<ul><li></li><li></li></ul><p></p>]: the second [li] follows
    the first, nothing follows the second; the [p] follows the [ul] among
    the roots; a node missing from the list searched makes the call throw. *)
Lemma C9_getNextTemplateSibling_witness :
  TemplateNodes.getNextTemplateSibling 1%nat Samples.listStore = Ok (Some 2%nat)
  /\ TemplateNodes.getNextTemplateSibling 2%nat Samples.listStore = Ok None
  /\ TemplateNodes.getNextTemplateSibling 0%nat Samples.listStore
     = Ok (Some 3%nat)
  /\ TemplateNodes.getNextTemplateSibling 4%nat Samples.listStore
     = Throw "Expected to have found self in parent's children."
  /\ TemplateNodes.getNextTemplateSibling 5%nat Samples.listStore
     = Throw "Expected to have found self (root) in template's roots.".
Proof.
  split; [|split; [|split; [|split]]].
  - destruct (C9_getNextTemplateSibling Samples.listStore 1%nat _ eq_refl)
      as (Hnext & _).
    eapply (Hnext 0%nat _ [] [2%nat]); try reflexivity.
    apply not_elem_of_nil.
  - destruct (C9_getNextTemplateSibling Samples.listStore 2%nat _ eq_refl)
      as (Hnext & _).
    eapply (Hnext 0%nat _ [1%nat] []); try reflexivity.
    intros H%list_elem_of_In. simpl in H. lia.
  - destruct (C9_getNextTemplateSibling Samples.listStore 0%nat _ eq_refl)
      as (_ & _ & Hroot & _).
    apply (Hroot [] [3%nat]); try reflexivity.
    apply not_elem_of_nil.
  - destruct (C9_getNextTemplateSibling Samples.listStore 4%nat _ eq_refl)
      as (_ & Hthrow & _).
    eapply (Hthrow 0%nat _); try reflexivity.
    intros H%list_elem_of_In. simpl in H. lia.
  - destruct (C9_getNextTemplateSibling Samples.listStore 5%nat _ eq_refl)
      as (_ & _ & _ & Hthrow).
    apply Hthrow; try reflexivity.
    intros H%list_elem_of_In. simpl in H. lia.
Defined.

(** C10. [setTemplateParent] assigns without a check: called with [p1]
    and then with [p2] on a node of the store (whatever parent it had),
    both calls return, and afterwards [getTemplateParent] returns [p2];
    the document and the other nodes are as before. *)
Theorem C10_setTemplateParent_overwrites (st : TemplateNodes.Store)
    (this p1 p2 : nat) (self : TemplateNodes.TemplateNode) :
  TemplateNodes.nodes st !! this = Some self ->
  exists st1 st2,
    TemplateNodes.setTemplateParent this p1 st = Ok (tt, st1)
    /\ TemplateNodes.setTemplateParent this p2 st1 = Ok (tt, st2)
    /\ TemplateNodes.getTemplateParent this st1 = Ok (Some p1)
    /\ TemplateNodes.getTemplateParent this st2 = Ok (Some p2)
    /\ TemplateNodes.template st2 = TemplateNodes.template st
    /\ (forall other, other <> this ->
          TemplateNodes.nodes st2 !! other = TemplateNodes.nodes st !! other).
Proof.
  intros Hself.
  unfold TemplateNodes.setTemplateParent, TemplateNodes.getTemplateParent,
    TemplateNodes.deref, liftR, bind, modify.
  rewrite Hself. eexists _, _. split; [reflexivity|].
  cbn [TemplateNodes.nodes TemplateNodes.template].
  rewrite lookup_insert_eq. split; [reflexivity|].
  cbn [TemplateNodes.nodes TemplateNodes.template rbind
       TemplateNodes.parentTemplateNode].
  rewrite lookup_insert_eq. repeat split.
  intros other Hne. by rewrite !lookup_insert_ne.
Qed.

(** C10 on the interpolation of [<div><span>{{x}}</span></div>], whose
    parent is the [span] (node 1): it is given the [div] (node 0), then
    the interpolation itself (node 2), as parent. *)
Lemma C10_setTemplateParent_overwrites_witness :
  exists st1 st2,
    TemplateNodes.setTemplateParent 2%nat 0%nat Samples.nestedStore
    = Ok (tt, st1)
    /\ TemplateNodes.setTemplateParent 2%nat 2%nat st1 = Ok (tt, st2)
    /\ TemplateNodes.getTemplateParent 2%nat st2 = Ok (Some 2%nat).
Proof.
  destruct (C10_setTemplateParent_overwrites Samples.nestedStore
              2%nat 0%nat 2%nat _ eq_refl)
    as (st1 & st2 & H1 & H2 & _ & H3 & _).
  by exists st1, st2.
Defined.

(* ===================================================================== *)
(** ** Properties of attribute classification *)
(* ===================================================================== *)

Section ClassificationFacts.
Import TemplateNodes.
Context {A : Type}.
Variables isText isBound isEvent isBanana isRef : A -> bool.
Variable nameOf : A -> string.

(** The branch of the [if ... else if] chain an attribute takes. *)
Let sel0 (a : A) : bool := isText a.
Let sel1 (a : A) : bool := negb (isText a) && isBound a.
Let sel2 (a : A) : bool := negb (isText a) && negb (isBound a) && isEvent a.
Let sel3 (a : A) : bool :=
  negb (isText a) && negb (isBound a) && negb (isEvent a) && isBanana a.
Let sel4 (a : A) : bool :=
  negb (isText a) && negb (isBound a) && negb (isEvent a)
  && negb (isBanana a) && isRef a.

Let unclassified (a : A) : Prop :=
  isText a = false /\ isBound a = false /\ isEvent a = false
  /\ isBanana a = false /\ isRef a = false.

Let run := classify isText isBound isEvent isBanana isRef nameOf.

Lemma classify_Ok (allAttributes : list A) :
  forall b0 b,
    run allAttributes b0 = Ok b ->
    textAttributes b = textAttributes b0 ++ List.filter sel0 allAttributes
    /\ boundAttributes b = boundAttributes b0 ++ List.filter sel1 allAttributes
    /\ boundEvents b = boundEvents b0 ++ List.filter sel2 allAttributes
    /\ bananaInTheBoxes b
       = bananaInTheBoxes b0 ++ List.filter sel3 allAttributes
    /\ references b = references b0 ++ List.filter sel4 allAttributes
    /\ Forall (fun a => ~ unclassified a) allAttributes.
Proof.
  subst run sel0 sel1 sel2 sel3 sel4 unclassified.
  induction allAttributes as [|a rest IH]; intros b0 b Hrun.
  - inversion Hrun; subst. simpl. rewrite !app_nil_r. by repeat split.
  - simpl in Hrun. unfold classify_step in Hrun.
    destruct (isText a) eqn:E0; [|destruct (isBound a) eqn:E1;
      [|destruct (isEvent a) eqn:E2; [|destruct (isBanana a) eqn:E3;
        [|destruct (isRef a) eqn:E4; [|discriminate]]]]].
    all: simpl in Hrun; apply IH in Hrun as (H0 & H1 & H2 & H3 & H4 & HF).
    all: simpl in *; rewrite ?E0, ?E1, ?E2, ?E3, ?E4; simpl.
    all: rewrite H0, H1, H2, H3, H4, <- ?app_assoc; simpl.
    all: repeat split; try reflexivity.
    all: constructor; [|exact HF]; intros (? & ? & ? & ? & ?); congruence.
Qed.

Lemma classify_Throw (allAttributes : list A) :
  forall b0,
    (exists message, run allAttributes b0 = Throw message)
    <-> Exists unclassified allAttributes.
Proof.
  subst run unclassified.
  induction allAttributes as [|a rest IH]; intros b0.
  - split; [intros [m Hm]; discriminate | intros H; inversion H].
  - simpl. unfold classify_step. rewrite Exists_cons.
    destruct (isText a) eqn:E0; [|destruct (isBound a) eqn:E1;
      [|destruct (isEvent a) eqn:E2; [|destruct (isBanana a) eqn:E3;
        [|destruct (isRef a) eqn:E4]]]].
    all: simpl; rewrite ?IH.
    all: try (split; [intros H; by right
                     | intros [(? & ? & ? & ? & ?)|H]; [congruence|exact H]]).
    split; [intros _; left; by repeat split | intros _; eauto].
Qed.

Lemma classify_returns_or_throws (allAttributes : list A) :
  forall b0, run allAttributes b0 <> OutOfFuel.
Proof.
  subst run.
  induction allAttributes as [|a rest IH]; intros b0; [discriminate|].
  simpl. unfold classify_step.
  destruct (isText a); [|destruct (isBound a); [|destruct (isEvent a);
    [|destruct (isBanana a); [|destruct (isRef a); [|discriminate]]]]].
  all: simpl; apply IH.
Qed.

(** Adding an element to one of five lists adds it to their join. *)
Lemma join_insert (a : A) (l0 l1 l2 l3 l4 l : list A) :
  l0 ++ l1 ++ l2 ++ l3 ++ l4 ≡ₚ l ->
  l0 ++ (a :: l1) ++ l2 ++ l3 ++ l4 ≡ₚ a :: l
  /\ l0 ++ l1 ++ (a :: l2) ++ l3 ++ l4 ≡ₚ a :: l
  /\ l0 ++ l1 ++ l2 ++ (a :: l3) ++ l4 ≡ₚ a :: l
  /\ l0 ++ l1 ++ l2 ++ l3 ++ (a :: l4) ≡ₚ a :: l.
Proof. intros <-. repeat split; solve_Permutation. Qed.

(** Sorting a list into the five branches loses and adds nothing. *)
Lemma branches_permutation (l : list A) :
  Forall (fun a => ~ unclassified a) l ->
  List.filter sel0 l ++ List.filter sel1 l ++ List.filter sel2 l
  ++ List.filter sel3 l ++ List.filter sel4 l ≡ₚ l.
Proof.
  subst sel0 sel1 sel2 sel3 sel4 unclassified.
  induction 1 as [|a l Ha _ IH]; [reflexivity|].
  destruct (join_insert a _ _ _ _ _ _ IH) as (P1 & P2 & P3 & P4).
  simpl.
  destruct (isText a) eqn:E0; simpl; [by constructor|].
  destruct (isBound a) eqn:E1; simpl; [exact P1|].
  destruct (isEvent a) eqn:E2; simpl; [exact P2|].
  destruct (isBanana a) eqn:E3; simpl; [exact P3|].
  destruct (isRef a) eqn:E4; simpl; [exact P4|].
  exfalso. apply Ha. by repeat split.
Qed.
End ClassificationFacts.

(** The loop of the constructor, for attributes of any type. *)
Lemma classify_partition {A : Type}
    (isText isBound isEvent isBanana isRef : A -> bool)
    (nameOf : A -> string) (allAttributes : list A)
    (b : TemplateNodes.Buckets A) :
  TemplateNodes.classify isText isBound isEvent isBanana isRef nameOf
    allAttributes TemplateNodes.emptyBuckets = Ok b ->
  concat (bucketLists b) ≡ₚ allAttributes
  /\ pairwiseDisjoint (bucketLists b).
Proof.
  intros Hb. apply classify_Ok in Hb as (H0 & H1 & H2 & H3 & H4 & HF).
  simpl in H0, H1, H2, H3, H4. split.
  - unfold bucketLists. simpl. rewrite H0, H1, H2, H3, H4, app_nil_r.
    by apply branches_permutation.
  - intros i j li lj x Hne Hi Hj Hxi Hxj. unfold bucketLists in Hi, Hj.
    destruct i as [|[|[|[|[|i]]]]]; simpl in Hi; try discriminate;
      destruct j as [|[|[|[|[|j]]]]]; simpl in Hj; try discriminate;
      try (by apply Hne).
    all: inversion Hi; inversion Hj; subst li lj.
    all: rewrite ?H0, ?H1, ?H2, ?H3, ?H4 in Hxi.
    all: rewrite ?H0, ?H1, ?H2, ?H3, ?H4 in Hxj.
    all: apply list_elem_of_In, filter_In in Hxi as [_ Hxi].
    all: apply list_elem_of_In, filter_In in Hxj as [_ Hxj].
    all: destruct (isText x), (isBound x), (isEvent x), (isBanana x),
           (isRef x);
         simpl in Hxi, Hxj; discriminate.
Qed.

(** C7. Whatever the five classification predicates are, the constructor
    of an element-like node throws exactly when some attribute of the list
    satisfies none of them; when it returns, the node holds the attribute
    list it was given, its five buckets together hold exactly the
    attributes of that list, and no attribute is in two buckets. *)
Theorem C7_attribute_partition
    (isTextAttribute isBoundAttribute isBoundEvent isBananaInTheBox
       isReference : nat -> bool)
    (constructorNameOf : nat -> string)
    (locationSpan : LocationSpan) (tokens allAttributes children : list nat)
    (subclass : TemplateNodes.ElementLike -> TemplateNodes.NodeClass) :
  let construct :=
    TemplateNodes.ElementLikeTemplateNode_constructor
      isTextAttribute isBoundAttribute isBoundEvent isBananaInTheBox
      isReference constructorNameOf
      locationSpan tokens allAttributes children subclass in
  ((exists message, construct = Throw message)
   <-> Exists (fun a => isTextAttribute a = false
                        /\ isBoundAttribute a = false
                        /\ isBoundEvent a = false
                        /\ isBananaInTheBox a = false
                        /\ isReference a = false) allAttributes)
  /\ construct <> OutOfFuel
  /\ (forall node, construct = Ok node ->
        exists b,
          TemplateNodes.class node
          = subclass (TemplateNodes.mkElementLike allAttributes children b)
          /\ concat (bucketLists b) ≡ₚ allAttributes
          /\ pairwiseDisjoint (bucketLists b)).
Proof.
  intros construct. subst construct.
  unfold TemplateNodes.ElementLikeTemplateNode_constructor.
  pose proof (classify_Throw isTextAttribute isBoundAttribute isBoundEvent
                isBananaInTheBox isReference constructorNameOf allAttributes
                TemplateNodes.emptyBuckets) as Hthrow.
  pose proof (classify_returns_or_throws isTextAttribute isBoundAttribute
                isBoundEvent isBananaInTheBox isReference constructorNameOf
                allAttributes TemplateNodes.emptyBuckets) as Hfuel.
  pose proof (classify_partition isTextAttribute isBoundAttribute
                isBoundEvent isBananaInTheBox isReference constructorNameOf
                allAttributes) as Hpart.
  destruct (TemplateNodes.classify _ _ _ _ _ _ allAttributes _)
    as [b|message|]; simpl.
  - split; [|split; [discriminate|]].
    + rewrite <- Hthrow. split; intros [m Hm]; discriminate.
    + intros node [= <-]. exists b. split; [reflexivity|]. by apply Hpart.
  - split; [|split; [discriminate|]].
    + rewrite <- Hthrow. split; intros _; eauto.
    + intros node Hnode. discriminate.
  - by destruct Hfuel.
Qed.

(** C7 on the attributes of [<input [(ngModel)]=name (click)=go() #box>]
    (nodes 1 to 3), classified by the class of each node: the constructor
    returns and sorts them; with a comment node (node 4) in the list it
    throws. *)
Lemma C7_attribute_partition_witness :
  (exists node b,
     TemplateNodes.newElementTemplateNode Samples.attributeStore (span 0 41)
       [] "input" [1%nat; 2%nat; 3%nat] [] = Ok node
     /\ TemplateNodes.fieldsOf (TemplateNodes.class node)
        = Some (TemplateNodes.mkElementLike [1%nat; 2%nat; 3%nat] [] b)
     /\ concat (bucketLists b) ≡ₚ [1%nat; 2%nat; 3%nat]
     /\ pairwiseDisjoint (bucketLists b))
  /\ (exists message,
        TemplateNodes.newElementTemplateNode Samples.attributeStore
          (span 0 41) [] "input" [1%nat; 4%nat] [] = Throw message).
Proof.
  split.
  - destruct (C7_attribute_partition
                (TemplateNodes.isTextAttribute Samples.attributeStore)
                (TemplateNodes.isBoundAttribute Samples.attributeStore)
                (TemplateNodes.isBoundEvent Samples.attributeStore)
                (TemplateNodes.isBananaInTheBox Samples.attributeStore)
                (TemplateNodes.isReference Samples.attributeStore)
                (TemplateNodes.constructorNameOf Samples.attributeStore)
                (span 0 41) [] [1%nat; 2%nat; 3%nat] []
                (TemplateNodes.ElementTemplateNode "input"))
      as (_ & _ & Hok).
    destruct (Hok _ eq_refl) as (b & Hclass & Hunion & Hdisjoint).
    eexists _, b. split; [reflexivity|].
    split; [|by split].
    simpl in Hclass. simpl. by injection Hclass as <-.
  - eapply (C7_attribute_partition
              (TemplateNodes.isTextAttribute Samples.attributeStore)
              (TemplateNodes.isBoundAttribute Samples.attributeStore)
              (TemplateNodes.isBoundEvent Samples.attributeStore)
              (TemplateNodes.isBananaInTheBox Samples.attributeStore)
              (TemplateNodes.isReference Samples.attributeStore)
              (TemplateNodes.constructorNameOf Samples.attributeStore)
              (span 0 41) [] [1%nat; 4%nat] []
              (TemplateNodes.ElementTemplateNode "input")).
    apply Exists_cons. right. apply Exists_cons. left.
    repeat split; reflexivity.
Defined.

(* ===================================================================== *)
(** ** Properties of the mutation protocol *)
(* ===================================================================== *)

Section Mutation.
Import TemplateNodes.

(** One edit, run on a store whose document has the token. *)
Lemma _replaceTextByTokens_step_run (st : Store) (T : nat) (tok : Token)
    (newText : string) :
  Template_tokens (template st) !! T = Some tok ->
  _replaceTextByTokens_step (mkTextReplaceConfig T newText) st
  = Ok (tt,
        mkStore
          (mkTemplate
             (splice (Lexer.locationSpan tok) newText
                (Template_text (template st)))
             (take (Datatypes.S T)
                (<[T := editedToken tok newText]>
                   (Template_tokens (template st)))
              ++ (Token_moveBy (editDelta tok newText)
                  <$> drop (Datatypes.S T)
                        (<[T := editedToken tok newText]>
                           (Template_tokens (template st)))))
             (getRoots (template st)))
          (nodes st)).
Proof.
  intros Htok.
  pose proof (lookup_lt_Some _ _ _ Htok) as Hlt.
  unfold _replaceTextByTokens_step, onTemplate, replaceText,
    _forEachTokenAfter, liftR, bind, modify, getToken, getTokenIndex.
  cbn [token TemplateNodes.newText]. rewrite Htok.
  cbn [template Template_tokens Template_text getRoots nodes].
  rewrite Htok.
  cbn [template Template_tokens Template_text getRoots nodes].
  rewrite length_insert.
  destruct (Nat.ltb_spec T (length (Template_tokens (template st))));
    [reflexivity | lia].
Qed.

Lemma _replaceTextByTokens_single (config : TextReplaceConfig) (st : Store) :
  _replaceTextByTokens [config] st = _replaceTextByTokens_step config st.
Proof.
  unfold _replaceTextByTokens. simpl. unfold bind, ret.
  by destruct (_replaceTextByTokens_step config st) as [[[] st']| |].
Qed.

(** Each pair is applied in full before the next one is looked at. *)
Lemma _replaceTextByTokens_cons (config : TextReplaceConfig)
    (configs : list TextReplaceConfig) (st : Store) :
  _replaceTextByTokens (config :: configs) st
  = (_replaceTextByTokens_step config >> _replaceTextByTokens configs) st.
Proof.
  unfold _replaceTextByTokens. simpl. unfold bind.
  by destruct (_replaceTextByTokens_step config st) as [[[] st']| |].
Qed.

Section EditedTokens.
Variables (toks : list Token) (T : nat) (tok : Token) (newText : string).
Hypothesis Htok : toks !! T = Some tok.

Let toks' : list Token :=
  take (Datatypes.S T) (<[T := editedToken tok newText]> toks)
  ++ (Token_moveBy (editDelta tok newText)
      <$> drop (Datatypes.S T) (<[T := editedToken tok newText]> toks)).

Lemma edited_length : length toks' = length toks.
Proof.
  subst toks'. rewrite length_app, length_fmap, length_take, length_drop,
    length_insert. lia.
Qed.

Lemma edited_before (j : nat) : (j < T)%nat -> toks' !! j = toks !! j.
Proof.
  intros Hj. subst toks'.
  pose proof (lookup_lt_Some _ _ _ Htok) as Hlt.
  rewrite lookup_app_l by (rewrite length_take, length_insert; lia).
  rewrite lookup_take_lt by lia.
  by rewrite list_lookup_insert_ne by lia.
Qed.

Lemma edited_at : toks' !! T = Some (editedToken tok newText).
Proof.
  subst toks'.
  pose proof (lookup_lt_Some _ _ _ Htok) as Hlt.
  rewrite lookup_app_l by (rewrite length_take, length_insert; lia).
  rewrite lookup_take_lt by lia.
  by rewrite list_lookup_insert_eq by lia.
Qed.

Lemma edited_after (j : nat) :
  (T < j)%nat ->
  toks' !! j = Token_moveBy (editDelta tok newText) <$> toks !! j.
Proof.
  intros Hj. subst toks'.
  pose proof (lookup_lt_Some _ _ _ Htok) as Hlt.
  rewrite lookup_app_r by (rewrite length_take, length_insert; lia).
  rewrite length_take, length_insert.
  replace (Datatypes.S T `min` length toks)%nat with (Datatypes.S T) by lia.
  rewrite list_lookup_fmap, lookup_drop.
  replace (Datatypes.S T + (j - Datatypes.S T))%nat with j by lia.
  by rewrite list_lookup_insert_ne by lia.
Qed.
End EditedTokens.
End Mutation.

(** C3. After [_replaceTextByTokens] with the single pair of a token [T]
    of the document (old span length [L0]) and a text of length [L1]:
    every token after [T] in document order has its start offset
    increased by exactly [L1 - L0]; the span of [T] has length [L1] and
    its old start offset; every token before [T] is unchanged. *)
Theorem C3_offset_shift (st : TemplateNodes.Store) (T : nat) (tok : Token)
    (newText : string) :
  Template_tokens (TemplateNodes.template st) !! T = Some tok ->
  let L0 := getLength (Lexer.locationSpan tok) in
  let L1 := Z.of_nat (String.length newText) in
  exists st',
    TemplateNodes._replaceTextByTokens
      [TemplateNodes.mkTextReplaceConfig T newText] st = Ok (tt, st')
    /\ length (Template_tokens (TemplateNodes.template st'))
       = length (Template_tokens (TemplateNodes.template st))
    /\ (forall j tj,
          (T < j)%nat ->
          Template_tokens (TemplateNodes.template st) !! j = Some tj ->
          exists tj',
            Template_tokens (TemplateNodes.template st') !! j = Some tj'
            /\ getOffset (getStart (Lexer.locationSpan tj'))
               = getOffset (getStart (Lexer.locationSpan tj)) + (L1 - L0))
    /\ (exists tok',
          Template_tokens (TemplateNodes.template st') !! T = Some tok'
          /\ getLength (Lexer.locationSpan tok') = L1
          /\ getOffset (getStart (Lexer.locationSpan tok'))
             = getOffset (getStart (Lexer.locationSpan tok)))
    /\ (forall j,
          (j < T)%nat ->
          Template_tokens (TemplateNodes.template st') !! j
          = Template_tokens (TemplateNodes.template st) !! j).
Proof.
  intros Htok L0 L1. eexists. split.
  { rewrite _replaceTextByTokens_single.
    by apply _replaceTextByTokens_step_run. }
  cbn [TemplateNodes.template Template_tokens].
  split; [by apply edited_length|].
  split; [|split].
  - intros j tj Hj Hlook. exists (Token_moveBy (editDelta tok newText) tj).
    split; [|reflexivity].
    by rewrite (edited_after _ _ _ _ Htok) by exact Hj; rewrite Hlook.
  - exists (editedToken tok newText). split; [by apply edited_at|].
    split; [|reflexivity].
    unfold getLength, editedToken. simpl. lia.
  - intros j Hj. by apply edited_before.
Qed.

(** C3 on [<div><span>{{x}}</span></div>]: the text token [{{x}}]
    (token 4, length 5) is given the text [{{ value }}] (length 11). *)
Lemma C3_offset_shift_witness :
  exists st',
    TemplateNodes._replaceTextByTokens
      [TemplateNodes.mkTextReplaceConfig 4%nat "{{ value }}"]
      Samples.nestedStore = Ok (tt, st')
    /\ (forall j tj,
          (4 < j)%nat ->
          Template_tokens (TemplateNodes.template Samples.nestedStore) !! j
          = Some tj ->
          exists tj',
            Template_tokens (TemplateNodes.template st') !! j = Some tj'
            /\ getOffset (getStart (Lexer.locationSpan tj'))
               = getOffset (getStart (Lexer.locationSpan tj)) + (11 - 5)).
Proof.
  destruct (C3_offset_shift Samples.nestedStore 4%nat
              (mkToken TEXT (span 11 16)) "{{ value }}" eq_refl)
    as (st' & Hrun & _ & Hafter & _).
  exists st'. split; [exact Hrun | exact Hafter].
Defined.

Section TextFacts.

Lemma append_cons (c : ascii) (a b : string) :
  String c a +:+ b = String c (a +:+ b).
Proof. reflexivity. Qed.

Lemma append_empty (b : string) : EmptyString +:+ b = b.
Proof. reflexivity. Qed.

Lemma strTake_strDrop (n : nat) (s : string) :
  strTake n s +:+ strDrop n s = s.
Proof.
  revert s. induction n as [|n IH]; intros [|c s]; simpl; try reflexivity.
  by rewrite append_cons, IH.
Qed.

Lemma strDrop_strDrop (n m : nat) (s : string) :
  strDrop m (strDrop n s) = strDrop (n + m) s.
Proof.
  revert s. induction n as [|n IH]; intros s; [reflexivity|].
  destruct s as [|c s]; simpl; [by destruct m | apply IH].
Qed.

Lemma strDrop_length (n : nat) (s : string) :
  String.length (strDrop n s) = (String.length s - n)%nat.
Proof.
  revert s. induction n as [|n IH]; intros [|c s]; simpl; try lia. apply IH.
Qed.

Lemma strTake_length (n : nat) (s : string) :
  String.length (strTake n s) = Nat.min n (String.length s).
Proof.
  revert s. induction n as [|n IH]; intros [|c s]; simpl; try lia.
  by rewrite IH.
Qed.

Lemma strTake_app (a b : string) : strTake (String.length a) (a +:+ b) = a.
Proof.
  induction a as [|c a IH]; [by destruct b|].
  rewrite append_cons. simpl. by rewrite IH.
Qed.

Lemma strDrop_app (a b : string) : strDrop (String.length a) (a +:+ b) = b.
Proof.
  induction a as [|c a IH]; [by destruct b|].
  rewrite append_cons. exact IH.
Qed.

(** The text of a span within the text is as long as the span. *)
Lemma slice_length (sp : LocationSpan) (text : string) :
  withinText sp text ->
  Z.of_nat (String.length
              (slice (getOffset (getStart sp)) (getOffset (getEnd sp)) text))
  = getLength sp.
Proof.
  intros [[H0 H1] H2]. unfold slice, getLength.
  rewrite strTake_length, strDrop_length. lia.
Qed.

(** Replacing the text of a span by itself changes nothing. *)
Lemma splice_same (sp : LocationSpan) (text : string) :
  withinText sp text ->
  splice sp (slice (getOffset (getStart sp)) (getOffset (getEnd sp)) text) text
  = text.
Proof.
  intros [[H0 H1] H2]. unfold splice, slice.
  replace (Z.to_nat (getOffset (getEnd sp)))
    with (Z.to_nat (getOffset (getStart sp))
          + (Z.to_nat (getOffset (getEnd sp))
             - Z.to_nat (getOffset (getStart sp))))%nat at 2 by lia.
  rewrite <- strDrop_strDrop, strTake_strDrop. apply strTake_strDrop.
Qed.

(** After the replacement the span renders the new text. *)
Lemma slice_splice (sp : LocationSpan) (newText text : string) :
  0 <= getOffset (getStart sp) <= Z.of_nat (String.length text) ->
  slice (getOffset (getStart sp))
        (getOffset (getStart sp) + Z.of_nat (String.length newText))
        (splice sp newText text)
  = newText.
Proof.
  intros H. unfold slice, splice.
  set (n := Z.to_nat (getOffset (getStart sp))).
  assert (String.length (strTake n text) = n) as Hn
    by (rewrite strTake_length; lia).
  rewrite <- Hn at 2. rewrite strDrop_app.
  replace (Z.to_nat (getOffset (getStart sp)
                     + Z.of_nat (String.length newText)) - n)%nat
    with (String.length newText) by lia.
  apply strTake_app.
Qed.

Lemma Token_moveBy_0 (tok : Token) : Token_moveBy 0 tok = tok.
Proof.
  destruct tok as [ty [[s] [e]]]. unfold Token_moveBy, moveBy, span. simpl.
  by rewrite !Z.add_0_r.
Qed.

Lemma Token_moveBy_moveBy (a b : Z) (tok : Token) :
  Token_moveBy a (Token_moveBy b tok) = Token_moveBy (b + a) tok.
Proof.
  unfold Token_moveBy, moveBy, span. simpl. by rewrite <- !Z.add_assoc.
Qed.

Lemma editedToken_same (tok : Token) (newText : string) :
  0 <= getOffset (getStart (Lexer.locationSpan tok)) ->
  Z.of_nat (String.length newText) = getLength (Lexer.locationSpan tok) ->
  editedToken tok newText = tok.
Proof.
  destruct tok as [ty [[s] [e]]]. unfold editedToken, getLength, span. simpl.
  intros _ ->. do 3 f_equal. lia.
Qed.
End TextFacts.

(** C8. For an interpolation node whose text token lies within the text
    of the document and whose current text is already trimmed, [trimText]
    is an edit of delta zero that leaves the whole store as it was: the
    span of the text token, every other token and the text [getText]
    returns are those from before the call. *)
Theorem C8_trimText_already_trimmed (st : TemplateNodes.Store)
    (this T : nat) (tok : Token) (text : string) :
  TemplateNodes.getTextToken this st = Ok T ->
  Template_tokens (TemplateNodes.template st) !! T = Some tok ->
  withinText (Lexer.locationSpan tok)
    (Template_text (TemplateNodes.template st)) ->
  TemplateNodes.getText this st = Ok text ->
  trim text = text ->
  editDelta tok (trim text) = 0
  /\ TemplateNodes.trimText this st = Ok (this, st)
  /\ (forall st', TemplateNodes.trimText this st = Ok (this, st') ->
        Template_tokens (TemplateNodes.template st')
        = Template_tokens (TemplateNodes.template st)
        /\ TemplateNodes.getText this st' = Ok text).
Proof.
  intros Hnode Htok Hwithin Htext Htrim.
  assert (text = slice (getOffset (getStart (Lexer.locationSpan tok)))
                       (getOffset (getEnd (Lexer.locationSpan tok)))
                       (Template_text (TemplateNodes.template st))) as Hslice.
  { revert Htext. unfold TemplateNodes.getText. rewrite Hnode. simpl.
    unfold TemplateNodes.Token_toString, getToken. rewrite Htok. simpl.
    by intros [= <-]. }
  assert (editDelta tok (trim text) = 0) as Hdelta.
  { unfold editDelta. rewrite Htrim, Hslice, slice_length by exact Hwithin.
    lia. }
  assert (TemplateNodes.trimText this st = Ok (this, st)) as Hrun.
  { unfold TemplateNodes.trimText, TemplateNodes.changeText.
    unfold bind at 1. unfold liftR at 1. rewrite Htext.
    unfold bind at 1. unfold liftR at 1. rewrite Hnode.
    unfold bind at 1. rewrite _replaceTextByTokens_single.
    rewrite (_replaceTextByTokens_step_run _ _ _ _ Htok).
    rewrite Hdelta. rewrite Htrim.
    rewrite editedToken_same.
    - rewrite list_insert_id by exact Htok.
      rewrite (list_fmap_ext _ id) by (intros; apply Token_moveBy_0).
      rewrite list_fmap_id, take_drop.
      rewrite Hslice, splice_same by exact Hwithin.
      unfold ret. by destruct st as [[] ?].
    - apply Hwithin.
    - rewrite Hslice. by apply slice_length. }
  split; [exact Hdelta|]. split; [exact Hrun|].
  intros st' Hrun'. rewrite Hrun in Hrun'. by injection Hrun' as <-.
Qed.

(** C8 on the interpolation of [<div><span>{{x}}</span></div>], whose
    text [{{x}}] has no white space at either end. *)
Lemma C8_trimText_already_trimmed_witness :
  TemplateNodes.trimText 2%nat Samples.nestedStore
  = Ok (2%nat, Samples.nestedStore).
Proof.
  eapply (C8_trimText_already_trimmed Samples.nestedStore 2%nat 4%nat
            (mkToken TEXT (span 11 16)) "{{x}}").
  - reflexivity.
  - reflexivity.
  - unfold withinText. simpl. lia.
  - reflexivity.
  - reflexivity.
Defined.

Section TagRename.
Import TemplateNodes Samples.


Lemma changeTagName_two_edits (st : Store) (this openToken closeToken : nat)
    (newTagName : string) :
  requireClass isElement this st = Ok tt ->
  getTagOpenStartToken this st = Ok openToken ->
  getTagEndToken this st = Ok closeToken ->
  changeTagName this newTagName st
  = (_replaceTextByTokens
       [mkTextReplaceConfig openToken ("<" +:+ newTagName)] >>
     _replaceTextByTokens
       [mkTextReplaceConfig closeToken ("</" +:+ newTagName +:+ ">")] >>
     ret this) st.
Proof.
  intros Hclass Hopen Hclose. unfold changeTagName, bind, liftR.
  rewrite Hclass, Hopen, Hclose.
  rewrite _replaceTextByTokens_cons. unfold bind.
  rewrite (_replaceTextByTokens_single
             (mkTextReplaceConfig openToken ("<" +:+ newTagName)) st).
  by destruct (_replaceTextByTokens_step _ st) as [[[] st1]| |].
Qed.


(** No token of the type among the tokens: the search finds none. *)
Lemma findTokenOfType_absent (ty : TokenType) (t : Template)
    (refs : list nat) :
  Forall (fun r => exists tok, Template_tokens t !! r = Some tok
                               /\ type tok <> ty) refs ->
  findTokenOfType ty t refs = Ok None.
Proof.
  induction 1 as [|r refs (tok & Hr & Hty) _ IH]; [reflexivity|].
  simpl. unfold getToken. rewrite Hr. simpl.
  by destruct (decide (type tok = ty)).
Qed.


End TagRename.




(** What [trim] removes, and what it keeps. *)
Example trim_removes_outer_white_space :
  trim "  {{ x }}
 " = "{{ x }}".
Proof. reflexivity. Qed.

(** A no-break space (code unit 160) at either end is stripped as well; one
    inside the text stays. *)
Example trim_removes_no_break_space :
  let nbsp := String (ascii_of_nat 160) EmptyString in
  trim (nbsp +:+ " a" +:+ nbsp +:+ "b" +:+ nbsp) = "a" +:+ nbsp +:+ "b".
Proof. reflexivity. Qed.

(** The characters [trim] strips are exactly the code units 9 to 13, 32
    and 160. *)
Lemma isWhiteSpace_code_units (c : ascii) :
  isWhiteSpace c = true
  <-> (9 <= nat_of_ascii c <= 13)%nat \/ nat_of_ascii c = 32%nat
      \/ nat_of_ascii c = 160%nat.
Proof.
  destruct c as [[] [] [] [] [] [] [] []]; vm_compute; split;
    try discriminate; try reflexivity; intros H; try lia;
    try (left; lia); try (right; left; reflexivity);
    try (right; right; reflexivity).
Qed.

(* ===================================================================== *)
(** ** Further properties of the mutation protocol *)
(* ===================================================================== *)

Section MoreTextFacts.

Lemma length_append (a b : string) :
  String.length (a +:+ b) = (String.length a + String.length b)%nat.
Proof.
  induction a as [|c a IH]; [reflexivity|].
  rewrite append_cons. simpl. by rewrite IH.
Qed.

Lemma strDrop_append_le (n : nat) (a b : string) :
  (n <= String.length a)%nat -> strDrop n (a +:+ b) = strDrop n a +:+ b.
Proof.
  revert a. induction n as [|n IH]; intros a Hn.
  - by destruct a, b.
  - destruct a as [|c a]; simpl in Hn; [lia|].
    rewrite append_cons. simpl. apply IH. lia.
Qed.

Lemma strDrop_append_ge (n : nat) (a b : string) :
  (String.length a <= n)%nat ->
  strDrop n (a +:+ b) = strDrop (n - String.length a) b.
Proof.
  revert n. induction a as [|c a IH]; intros n Hn.
  - rewrite append_empty. simpl. by rewrite Nat.sub_0_r.
  - destruct n as [|n]; simpl in Hn; [lia|].
    rewrite append_cons. simpl. apply IH. lia.
Qed.

Lemma strTake_append_le (n : nat) (a b : string) :
  (n <= String.length a)%nat -> strTake n (a +:+ b) = strTake n a.
Proof.
  revert a. induction n as [|n IH]; intros a Hn.
  - by destruct a, b.
  - destruct a as [|c a]; simpl in Hn; [lia|].
    rewrite append_cons. simpl. rewrite IH; [done | lia].
Qed.

Lemma strTake_strTake (n m : nat) (s : string) :
  (n <= m)%nat -> strTake n (strTake m s) = strTake n s.
Proof.
  revert m s. induction n as [|n IH]; intros m s Hn.
  - by destruct m, s.
  - destruct m as [|m]; [lia|]. destruct s as [|c s]; [reflexivity|].
    simpl. rewrite IH; [done | lia].
Qed.

Lemma strDrop_empty (n : nat) : strDrop n EmptyString = EmptyString.
Proof. by destruct n. Qed.

Lemma strTake_empty (n : nat) : strTake n EmptyString = EmptyString.
Proof. by destruct n. Qed.

Lemma strDrop_strTake (n m : nat) (s : string) :
  strDrop n (strTake m s) = strTake (m - n) (strDrop n s).
Proof.
  revert m s. induction n as [|n IH]; intros m s.
  - rewrite Nat.sub_0_r. by destruct m, s.
  - destruct m as [|m]; destruct s as [|c s]; simpl;
      rewrite ?strTake_empty, ?strDrop_empty; try reflexivity.
    apply IH.
Qed.

(** The text grows by the delta of the edit. *)
Lemma splice_length (sp : LocationSpan) (newText text : string) :
  withinText sp text ->
  Z.of_nat (String.length (splice sp newText text))
  = Z.of_nat (String.length text)
    + (Z.of_nat (String.length newText) - getLength sp).
Proof.
  intros [[H0 H1] H2]. unfold splice, getLength.
  rewrite !length_append, strTake_length, strDrop_length. lia.
Qed.

(** A range that ends before the replaced one reads as before. *)
Lemma slice_splice_before (sp : LocationSpan) (newText text : string)
    (a b : Z) :
  withinText sp text ->
  0 <= a <= b -> b <= getOffset (getStart sp) ->
  slice a b (splice sp newText text) = slice a b text.
Proof.
  intros [[H0 H1] H2] Hab Hb. unfold slice, splice.
  set (s := Z.to_nat (getOffset (getStart sp))).
  assert (String.length (strTake s text) = s) as Hs
    by (rewrite strTake_length; lia).
  rewrite strDrop_append_le by lia.
  rewrite strTake_append_le
    by (rewrite strDrop_length; lia).
  rewrite strDrop_strTake, strTake_strTake by lia.
  reflexivity.
Qed.

(** A range that starts after the replaced one reads, once moved by the
    delta, as before. *)
Lemma slice_splice_after (sp : LocationSpan) (newText text : string)
    (a b : Z) :
  withinText sp text ->
  getOffset (getEnd sp) <= a -> a <= b ->
  let d := Z.of_nat (String.length newText) - getLength sp in
  slice (a + d) (b + d) (splice sp newText text) = slice a b text.
Proof.
  intros [[H0 H1] H2] Ha Hab d. subst d. unfold slice, splice, getLength.
  set (s := Z.to_nat (getOffset (getStart sp))).
  set (e := Z.to_nat (getOffset (getEnd sp))).
  assert (String.length (strTake s text) = s) as Hs
    by (rewrite strTake_length; lia).
  rewrite (strDrop_append_ge _ (strTake s text)) by lia.
  rewrite strDrop_append_ge by lia.
  rewrite strDrop_strDrop. rewrite Hs.
  f_equal; [lia|]. f_equal. lia.
Qed.
End MoreTextFacts.

Section EditedTemplate.
Import TemplateNodes.
Variables (t : Template) (T : nat) (tok : Token) (newText : string).
Hypothesis Htok : Template_tokens t !! T = Some tok.

Lemma editedTemplate_lookup_before (j : nat) :
  (j < T)%nat ->
  Template_tokens (editedTemplate t T tok newText) !! j
  = Template_tokens t !! j.
Proof. intros Hj. by apply edited_before. Qed.

Lemma editedTemplate_lookup_at :
  Template_tokens (editedTemplate t T tok newText) !! T
  = Some (editedToken tok newText).
Proof. by apply edited_at. Qed.

Lemma editedTemplate_lookup_after (j : nat) :
  (T < j)%nat ->
  Template_tokens (editedTemplate t T tok newText) !! j
  = Token_moveBy (editDelta tok newText) <$> Template_tokens t !! j.
Proof. intros Hj. by apply edited_after. Qed.

(** The three cases of a lookup in the edited document. *)
Lemma editedTemplate_lookup (j : nat) (tj' : Token) :
  Template_tokens (editedTemplate t T tok newText) !! j = Some tj' ->
  ((j < T)%nat /\ Template_tokens t !! j = Some tj')
  \/ (j = T /\ tj' = editedToken tok newText)
  \/ ((T < j)%nat
      /\ exists tj, Template_tokens t !! j = Some tj
                    /\ tj' = Token_moveBy (editDelta tok newText) tj).
Proof.
  intros Hj. destruct (lt_eq_lt_dec j T) as [[Hlt|Heq]|Hgt].
  - left. by rewrite editedTemplate_lookup_before in Hj.
  - right. left. subst j. rewrite editedTemplate_lookup_at in Hj.
    by injection Hj as <-.
  - right. right. split; [done|].
    rewrite editedTemplate_lookup_after in Hj by done.
    destruct (Template_tokens t !! j) as [tj|]; [|discriminate].
    injection Hj as <-. by exists tj.
Qed.

Lemma editedTemplate_types (j : nat) :
  type <$> Template_tokens (editedTemplate t T tok newText) !! j
  = type <$> Template_tokens t !! j.
Proof.
  destruct (lt_eq_lt_dec j T) as [[Hlt|Heq]|Hgt].
  - by rewrite editedTemplate_lookup_before.
  - subst j. by rewrite editedTemplate_lookup_at, Htok.
  - rewrite editedTemplate_lookup_after by done.
    by destruct (Template_tokens t !! j).
Qed.

Hypothesis Hwf : wellFormed t.

Lemma editedTemplate_wellFormed : wellFormed (editedTemplate t T tok newText).
Proof.
  destruct Hwf as [Hin Hord].
  pose proof (Hin _ _ Htok) as [[Hs0 Hse] Hel].
  pose proof (splice_length (Lexer.locationSpan tok) newText (Template_text t)
                (Hin _ _ Htok)) as Hlen.
  split.
  - intros j tj' Hj. unfold withinText.
    change (Template_text (editedTemplate t T tok newText))
      with (splice (Lexer.locationSpan tok) newText (Template_text t)).
    rewrite Hlen.
    apply editedTemplate_lookup in Hj
      as [[Hlt Hj]|[[-> ->]|[Hgt (tj & Hj & ->)]]].
    + pose proof (Hin _ _ Hj) as [[? ?] ?].
      pose proof (Hord _ _ _ _ Hlt Hj Htok).
      unfold getLength. lia.
    + unfold editedToken, getLength. simpl. lia.
    + pose proof (Hin _ _ Hj) as [[? ?] ?].
      pose proof (Hord _ _ _ _ Hgt Htok Hj).
      unfold Token_moveBy, moveBy, editDelta, getLength. simpl. lia.
  - intros i j ti' tj' Hij Hi Hj.
    apply editedTemplate_lookup in Hi
      as [[Hi_lt Hi]|[[-> ->]|[Hi_gt (ti & Hi & ->)]]];
    apply editedTemplate_lookup in Hj
      as [[Hj_lt Hj]|[[-> ->]|[Hj_gt (tj & Hj & ->)]]];
    try lia.
    + by apply (Hord i j).
    + pose proof (Hord _ _ _ _ Hi_lt Hi Htok). simpl. lia.
    + pose proof (Hord _ _ _ _ Hi_lt Hi Htok).
      pose proof (Hord _ _ _ _ Hj_gt Htok Hj).
      unfold Token_moveBy, moveBy, editDelta, getLength. simpl. lia.
    + pose proof (Hord _ _ _ _ Hj_gt Htok Hj).
      unfold Token_moveBy, moveBy, editDelta, editedToken, getLength.
      simpl. lia.
    + pose proof (Hord _ _ _ _ Hij Hi Hj).
      unfold Token_moveBy, moveBy. simpl. lia.
Qed.

Lemma editedTemplate_renderedAt_self :
  renderedAt (editedTemplate t T tok newText) T = Some newText.
Proof.
  destruct Hwf as [Hin _]. pose proof (Hin _ _ Htok) as [[Hs0 Hse] Hel].
  unfold renderedAt. rewrite editedTemplate_lookup_at. simpl. f_equal.
  unfold LocationSpan_getText, editedToken, span. simpl.
  apply (slice_splice (Lexer.locationSpan tok)). lia.
Qed.

Lemma editedTemplate_renderedAt_other (j : nat) :
  j <> T ->
  renderedAt (editedTemplate t T tok newText) j = renderedAt t j.
Proof.
  intros Hne. destruct Hwf as [Hin Hord].
  unfold renderedAt.
  destruct (lt_eq_lt_dec j T) as [[Hlt|Heq]|Hgt]; [|done|].
  - rewrite editedTemplate_lookup_before by done.
    destruct (Template_tokens t !! j) as [tj|] eqn:Hj; [|done].
    simpl. f_equal. unfold LocationSpan_getText.
    pose proof (Hin _ _ Hj) as [[? ?] ?].
    pose proof (Hord _ _ _ _ Hlt Hj Htok).
    apply slice_splice_before; [by apply (Hin T) | lia | lia].
  - rewrite editedTemplate_lookup_after by done.
    destruct (Template_tokens t !! j) as [tj|] eqn:Hj; [|done].
    simpl. f_equal. unfold LocationSpan_getText, Token_moveBy, moveBy, span.
    simpl.
    pose proof (Hin _ _ Hj) as [[? ?] ?].
    pose proof (Hord _ _ _ _ Hgt Htok Hj).
    apply (slice_splice_after (Lexer.locationSpan tok));
      [by apply (Hin T) | lia | lia].
Qed.
End EditedTemplate.

Section TokenLookupFacts.
Import TemplateNodes.

(** Looking a token type up among a node's tokens reads the types of the
    document's tokens only. *)
Lemma findTokenOfType_types (ty : TokenType) (t t' : Template)
    (refs : list nat) :
  (forall j, type <$> Template_tokens t' !! j
             = type <$> Template_tokens t !! j) ->
  findTokenOfType ty t' refs = findTokenOfType ty t refs.
Proof.
  intros Htypes. induction refs as [|r refs IH]; [reflexivity|].
  simpl. unfold getToken. specialize (Htypes r).
  destruct (Template_tokens t' !! r) as [tok'|],
           (Template_tokens t !! r) as [tok|];
    simpl in Htypes; try discriminate; [|reflexivity].
  injection Htypes as Htypes. simpl. rewrite Htypes, IH. reflexivity.
Qed.

Lemma omap_ext_types (t t' : Template) (refs : list nat) :
  (forall j, type <$> Template_tokens t' !! j
             = type <$> Template_tokens t !! j) ->
  omap (fun token => typeName <$> Template_tokens t' !! token) refs
  = omap (fun token => typeName <$> Template_tokens t !! token) refs.
Proof.
  intros Htypes. apply list_omap_ext. apply Forall2_same_length_lookup.
  split; [done|]. intros i r r' Hr Hr'. rewrite Hr in Hr'.
  injection Hr' as <-. specialize (Htypes r).
  destruct (Template_tokens t' !! r) as [tok'|],
           (Template_tokens t !! r) as [tok|];
    simpl in Htypes; try discriminate; [|reflexivity].
  injection Htypes as Htypes. simpl. unfold typeName. by rewrite Htypes.
Qed.

Lemma tokenTypeNames_types (t t' : Template) (refs : list nat) :
  (forall j, type <$> Template_tokens t' !! j
             = type <$> Template_tokens t !! j) ->
  tokenTypeNames t' refs = tokenTypeNames t refs.
Proof.
  intros Htypes. unfold tokenTypeNames.
  by rewrite (omap_ext_types _ _ _ Htypes).
Qed.

Lemma getFirstTokenOfTypeOrThrow_types (this : nat) (ty : TokenType)
    (st st' : Store) :
  nodes st' = nodes st ->
  (forall j, type <$> Template_tokens (template st') !! j
             = type <$> Template_tokens (template st) !! j) ->
  getFirstTokenOfTypeOrThrow this ty st' = getFirstTokenOfTypeOrThrow this ty st.
Proof.
  intros Hnodes Htypes.
  unfold getFirstTokenOfTypeOrThrow, getFirstTokenOfType, deref.
  rewrite Hnodes. destruct (nodes st !! this) as [self|]; [|reflexivity].
  simpl. rewrite (findTokenOfType_types _ _ _ _ Htypes).
  by rewrite (tokenTypeNames_types _ _ _ Htypes).
Qed.

Lemma requireClass_nodes (test : NodeClass -> bool) (this : nat)
    (st st' : Store) :
  nodes st' = nodes st ->
  requireClass test this st' = requireClass test this st.
Proof. intros H. unfold requireClass, deref. by rewrite H. Qed.

(** What a successful lookup says about the token found. *)
Lemma findTokenOfType_Some (ty : TokenType) (t : Template) (refs : list nat)
    (r : nat) :
  findTokenOfType ty t refs = Ok (Some r) ->
  exists before after tok,
    refs = before ++ r :: after
    /\ Template_tokens t !! r = Some tok
    /\ type tok = ty
    /\ Forall (fun r' => exists tok', Template_tokens t !! r' = Some tok'
                                      /\ type tok' <> ty) before.
Proof.
  induction refs as [|r0 refs IH]; [discriminate|].
  simpl. unfold getToken.
  destruct (Template_tokens t !! r0) as [tok0|] eqn:E0; [|discriminate].
  simpl. destruct (decide (type tok0 = ty)) as [Hty|Hty].
  - intros [= <-]. exists [], refs, tok0. repeat split; [done..|constructor].
  - intros H. destruct (IH H) as (before & after & tok & -> & Hr & Htok & HF).
    exists (r0 :: before), after, tok. repeat split; try done.
    constructor; [|done]. by exists tok0.
Qed.

Lemma findTokenOfType_None (ty : TokenType) (t : Template) (refs : list nat) :
  findTokenOfType ty t refs = Ok None ->
  Forall (fun r' => exists tok', Template_tokens t !! r' = Some tok'
                                 /\ type tok' <> ty) refs.
Proof.
  induction refs as [|r0 refs IH]; [constructor|].
  simpl. unfold getToken.
  destruct (Template_tokens t !! r0) as [tok0|] eqn:E0; [|discriminate].
  simpl. destruct (decide (type tok0 = ty)) as [Hty|Hty]; [discriminate|].
  intros H. constructor; [by exists tok0 | by apply IH].
Qed.

Lemma findTokenOfType_total (ty : TokenType) (t : Template) (refs : list nat) :
  Forall (fun r => (r < length (Template_tokens t))%nat) refs ->
  exists found, findTokenOfType ty t refs = Ok found.
Proof.
  induction 1 as [|r0 refs Hr0 _ [found IH]]; [by exists None|].
  simpl. unfold getToken.
  destruct (lookup_lt_is_Some_2 _ _ Hr0) as [tok0 E0]. rewrite E0. simpl.
  destruct (decide (type tok0 = ty)); eauto.
Qed.
End TokenLookupFacts.

Section StepFacts.
Import TemplateNodes.

Lemma _replaceTextByTokens_step_edited (st : Store) (T : nat) (tok : Token)
    (newText : string) :
  Template_tokens (template st) !! T = Some tok ->
  _replaceTextByTokens_step (mkTextReplaceConfig T newText) st
  = Ok (tt, mkStore (editedTemplate (template st) T tok newText) (nodes st)).
Proof. apply _replaceTextByTokens_step_run. Qed.

Lemma editedTemplate_length (t : Template) (T : nat) (tok : Token)
    (newText : string) :
  Template_tokens t !! T = Some tok ->
  length (Template_tokens (editedTemplate t T tok newText))
  = length (Template_tokens t).
Proof. intros Htok. by apply edited_length. Qed.

(** The whole list of edits, on a well-formed document. *)
Lemma _replaceTextByTokens_wellFormed (configs : list TextReplaceConfig) :
  forall st,
    wellFormed (template st) ->
    Forall (fun config =>
              (token config < length (Template_tokens (template st)))%nat)
           configs ->
    exists st',
      _replaceTextByTokens configs st = Ok (tt, st')
      /\ wellFormed (template st')
      /\ nodes st' = nodes st
      /\ getRoots (template st') = getRoots (template st)
      /\ length (Template_tokens (template st'))
         = length (Template_tokens (template st))
      /\ (forall j, type <$> Template_tokens (template st') !! j
                    = type <$> Template_tokens (template st) !! j)
      /\ (forall j, j ∉ token <$> configs ->
                    renderedAt (template st') j = renderedAt (template st) j).
Proof.
  induction configs as [|[T newText] configs IH]; intros st Hwf Hin.
  - exists st. do 6 (split; [done|]). done.
  - apply Forall_cons in Hin as [HT Hin]. simpl in HT.
    destruct (lookup_lt_is_Some_2 _ _ HT) as [tok Htok].
    set (st1 := mkStore (editedTemplate (template st) T tok newText)
                        (nodes st)).
    destruct (IH st1) as (st' & Hrun & Hwf' & Hn & Hr & Hl & Hty & Hrender).
    + by apply editedTemplate_wellFormed.
    + unfold st1. cbn [template]. rewrite editedTemplate_length by done.
      exact Hin.
    + exists st'. rewrite _replaceTextByTokens_cons. unfold bind.
      rewrite (_replaceTextByTokens_step_edited _ _ _ _ Htok).
      fold st1. rewrite Hrun.
      split; [done|]. split; [done|]. split; [done|]. split; [done|].
      unfold st1 in Hl, Hty, Hrender. cbn [template] in Hl, Hty, Hrender.
      split; [by rewrite Hl; apply editedTemplate_length|].
      split.
      * intros j. rewrite Hty. by apply editedTemplate_types.
      * intros j Hj. rewrite fmap_cons in Hj.
        apply not_elem_of_cons in Hj as [Hne Hj].
        rewrite (Hrender j Hj).
        by apply editedTemplate_renderedAt_other.
Qed.
End StepFacts.

Section RenderFacts.
Import TemplateNodes.

Lemma Token_toString_renderedAt (T : nat) (st : Store) (s : string) :
  renderedAt (template st) T = Some s -> Token_toString T st = Ok s.
Proof.
  unfold renderedAt, Token_toString, getToken.
  destruct (Template_tokens (template st) !! T) as [tok|]; [|discriminate].
  simpl. by intros [= <-].
Qed.

Lemma Token_toString_Ok (T : nat) (st : Store) (s : string) :
  Token_toString T st = Ok s -> renderedAt (template st) T = Some s.
Proof.
  unfold renderedAt, Token_toString, getToken.
  destruct (Template_tokens (template st) !! T) as [tok|]; [|discriminate].
  simpl. by intros [= <-].
Qed.

Lemma getFirstTokenOfTypeOrThrow_Ok (this : nat) (ty : TokenType)
    (st : Store) (T : nat) :
  getFirstTokenOfTypeOrThrow this ty st = Ok T ->
  exists self tok,
    nodes st !! this = Some self
    /\ T ∈ tokens self
    /\ Template_tokens (template st) !! T = Some tok
    /\ type tok = ty.
Proof.
  unfold getFirstTokenOfTypeOrThrow, getFirstTokenOfType, deref.
  destruct (nodes st !! this) as [self|]; [|discriminate]. simpl.
  destruct (findTokenOfType ty (template st) (tokens self))
    as [[r|]| |] eqn:E; try discriminate.
  simpl. intros [= ->].
  apply findTokenOfType_Some in E as (before & after & tok & Hrefs & Hr & Hty & _).
  exists self, tok. repeat split; try done.
  rewrite Hrefs. apply elem_of_app. right. apply list_elem_of_here.
Qed.

Lemma getTextToken_Ok (this T : nat) (st : Store) :
  getTextToken this st = Ok T ->
  exists tok, Template_tokens (template st) !! T = Some tok /\ type tok = TEXT.
Proof.
  unfold getTextToken.
  destruct (requireClass isInterpolation this st); try discriminate. simpl.
  intros H. apply getFirstTokenOfTypeOrThrow_Ok in H
    as (self & tok & _ & _ & Htok & Hty).
  by exists tok.
Qed.

Lemma getTextToken_types (this : nat) (st st' : Store) :
  nodes st' = nodes st ->
  (forall j, type <$> Template_tokens (template st') !! j
             = type <$> Template_tokens (template st) !! j) ->
  getTextToken this st' = getTextToken this st.
Proof.
  intros Hn Hty. unfold getTextToken.
  rewrite (requireClass_nodes _ _ _ _ Hn).
  by rewrite (getFirstTokenOfTypeOrThrow_types _ _ _ _ Hn Hty).
Qed.

(** [changeText] on a store whose interpolation has its text token. *)
Lemma changeText_run (this T : nat) (tok : Token) (newText : string)
    (st : Store) :
  getTextToken this st = Ok T ->
  Template_tokens (template st) !! T = Some tok ->
  changeText this newText st
  = Ok (this, mkStore (editedTemplate (template st) T tok newText) (nodes st)).
Proof.
  intros Hget Htok. unfold changeText, bind, liftR. rewrite Hget.
  rewrite _replaceTextByTokens_single.
  by rewrite (_replaceTextByTokens_step_edited _ _ _ _ Htok).
Qed.

Lemma getText_edited (this T : nat) (tok : Token) (newText : string)
    (st : Store) :
  wellFormed (template st) ->
  getTextToken this st = Ok T ->
  Template_tokens (template st) !! T = Some tok ->
  getText this (mkStore (editedTemplate (template st) T tok newText) (nodes st))
  = Ok newText.
Proof.
  intros Hwf Hget Htok. unfold getText.
  rewrite (getTextToken_types this st); [|done|].
  - rewrite Hget. simpl. apply Token_toString_renderedAt.
    by apply editedTemplate_renderedAt_self.
  - intros j. by apply editedTemplate_types.
Qed.

(** Undoing an edit: the edited document, edited back to the text the
    token had, is the document from before. *)
Lemma editedTemplate_back (t : Template) (T : nat) (tok : Token)
    (newText : string) :
  Template_tokens t !! T = Some tok ->
  withinText (Lexer.locationSpan tok) (Template_text t) ->
  editedTemplate (editedTemplate t T tok newText) T
    (editedToken tok newText)
    (LocationSpan_getText (Lexer.locationSpan tok) t)
  = t.
Proof.
  intros Htok Hwithin.
  pose proof Hwithin as [[Hs0 Hse] Hel].
  pose proof (slice_length _ _ Hwithin) as Hold.
  set (old := LocationSpan_getText (Lexer.locationSpan tok) t).
  assert (Z.of_nat (String.length old) = getLength (Lexer.locationSpan tok))
    as Hlen by exact Hold.
  assert (Template_tokens (editedTemplate t T tok newText) !! T
          = Some (editedToken tok newText)) as Htok1
    by (by apply editedTemplate_lookup_at).
  destruct t as [text toks roots]. simpl in *.
  unfold editedTemplate at 1. cbn [Template_text Template_tokens getRoots].
  f_equal.
  - (* the text *)
    unfold editedTemplate. cbn [Template_text].
    unfold splice at 1. unfold editedToken, span.
    cbn [Lexer.locationSpan getStart getEnd getOffset].
    unfold splice.
    set (s := Z.to_nat (getOffset (getStart (Lexer.locationSpan tok)))).
    assert (String.length (strTake s text) = s) as Hs
      by (rewrite strTake_length; lia).
    rewrite strTake_append_le by lia.
    rewrite strTake_strTake by lia.
    rewrite (strDrop_append_ge _ (strTake s text)) by lia.
    replace (Z.to_nat (getOffset (getStart (Lexer.locationSpan tok))
                       + Z.of_nat (String.length newText))
             - String.length (strTake s text))%nat
      with (String.length newText) by lia.
    rewrite strDrop_app.
    apply (splice_same (Lexer.locationSpan tok) text Hwithin).
  - (* the tokens *)
    apply list_eq. intros j.
    destruct (lt_eq_lt_dec j T) as [[Hlt|Heq]|Hgt].
    + rewrite (edited_before _ _ _ _ Htok1) by done.
      by apply edited_before.
    + subst j. rewrite (edited_at _ _ _ _ Htok1). rewrite Htok. f_equal.
      destruct tok as [ty [[s0] [e0]]].
      unfold editedToken, span, getLength in *. simpl in *.
      do 3 f_equal. lia.
    + rewrite (edited_after _ _ _ _ Htok1) by done.
      rewrite (edited_after _ _ _ _ Htok) by done.
      destruct (toks !! j) as [tj|]; [|reflexivity]. simpl. f_equal.
      rewrite Token_moveBy_moveBy.
      replace (editDelta tok newText
               + editDelta (editedToken tok newText) old) with 0.
      * apply Token_moveBy_0.
      * unfold editDelta, editedToken, getLength, span in *. simpl. lia.
Qed.
End RenderFacts.

Section SampleFacts.
Import TemplateNodes Samples.

(** The sample document [<div><span>{{x}}</span></div>] is well formed. *)
Lemma nestedStore_wellFormed : wellFormed (template nestedStore).
Proof.
  split.
  - intros i tok H.
    do 8 (destruct i as [|i];
          [injection H as <-; unfold withinText; simpl; lia|]).
    discriminate.
  - intros i j ti tj Hij Hi Hj.
    do 8 (destruct i as [|i];
          [do 8 (destruct j as [|j];
                 [try lia; injection Hi as <-; injection Hj as <-;
                  simpl; lia|]);
           discriminate|]).
    discriminate.
Qed.
End SampleFacts.

(** X1. A list of edits whose tokens all belong to a well-formed document
    runs to its end and leaves the document well formed: the token spans
    still lie within the text, in order and without overlap. The nodes, the
    roots, the number of tokens and the type of every token are as
    before. *)
Theorem X1_edits_keep_document_wellFormed
    (configs : list TemplateNodes.TextReplaceConfig)
    (st : TemplateNodes.Store) :
  wellFormed (TemplateNodes.template st) ->
  Forall (fun config =>
            (TemplateNodes.token config
             < length (Template_tokens (TemplateNodes.template st)))%nat)
         configs ->
  exists st',
    TemplateNodes._replaceTextByTokens configs st = Ok (tt, st')
    /\ wellFormed (TemplateNodes.template st')
    /\ TemplateNodes.nodes st' = TemplateNodes.nodes st
    /\ getRoots (TemplateNodes.template st')
       = getRoots (TemplateNodes.template st)
    /\ length (Template_tokens (TemplateNodes.template st'))
       = length (Template_tokens (TemplateNodes.template st))
    /\ (forall j,
          type <$> Template_tokens (TemplateNodes.template st') !! j
          = type <$> Template_tokens (TemplateNodes.template st) !! j).
Proof.
  intros Hwf Hin.
  destruct (_replaceTextByTokens_wellFormed configs st Hwf Hin)
    as (st' & Hrun & Hwf' & Hn & Hr & Hl & Hty & _).
  by exists st'.
Qed.

(** X1 on [<div><span>{{x}}</span></div>]: the text token and then the
    open tag of the [div] are edited. *)
Lemma X1_edits_keep_document_wellFormed_witness :
  exists st',
    TemplateNodes._replaceTextByTokens
      [TemplateNodes.mkTextReplaceConfig 4%nat "{{ value }}";
       TemplateNodes.mkTextReplaceConfig 0%nat "<section"]
      Samples.nestedStore = Ok (tt, st')
    /\ wellFormed (TemplateNodes.template st').
Proof.
  destruct (X1_edits_keep_document_wellFormed
              [TemplateNodes.mkTextReplaceConfig 4%nat "{{ value }}";
               TemplateNodes.mkTextReplaceConfig 0%nat "<section"]
              Samples.nestedStore nestedStore_wellFormed)
    as (st' & Hrun & Hwf & _).
  - repeat constructor; simpl; lia.
  - by exists st'.
Defined.

(** X2. After a list of edits on a well-formed document, every token the
    list does not name renders the same text as before, wherever it lies
    relative to the edited tokens. *)
Theorem X2_edits_leave_other_tokens_text
    (configs : list TemplateNodes.TextReplaceConfig)
    (st st' : TemplateNodes.Store) (j : nat) :
  wellFormed (TemplateNodes.template st) ->
  Forall (fun config =>
            (TemplateNodes.token config
             < length (Template_tokens (TemplateNodes.template st)))%nat)
         configs ->
  TemplateNodes._replaceTextByTokens configs st = Ok (tt, st') ->
  j ∉ TemplateNodes.token <$> configs ->
  renderedAt (TemplateNodes.template st') j
  = renderedAt (TemplateNodes.template st) j.
Proof.
  intros Hwf Hin Hrun Hj.
  destruct (_replaceTextByTokens_wellFormed configs st Hwf Hin)
    as (st1 & Hrun1 & _ & _ & _ & _ & _ & Hrender).
  rewrite Hrun in Hrun1. injection Hrun1 as <-. by apply Hrender.
Qed.

(** X2 on [<div><span>{{x}}</span></div>]: after the text token and the
    open tag of the [div] are edited, the close tag of the [span] (token
    5) still renders [</span>]. *)
Lemma X2_edits_leave_other_tokens_text_witness :
  exists st',
    TemplateNodes._replaceTextByTokens
      [TemplateNodes.mkTextReplaceConfig 4%nat "{{ value }}";
       TemplateNodes.mkTextReplaceConfig 0%nat "<section"]
      Samples.nestedStore = Ok (tt, st')
    /\ renderedAt (TemplateNodes.template st') 5%nat = Some "</span>".
Proof.
  eexists. split; [reflexivity|].
  rewrite (X2_edits_leave_other_tokens_text
             [TemplateNodes.mkTextReplaceConfig 4%nat "{{ value }}";
              TemplateNodes.mkTextReplaceConfig 0%nat "<section"]
             Samples.nestedStore _ 5%nat nestedStore_wellFormed).
  - reflexivity.
  - repeat constructor; simpl; lia.
  - reflexivity.
  - intros H%list_elem_of_In. simpl in H. lia.
Defined.

(** X3. [changeText] on an interpolation of a well-formed document writes
    the text through: it returns the node, [getText] then returns the new
    text, and the document is still well formed. *)
Theorem X3_changeText_then_getText (st : TemplateNodes.Store)
    (this T : nat) (newText : string) :
  wellFormed (TemplateNodes.template st) ->
  TemplateNodes.getTextToken this st = Ok T ->
  exists st',
    TemplateNodes.changeText this newText st = Ok (this, st')
    /\ TemplateNodes.getText this st' = Ok newText
    /\ wellFormed (TemplateNodes.template st').
Proof.
  intros Hwf Hget.
  destruct (getTextToken_Ok _ _ _ Hget) as (tok & Htok & _).
  eexists. split; [by apply (changeText_run this T tok)|].
  split; [by apply getText_edited|].
  by apply editedTemplate_wellFormed.
Qed.

Lemma X3_changeText_then_getText_witness :
  exists st',
    TemplateNodes.changeText 2%nat "{{ value }}" Samples.nestedStore
    = Ok (2%nat, st')
    /\ TemplateNodes.getText 2%nat st' = Ok "{{ value }}".
Proof.
  destruct (X3_changeText_then_getText Samples.nestedStore 2%nat 4%nat
              "{{ value }}" nestedStore_wellFormed eq_refl)
    as (st' & Hrun & Hget & _).
  by exists st'.
Defined.

(** X4. [changeText] can be undone: changing the text of an interpolation
    whose text token lies within the text, and then changing it back to
    the text [getText] returned before, restores the whole store. *)
Theorem X4_changeText_undo (st : TemplateNodes.Store) (this T : nat)
    (tok : Token) (oldText newText : string) :
  TemplateNodes.getTextToken this st = Ok T ->
  Template_tokens (TemplateNodes.template st) !! T = Some tok ->
  withinText (Lexer.locationSpan tok)
    (Template_text (TemplateNodes.template st)) ->
  TemplateNodes.getText this st = Ok oldText ->
  (TemplateNodes.changeText this newText >>
   TemplateNodes.changeText this oldText) st = Ok (this, st).
Proof.
  intros Hget Htok Hwithin Htext.
  assert (oldText = LocationSpan_getText (Lexer.locationSpan tok)
                      (TemplateNodes.template st)) as ->.
  { revert Htext. unfold TemplateNodes.getText. rewrite Hget. simpl.
    unfold TemplateNodes.Token_toString, getToken. rewrite Htok. simpl.
    by intros [= <-]. }
  unfold bind. rewrite (changeText_run _ _ _ _ _ Hget Htok).
  rewrite (changeText_run _ T (editedToken tok newText)).
  - cbn [TemplateNodes.template TemplateNodes.nodes].
    rewrite editedTemplate_back by done. by destruct st.
  - rewrite (getTextToken_types this st); [done|done|].
    intros j. by apply editedTemplate_types.
  - by apply editedTemplate_lookup_at.
Qed.

Lemma X4_changeText_undo_witness :
  (TemplateNodes.changeText 2%nat "{{ value }}" >>
   TemplateNodes.changeText 2%nat "{{x}}") Samples.nestedStore
  = Ok (2%nat, Samples.nestedStore).
Proof.
  apply (X4_changeText_undo Samples.nestedStore 2%nat 4%nat
           (mkToken TEXT (span 11 16)) "{{x}}" "{{ value }}").
  - reflexivity.
  - reflexivity.
  - unfold withinText. simpl. lia.
  - reflexivity.
Defined.

Section TrimFacts.

Lemma trimEnd_trimEnd (s : string) : trimEnd (trimEnd s) = trimEnd s.
Proof.
  induction s as [|c s IH]; [reflexivity|]. simpl.
  destruct (trimEnd s) as [|c' r] eqn:E.
  - destruct (isWhiteSpace c) eqn:Hc; [reflexivity|]. simpl. by rewrite Hc.
  - simpl in IH |- *. by rewrite IH.
Qed.

(** Trimming the end keeps a first character that is no white space. *)
Lemma trimStart_trimEnd (s : string) :
  trimStart s = s -> trimStart (trimEnd s) = trimEnd s.
Proof.
  destruct s as [|c s]; [reflexivity|]. simpl.
  destruct (isWhiteSpace c) eqn:Hc.
  - intros H. exfalso.
    assert (String.length (trimStart s) <= String.length s)%nat as Hle.
    { clear. induction s as [|c s IH]; simpl; [lia|].
      destruct (isWhiteSpace c); simpl; lia. }
    rewrite H in Hle. simpl in Hle. lia.
  - intros _. destruct (trimEnd s); simpl; by rewrite Hc.
Qed.

Lemma trimStart_trimStart (s : string) : trimStart (trimStart s) = trimStart s.
Proof.
  induction s as [|c s IH]; [reflexivity|]. simpl.
  destruct (isWhiteSpace c) eqn:Hc; [exact IH|]. simpl. by rewrite Hc.
Qed.

Lemma trim_trim (s : string) : trim (trim s) = trim s.
Proof.
  unfold trim.
  rewrite (trimStart_trimEnd (trimStart s)) by apply trimStart_trimStart.
  apply trimEnd_trimEnd.
Qed.
End TrimFacts.

Section MoreRenderFacts.
Import TemplateNodes.

(** Writing to a token the text it renders changes nothing. *)
Lemma editedTemplate_same (t : Template) (T : nat) (tok : Token) :
  Template_tokens t !! T = Some tok ->
  withinText (Lexer.locationSpan tok) (Template_text t) ->
  editedTemplate t T tok (LocationSpan_getText (Lexer.locationSpan tok) t) = t.
Proof.
  intros Htok Hwithin. unfold editedTemplate, LocationSpan_getText.
  pose proof (slice_length _ _ Hwithin) as Hlen.
  assert (editDelta tok
            (slice (getOffset (getStart (Lexer.locationSpan tok)))
               (getOffset (getEnd (Lexer.locationSpan tok)))
               (Template_text t)) = 0) as ->
    by (unfold editDelta; lia).
  rewrite editedToken_same; [|apply Hwithin|exact Hlen].
  rewrite list_insert_id by exact Htok.
  rewrite (list_fmap_ext _ id) by (intros; apply Token_moveBy_0).
  rewrite list_fmap_id, take_drop, splice_same by exact Hwithin.
  by destruct t.
Qed.

Lemma getText_Ok (this : nat) (st : Store) (text : string) :
  getText this st = Ok text ->
  exists T tok,
    getTextToken this st = Ok T
    /\ Template_tokens (template st) !! T = Some tok
    /\ text = LocationSpan_getText (Lexer.locationSpan tok) (template st).
Proof.
  unfold getText.
  destruct (getTextToken this st) as [T| |] eqn:Hget; try discriminate.
  simpl. unfold Token_toString, getToken.
  destruct (Template_tokens (template st) !! T) as [tok|] eqn:Htok;
    [|discriminate].
  simpl. intros [= <-]. by exists T, tok.
Qed.

Lemma trimText_run (this T : nat) (tok : Token) (text : string) (st : Store) :
  getTextToken this st = Ok T ->
  Template_tokens (template st) !! T = Some tok ->
  getText this st = Ok text ->
  trimText this st
  = Ok (this, mkStore (editedTemplate (template st) T tok (trim text))
                      (nodes st)).
Proof.
  intros Hget Htok Htext. unfold trimText.
  unfold bind at 1. unfold liftR at 1. rewrite Htext.
  by apply changeText_run.
Qed.

(** Reading [slice] one character further in is dropping one character. *)
Lemma slice_moveStart (a b : Z) (s : string) :
  0 <= a -> slice (a + 1) b s = strDrop 1 (slice a b s).
Proof.
  intros Ha. unfold slice. rewrite strDrop_strTake, strDrop_strDrop.
  f_equal; [lia|]. f_equal. lia.
Qed.

Lemma paddedStore_wellFormed :
  wellFormed (TemplateNodes.template Samples.paddedStore).
Proof.
  split.
  - intros i tok H.
    do 2 (destruct i as [|i];
          [injection H as <-; unfold withinText; simpl; lia|]).
    discriminate.
  - intros i j ti tj Hij Hi Hj.
    do 2 (destruct i as [|i];
          [do 2 (destruct j as [|j];
                 [try lia; injection Hi as <-; injection Hj as <-;
                  simpl; lia|]);
           discriminate|]).
    discriminate.
Qed.
End MoreRenderFacts.

(** X5. [trimText] on an interpolation of a well-formed document leaves
    the trimmed text behind: [getText] afterwards returns the trim of what
    it returned before, and a second [trimText] changes nothing any
    more. *)
Theorem X5_trimText_trims_once (st : TemplateNodes.Store) (this : nat)
    (text : string) :
  wellFormed (TemplateNodes.template st) ->
  TemplateNodes.getText this st = Ok text ->
  exists st',
    TemplateNodes.trimText this st = Ok (this, st')
    /\ TemplateNodes.getText this st' = Ok (trim text)
    /\ TemplateNodes.trimText this st' = Ok (this, st').
Proof.
  intros Hwf Htext.
  destruct (getText_Ok _ _ _ Htext) as (T & tok & Hget & Htok & _).
  set (st' := TemplateNodes.mkStore
                (editedTemplate (TemplateNodes.template st) T tok (trim text))
                (TemplateNodes.nodes st)).
  assert (TemplateNodes.getText this st' = Ok (trim text)) as Htext'
    by (by apply getText_edited).
  assert (wellFormed (TemplateNodes.template st')) as Hwf'
    by (by apply editedTemplate_wellFormed).
  exists st'. split; [by apply trimText_run|]. split; [exact Htext'|].
  destruct (getText_Ok _ _ _ Htext') as (T' & tok' & Hget' & Htok' & Hslice).
  rewrite (trimText_run _ _ _ _ _ Hget' Htok' Htext').
  rewrite trim_trim. rewrite Hslice at 1.
  rewrite editedTemplate_same; [by destruct st'|exact Htok'|].
  destruct Hwf' as [Hin _]. by apply (Hin T').
Qed.

(** X5 on an interpolation with a no-break space and a blank at either
    end: all four are gone after [trimText]. *)
Lemma X5_trimText_trims_once_witness :
  TemplateNodes.getText 0%nat Samples.paddedStore
  = Ok (Samples.nbsp +:+ " {{ x }} " +:+ Samples.nbsp)
  /\ exists st',
       TemplateNodes.trimText 0%nat Samples.paddedStore = Ok (0%nat, st')
       /\ TemplateNodes.getText 0%nat st' = Ok "{{ x }}"
       /\ TemplateNodes.trimText 0%nat st' = Ok (0%nat, st').
Proof.
  split; [reflexivity|].
  apply (X5_trimText_trims_once Samples.paddedStore 0%nat
           (Samples.nbsp +:+ " {{ x }} " +:+ Samples.nbsp)
           paddedStore_wellFormed).
  reflexivity.
Defined.

Section TagNameFacts.
Import TemplateNodes.

Lemma changeTagName_run (this openToken closeToken : nat)
    (openTok closeTok : Token) (newTagName : string) (st : Store) :
  requireClass isElement this st = Ok tt ->
  getTagOpenStartToken this st = Ok openToken ->
  getTagEndToken this st = Ok closeToken ->
  Template_tokens (template st) !! openToken = Some openTok ->
  Template_tokens
    (editedTemplate (template st) openToken openTok ("<" +:+ newTagName))
    !! closeToken = Some closeTok ->
  changeTagName this newTagName st
  = Ok (this,
        mkStore
          (editedTemplate
             (editedTemplate (template st) openToken openTok
                ("<" +:+ newTagName))
             closeToken closeTok ("</" +:+ newTagName +:+ ">"))
          (nodes st)).
Proof.
  intros Hclass Hopen Hclose HopenTok HcloseTok.
  rewrite (changeTagName_two_edits _ _ _ _ _ Hclass Hopen Hclose).
  unfold bind. rewrite _replaceTextByTokens_single.
  rewrite (_replaceTextByTokens_step_edited _ _ _ _ HopenTok).
  rewrite _replaceTextByTokens_single.
  by rewrite (_replaceTextByTokens_step_edited _ _ closeTok).
Qed.
End TagNameFacts.

(** X6. [changeTagName] on an element of a well-formed document, with its
    open-tag and close-tag tokens found: it returns the node, [getTagName]
    then returns the new name, the close-tag token renders
    ['</' + name + '>'], every other token renders what it rendered
    before, and the document is still well formed. *)
Theorem X6_changeTagName_then_getTagName (st : TemplateNodes.Store)
    (this openToken closeToken : nat) (newTagName : string) :
  wellFormed (TemplateNodes.template st) ->
  TemplateNodes.requireClass TemplateNodes.isElement this st = Ok tt ->
  TemplateNodes.getTagOpenStartToken this st = Ok openToken ->
  TemplateNodes.getTagEndToken this st = Ok closeToken ->
  exists st',
    TemplateNodes.changeTagName this newTagName st = Ok (this, st')
    /\ TemplateNodes.getTagName this st' = Ok newTagName
    /\ TemplateNodes.Token_toString closeToken st'
       = Ok ("</" +:+ newTagName +:+ ">")
    /\ (forall j, j <> openToken -> j <> closeToken ->
          renderedAt (TemplateNodes.template st') j
          = renderedAt (TemplateNodes.template st) j)
    /\ wellFormed (TemplateNodes.template st').
Proof.
  intros Hwf Hclass Hopen Hclose.
  destruct (getFirstTokenOfTypeOrThrow_Ok _ _ _ _ Hopen)
    as (_ & openTok & _ & _ & HopenTok & HopenTy).
  destruct (getFirstTokenOfTypeOrThrow_Ok _ _ _ _ Hclose)
    as (_ & closeTok0 & _ & _ & HcloseTok0 & HcloseTy).
  assert (closeToken <> openToken) as Hne
    by (intros ->; congruence).
  set (t1 := editedTemplate (TemplateNodes.template st) openToken openTok
               ("<" +:+ newTagName)).
  assert (wellFormed t1) as Hwf1 by (by apply editedTemplate_wellFormed).
  assert (exists closeTok, Template_tokens t1 !! closeToken = Some closeTok)
    as [closeTok HcloseTok].
  { apply lookup_lt_is_Some_2. unfold t1.
    rewrite editedTemplate_length by done.
    by apply (lookup_lt_Some _ _ closeTok0). }
  set (t2 := editedTemplate t1 closeToken closeTok
               ("</" +:+ newTagName +:+ ">")).
  assert (wellFormed t2) as Hwf2 by (by apply editedTemplate_wellFormed).
  assert (forall j, type <$> Template_tokens t2 !! j
                    = type <$> Template_tokens (TemplateNodes.template st) !! j)
    as Htypes.
  { intros j. unfold t2. rewrite editedTemplate_types by done.
    unfold t1. by apply editedTemplate_types. }
  assert (renderedAt t2 openToken = Some ("<" +:+ newTagName)) as Hrender.
  { unfold t2. rewrite editedTemplate_renderedAt_other by done.
    unfold t1. by apply editedTemplate_renderedAt_self. }
  exists (TemplateNodes.mkStore t2 (TemplateNodes.nodes st)).
  split; [by apply (changeTagName_run _ _ _ openTok closeTok)|].
  split; [|split; [|split; [|exact Hwf2]]].
  - unfold TemplateNodes.getTagName, TemplateNodes.getStartTagNameLocationSpan,
      TemplateNodes.getTagOpenStartToken.
    rewrite (requireClass_nodes _ _ st) by done. rewrite Hclass. simpl.
    rewrite (getFirstTokenOfTypeOrThrow_types _ _ st) by done.
    unfold TemplateNodes.getTagOpenStartToken in Hopen. rewrite Hopen. simpl.
    unfold renderedAt in Hrender. unfold getToken.
    destruct (Template_tokens t2 !! openToken) as [tok2|] eqn:Htok2;
      [|discriminate].
    simpl in Hrender |- *. injection Hrender as Hrender. f_equal.
    unfold LocationSpan_getText, moveStartBy, span in Hrender |- *.
    cbn [getStart getEnd getOffset TemplateNodes.template].
    destruct Hwf2 as [Hin2 _]. pose proof (Hin2 _ _ Htok2) as [[Hs0 _] _].
    rewrite slice_moveStart by exact Hs0. by rewrite Hrender.
  - apply Token_toString_renderedAt. simpl. unfold t2.
    by apply editedTemplate_renderedAt_self.
  - intros j Hjo Hjc. simpl. unfold t2.
    rewrite editedTemplate_renderedAt_other by done.
    unfold t1. by apply editedTemplate_renderedAt_other.
Qed.

(** X6 on [<div><span>{{x}}</span></div>]: the [span] (node 1) becomes
    an [article]. *)
Lemma X6_changeTagName_then_getTagName_witness :
  exists st',
    TemplateNodes.changeTagName 1%nat "article" Samples.nestedStore
    = Ok (1%nat, st')
    /\ TemplateNodes.getTagName 1%nat st' = Ok "article"
    /\ renderedAt (TemplateNodes.template st') 4%nat = Some "{{x}}".
Proof.
  destruct (X6_changeTagName_then_getTagName Samples.nestedStore
              1%nat 2%nat 5%nat "article" nestedStore_wellFormed
              eq_refl eq_refl eq_refl)
    as (st' & Hrun & Hname & _ & Hother & _).
  exists st'. split; [exact Hrun|]. split; [exact Hname|].
  rewrite Hother by lia. reflexivity.
Defined.

(** X7. An element whose tokens include an open-tag token but no
    close-tag token (a void element such as [<input>]) cannot be renamed:
    [changeTagName] throws the error of the missing [TAG_CLOSE] token,
    which lists the types of the node's tokens. *)
Theorem X7_changeTagName_without_close_tag (st : TemplateNodes.Store)
    (this openToken : nat) (self : TemplateNodes.TemplateNode)
    (newTagName : string) :
  TemplateNodes.nodes st !! this = Some self ->
  TemplateNodes.isElement (TemplateNodes.class self) = true ->
  TemplateNodes.getTagOpenStartToken this st = Ok openToken ->
  Forall (fun r => exists tok,
                     Template_tokens (TemplateNodes.template st) !! r = Some tok
                     /\ type tok <> TAG_CLOSE)
         (TemplateNodes.tokens self) ->
  TemplateNodes.changeTagName this newTagName st
  = Throw ("Expected to find TAG_CLOSE among tokens for ElementTemplateNode: "
           +:+ TemplateNodes.tokenTypeNames (TemplateNodes.template st)
                 (TemplateNodes.tokens self)
           +:+ ".").
Proof.
  intros Hself Hclass Hopen Hnone.
  unfold TemplateNodes.changeTagName, bind, liftR.
  unfold TemplateNodes.requireClass, TemplateNodes.deref.
  rewrite Hself. simpl. rewrite Hclass, Hopen.
  unfold TemplateNodes.getTagEndToken, TemplateNodes.getFirstTokenOfTypeOrThrow,
    TemplateNodes.getFirstTokenOfType, TemplateNodes.deref.
  rewrite Hself. simpl. rewrite (findTokenOfType_absent _ _ _ Hnone). simpl.
  destruct (TemplateNodes.class self); try discriminate. reflexivity.
Qed.

Lemma X7_changeTagName_without_close_tag_witness :
  TemplateNodes.changeTagName 0%nat "select" Samples.voidStore
  = Throw ("Expected to find TAG_CLOSE among tokens for ElementTemplateNode: "
           +:+ "TAG_OPEN_START, TAG_OPEN_END_VOID" +:+ ".").
Proof.
  apply (X7_changeTagName_without_close_tag Samples.voidStore 0%nat 0%nat
           (TemplateNodes.mkTemplateNode None [0; 1]%nat (span 0 7)
              (TemplateNodes.ElementTemplateNode "input"
                 Samples.noAttributes)) "select").
  - reflexivity.
  - reflexivity.
  - reflexivity.
  - repeat constructor; eexists; (split; [reflexivity | discriminate]).
Defined.

Section AttributeFacts.
Import TemplateNodes Samples.

Lemma Token_toString_eq (T : nat) (st st' : Store) :
  renderedAt (template st') T = renderedAt (template st) T ->
  Token_toString T st' = Token_toString T st.
Proof.
  unfold renderedAt, Token_toString, getToken.
  destruct (Template_tokens (template st') !! T),
           (Template_tokens (template st) !! T); simpl; try discriminate;
    [|done].
  by intros [= ->].
Qed.

Lemma linkStore_wellFormed : wellFormed (template linkStore).
Proof.
  split.
  - intros i tok H.
    do 4 (destruct i as [|i];
          [injection H as <-; unfold withinText; simpl; lia|]).
    discriminate.
  - intros i j ti tj Hij Hi Hj.
    do 4 (destruct i as [|i];
          [do 4 (destruct j as [|j];
                 [try lia; injection Hi as <-; injection Hj as <-;
                  simpl; lia|]);
           discriminate|]).
    discriminate.
Qed.
End AttributeFacts.

(** X8. [changeName] on an attribute of a well-formed document renames it
    and nothing else: the name token then renders the new name, the value
    token renders the value it rendered before, and the document is still
    well formed. *)
Theorem X8_changeName_keeps_value (st : TemplateNodes.Store)
    (this nameToken valueToken : nat) (newName : string) :
  wellFormed (TemplateNodes.template st) ->
  TemplateNodes.getNameToken this st = Ok nameToken ->
  TemplateNodes.getValueToken this st = Ok (Some valueToken) ->
  exists st',
    TemplateNodes.changeName this newName st = Ok (this, st')
    /\ TemplateNodes.Token_toString nameToken st' = Ok newName
    /\ TemplateNodes.Token_toString valueToken st'
       = TemplateNodes.Token_toString valueToken st
    /\ wellFormed (TemplateNodes.template st').
Proof.
  intros Hwf Hname Hvalue.
  assert (exists tok, Template_tokens (TemplateNodes.template st) !! nameToken
                      = Some tok /\ type tok = ATTR_NAME) as (tok & Htok & Hty).
  { revert Hname. unfold TemplateNodes.getNameToken.
    destruct (TemplateNodes.requireClass _ this st); try discriminate. simpl.
    intros H. apply getFirstTokenOfTypeOrThrow_Ok in H
      as (_ & tok & _ & _ & Htok & Hty).
    by exists tok. }
  assert (valueToken <> nameToken) as Hne.
  { revert Hvalue. unfold TemplateNodes.getValueToken,
      TemplateNodes.getFirstTokenOfType.
    destruct (TemplateNodes.requireClass _ this st); try discriminate. simpl.
    destruct (TemplateNodes.deref this st); try discriminate. simpl.
    intros H. apply findTokenOfType_Some in H
      as (_ & _ & vtok & _ & Hv & Hvty & _).
    intros ->. congruence. }
  exists (TemplateNodes.mkStore
            (editedTemplate (TemplateNodes.template st) nameToken tok newName)
            (TemplateNodes.nodes st)).
  split; [|split; [|split]].
  - unfold TemplateNodes.changeName, bind, liftR. rewrite Hname.
    rewrite _replaceTextByTokens_single.
    by rewrite (_replaceTextByTokens_step_edited _ _ _ _ Htok).
  - apply Token_toString_renderedAt. simpl.
    by apply editedTemplate_renderedAt_self.
  - apply Token_toString_eq. simpl.
    by apply editedTemplate_renderedAt_other.
  - by apply editedTemplate_wellFormed.
Qed.

(** X8 on [<a href='x'>]: [href] becomes [data-target]. *)
Lemma X8_changeName_keeps_value_witness :
  exists st',
    TemplateNodes.changeName 1%nat "data-target" Samples.linkStore
    = Ok (1%nat, st')
    /\ TemplateNodes.Token_toString 1%nat st' = Ok "data-target"
    /\ TemplateNodes.Token_toString 2%nat st' = Ok "x".
Proof.
  destruct (X8_changeName_keeps_value Samples.linkStore 1%nat 1%nat 2%nat
              "data-target" linkStore_wellFormed eq_refl eq_refl)
    as (st' & Hrun & Hname & Hvalue & _).
  exists st'. split; [exact Hrun|]. split; [exact Hname|].
  rewrite Hvalue. reflexivity.
Defined.

(** X9. For a node whose tokens all belong to the document,
    [getFirstTokenOfType] returns the first of the node's tokens that has
    the type asked for (every token before it has another type), and
    [undefined] exactly when none of the node's tokens has that type;
    [getFirstTokenOfTypeOrThrow] returns the same token in the first case
    and throws in the second. *)
Theorem X9_getFirstTokenOfType_finds_first (st : TemplateNodes.Store)
    (this : nat) (self : TemplateNodes.TemplateNode) (ty : TokenType) :
  TemplateNodes.nodes st !! this = Some self ->
  Forall (fun r =>
            (r < length (Template_tokens (TemplateNodes.template st)))%nat)
         (TemplateNodes.tokens self) ->
  (exists found, TemplateNodes.getFirstTokenOfType this ty st = Ok found)
  /\ (forall r,
        TemplateNodes.getFirstTokenOfType this ty st = Ok (Some r) ->
        TemplateNodes.getFirstTokenOfTypeOrThrow this ty st = Ok r
        /\ exists before after tok,
             TemplateNodes.tokens self = before ++ r :: after
             /\ Template_tokens (TemplateNodes.template st) !! r = Some tok
             /\ type tok = ty
             /\ Forall (fun r' =>
                          exists tok',
                            Template_tokens (TemplateNodes.template st) !! r'
                            = Some tok' /\ type tok' <> ty) before)
  /\ (TemplateNodes.getFirstTokenOfType this ty st = Ok None
      <-> Forall (fun r' =>
                    exists tok',
                      Template_tokens (TemplateNodes.template st) !! r'
                      = Some tok' /\ type tok' <> ty)
                 (TemplateNodes.tokens self))
  /\ (TemplateNodes.getFirstTokenOfType this ty st = Ok None ->
      exists message,
        TemplateNodes.getFirstTokenOfTypeOrThrow this ty st = Throw message).
Proof.
  intros Hself Hvalid.
  unfold TemplateNodes.getFirstTokenOfTypeOrThrow,
    TemplateNodes.getFirstTokenOfType, TemplateNodes.deref.
  rewrite Hself. simpl.
  split; [by apply findTokenOfType_total|].
  split; [|split].
  - intros r Hr. rewrite Hr. split; [reflexivity|].
    by apply findTokenOfType_Some.
  - split; [apply findTokenOfType_None | apply findTokenOfType_absent].
  - intros ->. simpl. eauto.
Qed.

(** X9 on the [div] of [<div><span>{{x}}</span></div>], whose tokens are
    its open tag (tokens 0 and 1) and its close tag (token 6). *)
Lemma X9_getFirstTokenOfType_finds_first_witness :
  TemplateNodes.getFirstTokenOfTypeOrThrow 0%nat TAG_CLOSE Samples.nestedStore
  = Ok 6%nat
  /\ exists message,
       TemplateNodes.getFirstTokenOfTypeOrThrow 0%nat TEXT Samples.nestedStore
       = Throw message.
Proof.
  assert (Forall (fun r =>
                    (r < length (Template_tokens
                                   (TemplateNodes.template
                                      Samples.nestedStore)))%nat)
                 [0; 1; 6]%nat) as Hvalid
    by (repeat constructor; simpl; lia).
  split.
  - destruct (X9_getFirstTokenOfType_finds_first Samples.nestedStore 0%nat _
                TAG_CLOSE eq_refl Hvalid) as (_ & Hsome & _).
    by apply (Hsome 6%nat).
  - destruct (X9_getFirstTokenOfType_finds_first Samples.nestedStore 0%nat _
                TEXT eq_refl Hvalid) as (_ & _ & _ & Hnone).
    by apply Hnone.
Defined.

(* ===================================================================== *)
(** ** Further properties of navigation *)
(* ===================================================================== *)

Section DescendantFacts.
Import TemplateNodes.
Variable st : Store.

(** The list the loop has collected so far only ever grows at its end. *)
Lemma getDescendants_loop_acc (fuel : nat) (predicate : option Predicate) :
  forall queue acc,
    getDescendants_loop fuel predicate st queue acc
    = let? l := getDescendants_loop fuel predicate st queue [] in
      Ok (acc ++ l).
Proof.
  induction fuel as [|fuel IH]; intros [|node queue] acc; simpl;
    rewrite ?app_nil_r; try reflexivity.
  destruct (deref node st) as [n| |]; simpl; try reflexivity.
  rewrite IH. rewrite (IH _ (match predicate with
                             | Some p => if p st node then [] ++ [node] else []
                             | None => []
                             end)).
  destruct (getDescendants_loop fuel predicate st _ []) as [l| |]; simpl;
    try reflexivity.
  destruct predicate as [p|]; [destruct (p st node)|]; simpl;
    by rewrite <- ?app_assoc, ?app_nil_r.
Qed.

(** With a predicate the loop collects what the plain traversal visits,
    filtered. *)
Lemma getDescendants_loop_filter (fuel : nat) (p : Predicate) :
  forall queue,
    getDescendants_loop fuel (Some p) st queue []
    = let? l := getDescendants_loop fuel (Some anyNode) st queue [] in
      Ok (List.filter (p st) l).
Proof.
  induction fuel as [|fuel IH]; intros [|node queue]; simpl; try reflexivity.
  destruct (deref node st) as [n| |]; simpl; try reflexivity.
  rewrite getDescendants_loop_acc, IH.
  rewrite (getDescendants_loop_acc fuel (Some anyNode) _ [node]).
  destruct (getDescendants_loop fuel (Some anyNode) st _ []) as [l| |];
    simpl; try reflexivity.
  destruct (p st node); simpl; reflexivity.
Qed.

Lemma getDescendant_loop_head (fuel : nat) (p : Predicate) :
  forall queue l,
    getDescendants_loop fuel (Some p) st queue [] = Ok l ->
    getDescendant_loop fuel (Some p) st queue = Ok (head l).
Proof.
  induction fuel as [|fuel IH]; intros [|node queue] l; simpl;
    try discriminate; try (by intros [= <-]).
  destruct (deref node st) as [n| |]; simpl; try discriminate.
  destruct (p st node) eqn:Hp.
  - rewrite getDescendants_loop_acc.
    destruct (getDescendants_loop fuel (Some p) st _ []) as [l0| |];
      simpl; try discriminate.
    by intros [= <-].
  - apply IH.
Qed.

(** The plain traversal visits exactly what is reachable from its queue. *)
Lemma getDescendants_loop_reach (fuel : nat) :
  forall queue l,
    getDescendants_loop fuel (Some anyNode) st queue [] = Ok l ->
    forall x, x ∈ l <-> exists q, q ∈ queue /\ rtc (childOf st) q x.
Proof.
  induction fuel as [|fuel IH]; intros [|node queue] l; simpl;
    try discriminate.
  - intros [= <-] x. split; [by intros ?%elem_of_nil|].
    by intros (q & ?%elem_of_nil & _).
  - intros [= <-] x. split; [by intros ?%elem_of_nil|].
    by intros (q & ?%elem_of_nil & _).
  - unfold deref. destruct (nodes st !! node) as [n|] eqn:Hn; [|discriminate].
    simpl. rewrite getDescendants_loop_acc.
    destruct (getDescendants_loop fuel (Some anyNode) st _ []) as [l0| |] eqn:E;
      simpl; try discriminate.
    intros [= <-] x. specialize (IH _ _ E x).
    rewrite elem_of_cons, IH. split.
    + intros [->|(q & Hq & Hreach)].
      * exists node. split; [apply list_elem_of_here | apply rtc_refl].
      * apply elem_of_app in Hq as [Hq|Hq].
        -- exists q. split; [by apply list_elem_of_further | done].
        -- exists node. split; [apply list_elem_of_here|].
           eapply rtc_l; [|exact Hreach]. by exists n.
    + intros (q & Hq & Hreach). apply elem_of_cons in Hq as [->|Hq].
      * apply rtc_inv in Hreach as [->|(c & (n' & Hn' & Hc) & Hreach)];
          [by left|].
        right. exists c. split; [|done].
        rewrite Hn in Hn'. injection Hn' as <-.
        apply elem_of_app. by right.
      * right. exists q. split; [|done]. apply elem_of_app. by left.
Qed.
Lemma total_app (f : nat -> nat) (l k : list nat) :
  total f (l ++ k) = (total f l + total f k)%nat.
Proof. induction l as [|x l IH]; simpl; [reflexivity | rewrite IH; lia]. Qed.

Lemma total_ext (f g : nat -> nat) (l : list nat) :
  Forall (fun x => f x = g x) l -> total f l = total g l.
Proof. induction 1 as [|x l Hx _ IH]; simpl; [reflexivity | by rewrite Hx, IH]. Qed.

(** A tree of depth at most [h] is one of depth at most [h + 1]. *)
Lemma depthAtMost_S (h : nat) :
  forall x, depthAtMost st h x -> depthAtMost st (Datatypes.S h) x.
Proof.
  induction h as [|h IH]; intros x; simpl;
    destruct (nodes st !! x) as [n|]; try done.
  - by intros ->.
  - intros Hall. eapply Forall_impl; [exact Hall | exact IH].
Qed.

(** Below a tree of depth at most [h] there is nothing left to count
    beyond [h] steps. *)
Lemma visits_stable (h : nat) :
  forall x,
    depthAtMost st h x -> visits st (Datatypes.S h) x = visits st h x.
Proof.
  induction h as [|h IH]; intros x.
  - simpl. destruct (nodes st !! x) as [n|]; [|done]. by intros ->.
  - intros Hx.
    change (Datatypes.S
              match nodes st !! x with
              | Some n =>
                  total (visits st (Datatypes.S h)) (getTemplateChildren n)
              | None => 0%nat
              end
            = Datatypes.S
                match nodes st !! x with
                | Some n => total (visits st h) (getTemplateChildren n)
                | None => 0%nat
                end).
    simpl in Hx. destruct (nodes st !! x) as [n|]; [|done].
    f_equal. apply total_ext.
    eapply Forall_impl; [exact Hx | exact IH].
Qed.

(** The loop returns: over a queue of finite trees it takes no more turns
    than there are nodes to meet, so that much fuel is enough. *)
Lemma getDescendants_loop_returns (h : nat) (predicate : option Predicate) :
  forall fuel queue acc,
    Forall (depthAtMost st h) queue ->
    (total (visits st h) queue <= fuel)%nat ->
    exists r, getDescendants_loop fuel predicate st queue acc = Ok r.
Proof.
  induction fuel as [|fuel IH]; intros [|node queue] acc Hall Hfuel;
    try (by eexists).
  - simpl in Hfuel. destruct h; simpl in Hfuel; lia.
  - apply Forall_cons in Hall as [Hnode Hall].
    cbn [getDescendants_loop]. unfold deref.
    assert (exists n, nodes st !! node = Some n
                      /\ Forall (depthAtMost st h) (getTemplateChildren n)
                      /\ visits st h node
                         = Datatypes.S
                             (total (visits st h) (getTemplateChildren n)))
      as (n & Hn & Hchildren & Hvisits).
    { destruct h as [|h]; simpl in Hnode |- *;
        destruct (nodes st !! node) as [n|]; try done;
        exists n; split; try done.
      - rewrite Hnode. by split.
      - split.
        + eapply Forall_impl; [exact Hnode | apply depthAtMost_S].
        + f_equal. apply total_ext.
          eapply Forall_impl; [exact Hnode|].
          intros c Hc. simpl. symmetry. by apply visits_stable. }
    rewrite Hn. simpl. apply IH.
    + by apply Forall_app.
    + rewrite total_app. simpl in Hfuel. lia.
Qed.
End DescendantFacts.

Lemma getDescendants_filter (fuel this : nat)
    (predicate : TemplateNodes.Predicate) (st : TemplateNodes.Store) :
  TemplateNodes.getDescendants fuel this (Some predicate) st
  = let? all := TemplateNodes.getDescendants fuel this (Some anyNode) st in
    Ok (List.filter (predicate st) all).
Proof.
  unfold TemplateNodes.getDescendants.
  destruct (TemplateNodes.deref this st) as [self| |]; simpl; try reflexivity.
  apply getDescendants_loop_filter.
Qed.

(** X10. With a predicate, [getDescendants] returns what it returns with
    the always-true predicate, filtered by the predicate and in the same
    order; it throws or runs out of loop turns exactly when that plain
    traversal does. *)
Theorem X10_getDescendants_filters_traversal (fuel this : nat)
    (predicate : TemplateNodes.Predicate) (st : TemplateNodes.Store) :
  TemplateNodes.getDescendants fuel this (Some predicate) st
  = let? all := TemplateNodes.getDescendants fuel this (Some anyNode) st in
    Ok (List.filter (predicate st) all).
Proof. apply getDescendants_filter. Qed.

Lemma getDescendant_head (fuel this : nat)
    (predicate : TemplateNodes.Predicate) (st : TemplateNodes.Store)
    (matches : list nat) :
  TemplateNodes.getDescendants fuel this (Some predicate) st = Ok matches ->
  TemplateNodes.getDescendant fuel this (Some predicate) st
  = Ok (head matches).
Proof.
  unfold TemplateNodes.getDescendants, TemplateNodes.getDescendant.
  destruct (TemplateNodes.deref this st) as [self| |]; simpl;
    try discriminate.
  apply getDescendant_loop_head.
Qed.

(** X11. When [getDescendants] returns the list of matches, [getDescendant]
    with the same predicate returns the first element of that list, and
    [undefined] when the list is empty. *)
Theorem X11_getDescendant_is_first_match (fuel this : nat)
    (predicate : TemplateNodes.Predicate) (st : TemplateNodes.Store)
    (matches : list nat) :
  TemplateNodes.getDescendants fuel this (Some predicate) st = Ok matches ->
  TemplateNodes.getDescendant fuel this (Some predicate) st
  = Ok (head matches).
Proof. apply getDescendant_head. Qed.

Lemma X11_getDescendant_is_first_match_witness :
  TemplateNodes.getDescendant 3 0%nat
    (Some (TemplateNodes.hasClass TemplateNodes.isInterpolation))
    Samples.nestedStore
  = Ok (Some 2%nat).
Proof.
  apply (X11_getDescendant_is_first_match 3 0%nat
           (TemplateNodes.hasClass TemplateNodes.isInterpolation)
           Samples.nestedStore [2%nat]).
  reflexivity.
Defined.

(** What [getDescendants] returns for a predicate, when it returns, are
    the proper descendants that satisfy the predicate. *)
Lemma getDescendants_members (fuel this : nat)
    (predicate : TemplateNodes.Predicate) (st : TemplateNodes.Store)
    (matches : list nat) :
  TemplateNodes.getDescendants fuel this (Some predicate) st = Ok matches ->
  forall x, x ∈ matches <-> descendantOf st this x /\ predicate st x = true.
Proof.
  rewrite getDescendants_filter.
  unfold TemplateNodes.getDescendants, TemplateNodes.deref.
  destruct (TemplateNodes.nodes st !! this) as [self|] eqn:Hself;
    [|discriminate].
  simpl.
  destruct (TemplateNodes.getDescendants_loop fuel (Some anyNode) st _ [])
    as [all| |] eqn:E; simpl; try discriminate.
  intros [= <-] x.
  rewrite list_elem_of_In, filter_In, <- list_elem_of_In.
  rewrite (getDescendants_loop_reach st fuel _ _ E x).
  unfold descendantOf, childOf. split.
  - intros [(q & Hq & Hreach) Hp]. split; [|done]. exists q. split; [|done].
    by exists self.
  - intros [(c & (n & Hn & Hc) & Hreach) Hp]. split; [|done].
    rewrite Hself in Hn. injection Hn as <-. by exists c.
Qed.

(** On a node whose subtree is a finite tree, [getDescendants] returns
    once the loop may take as many turns as the subtree has nodes. *)
Lemma getDescendants_returns (h fuel this : nat)
    (predicate : option TemplateNodes.Predicate) (st : TemplateNodes.Store) :
  depthAtMost st h this ->
  (visits st h this <= fuel)%nat ->
  exists matches,
    TemplateNodes.getDescendants fuel this predicate st = Ok matches.
Proof.
  intros Hthis Hfuel.
  unfold TemplateNodes.getDescendants, TemplateNodes.deref.
  destruct h as [|h]; simpl in Hthis, Hfuel;
    destruct (TemplateNodes.nodes st !! this) as [self|]; try done; simpl.
  - rewrite Hthis. destruct fuel; by eexists.
  - apply (getDescendants_loop_returns st h); [done|]. lia.
Qed.

(** X12. On a node whose subtree is a finite tree (every node below it is
    in the store, at most [h] steps down), [getDescendants] with a
    predicate returns, within as many loop turns as the subtree has nodes,
    and the nodes it returns are exactly the proper descendants of the node
    (its children, their children and so on) that satisfy the predicate. *)
Theorem X12_getDescendants_exactly_descendants (h fuel this : nat)
    (predicate : TemplateNodes.Predicate) (st : TemplateNodes.Store) :
  depthAtMost st h this ->
  (visits st h this <= fuel)%nat ->
  exists matches,
    TemplateNodes.getDescendants fuel this (Some predicate) st = Ok matches
    /\ forall x,
         x ∈ matches <-> descendantOf st this x /\ predicate st x = true.
Proof.
  intros Hthis Hfuel.
  destruct (getDescendants_returns h fuel this (Some predicate) st Hthis Hfuel)
    as [matches Hrun].
  exists matches. split; [exact Hrun|].
  by apply (getDescendants_members fuel).
Qed.

(** X12 on [<div><span>{{x}}</span></div>]: the subtree of the [div] is
    two steps deep and has three nodes, three turns of the loop are enough,
    and the interpolations below the [div] are node 2 alone. *)
Lemma X12_getDescendants_exactly_descendants_witness :
  depthAtMost Samples.nestedStore 2 0%nat
  /\ (visits Samples.nestedStore 2 0%nat <= 3)%nat
  /\ TemplateNodes.getDescendants 3 0%nat
       (Some (TemplateNodes.hasClass TemplateNodes.isInterpolation))
       Samples.nestedStore
     = Ok [2%nat]
  /\ exists matches,
       TemplateNodes.getDescendants 3 0%nat
         (Some (TemplateNodes.hasClass TemplateNodes.isInterpolation))
         Samples.nestedStore
       = Ok matches
       /\ (2%nat ∈ matches
           <-> descendantOf Samples.nestedStore 0%nat 2%nat
               /\ TemplateNodes.hasClass TemplateNodes.isInterpolation
                    Samples.nestedStore 2%nat = true).
Proof.
  assert (depthAtMost Samples.nestedStore 2 0%nat) as Hdepth
    by (vm_compute; repeat constructor).
  assert (visits Samples.nestedStore 2 0%nat <= 3)%nat as Hfuel
    by (vm_compute; lia).
  split; [exact Hdepth|]. split; [exact Hfuel|]. split; [reflexivity|].
  destruct (X12_getDescendants_exactly_descendants 2 3 0%nat
              (TemplateNodes.hasClass TemplateNodes.isInterpolation)
              Samples.nestedStore Hdepth Hfuel) as (matches & Hrun & Hmembers).
  exists matches. split; [exact Hrun | apply Hmembers].
Defined.

(** X13. [getDescendantOrThrow] returns the first match when
    [getDescendants] finds one, and throws when [getDescendants] finds
    none; on a node of a class without children (a leaf) it throws whatever
    the predicate, without a single turn of the loop. *)
Theorem X13_getDescendantOrThrow (fuel this : nat)
    (st : TemplateNodes.Store) :
  (forall predicate first rest,
     TemplateNodes.getDescendants fuel this (Some predicate) st
     = Ok (first :: rest) ->
     TemplateNodes.getDescendantOrThrow fuel this (Some predicate) st
     = Ok first)
  /\ (forall predicate,
        TemplateNodes.getDescendants fuel this (Some predicate) st = Ok [] ->
        TemplateNodes.getDescendantOrThrow fuel this (Some predicate) st
        = Throw "Expected to find a descendant of kind.")
  /\ (forall self predicate,
        TemplateNodes.nodes st !! this = Some self ->
        TemplateNodes.fieldsOf (TemplateNodes.class self) = None ->
        TemplateNodes.getDescendants 0 this predicate st = Ok []
        /\ TemplateNodes.getDescendantOrThrow 0 this predicate st
           = Throw "Expected to find a descendant of kind.").
Proof.
  split; [|split].
  - intros predicate first rest H. unfold TemplateNodes.getDescendantOrThrow.
    by rewrite (getDescendant_head _ _ _ _ _ H).
  - intros predicate H. unfold TemplateNodes.getDescendantOrThrow.
    by rewrite (getDescendant_head _ _ _ _ _ H).
  - intros self predicate Hself Hleaf.
    unfold TemplateNodes.getDescendantOrThrow, TemplateNodes.getDescendant,
      TemplateNodes.getDescendants, TemplateNodes.deref,
      TemplateNodes.getTemplateChildren.
    rewrite Hself. cbn [rbind]. by rewrite Hleaf.
Qed.

Lemma X13_getDescendantOrThrow_witness :
  TemplateNodes.getDescendantOrThrow 3 0%nat
    (Some (TemplateNodes.hasClass TemplateNodes.isInterpolation))
    Samples.nestedStore = Ok 2%nat
  /\ TemplateNodes.getDescendantOrThrow 3 0%nat
       (Some (TemplateNodes.hasClass TemplateNodes.isAttribute))
       Samples.nestedStore
     = Throw "Expected to find a descendant of kind."
  /\ TemplateNodes.getDescendantOrThrow 0 2%nat (Some anyNode)
       Samples.nestedStore
     = Throw "Expected to find a descendant of kind.".
Proof.
  destruct (X13_getDescendantOrThrow 3 0%nat Samples.nestedStore)
    as (Hfirst & Hnone & _).
  destruct (X13_getDescendantOrThrow 0 2%nat Samples.nestedStore)
    as (_ & _ & Hleaf).
  split; [|split].
  - apply (Hfirst _ 2%nat []). reflexivity.
  - apply Hnone. reflexivity.
  - eapply Hleaf; reflexivity.
Defined.

(** X14. [getNextTemplateSiblingOrThrow] returns the sibling after the
    node when there is one, and throws when the node is the last of the
    list it is found in, be that the children of its parent or the roots
    of the template. *)
Theorem X14_getNextTemplateSiblingOrThrow (st : TemplateNodes.Store)
    (this : nat) (self : TemplateNodes.TemplateNode)
    (siblings before after : list nat) :
  TemplateNodes.nodes st !! this = Some self ->
  match TemplateNodes.parentTemplateNode self with
  | Some parent =>
      TemplateNodes.getTemplateChildren
      <$> TemplateNodes.nodes st !! parent
  | None => Some (getRoots (TemplateNodes.template st))
  end = Some siblings ->
  siblings = before ++ this :: after ->
  this ∉ before ->
  TemplateNodes.getNextTemplateSiblingOrThrow this st
  = match after with
    | next :: _ => Ok next
    | [] => Throw "Expected to have found the next sibling."
    end.
Proof.
  intros Hself Hsiblings -> Hnot.
  unfold TemplateNodes.getNextTemplateSiblingOrThrow,
    TemplateNodes.getNextTemplateSibling, TemplateNodes.getTemplateParent,
    TemplateNodes.deref.
  rewrite Hself. simpl.
  destruct (TemplateNodes.parentTemplateNode self) as [parent|].
  - destruct (TemplateNodes.nodes st !! parent) as [parentNode|];
      [|discriminate].
    injection Hsiblings as Hsiblings. simpl. rewrite Hsiblings.
    rewrite (findIndex_found _ _ _ Hnot).
    destruct (Z.eqb_spec (Z.of_nat (length before)) (-1)); [lia|].
    rewrite Array_get_next. by destruct after.
  - injection Hsiblings as Hsiblings. rewrite Hsiblings.
    rewrite (findIndex_found _ _ _ Hnot).
    destruct (Z.eqb_spec (Z.of_nat (length before)) (-1)); [lia|].
    rewrite Array_get_next. by destruct after.
Qed.

Lemma X14_getNextTemplateSiblingOrThrow_witness :
  TemplateNodes.getNextTemplateSiblingOrThrow 1%nat Samples.listStore
  = Ok 2%nat
  /\ TemplateNodes.getNextTemplateSiblingOrThrow 2%nat Samples.listStore
     = Throw "Expected to have found the next sibling."
  /\ TemplateNodes.getNextTemplateSiblingOrThrow 3%nat Samples.listStore
     = Throw "Expected to have found the next sibling.".
Proof.
  split; [|split].
  - eapply (X14_getNextTemplateSiblingOrThrow Samples.listStore 1%nat _
              [1; 2]%nat [] [2%nat]); try reflexivity.
    apply not_elem_of_nil.
  - eapply (X14_getNextTemplateSiblingOrThrow Samples.listStore 2%nat _
              [1; 2]%nat [1%nat] []); try reflexivity.
    intros H%list_elem_of_In. simpl in H. lia.
  - eapply (X14_getNextTemplateSiblingOrThrow Samples.listStore 3%nat _
              [0; 3]%nat [0%nat] []); try reflexivity.
    intros H%list_elem_of_In. simpl in H. lia.
Defined.

(** X15. [setTemplateParent] writes the parent link and nothing else: the
    children of every node and the roots stay as they were. So a node
    given a parent that does not list it among its children is not found
    by [getNextTemplateSibling], which throws. *)
Theorem X15_setTemplateParent_does_not_link (st : TemplateNodes.Store)
    (this parent : nat) (self parentNode : TemplateNodes.TemplateNode) :
  TemplateNodes.nodes st !! this = Some self ->
  TemplateNodes.nodes st !! parent = Some parentNode ->
  this ∉ TemplateNodes.getTemplateChildren parentNode ->
  exists st',
    TemplateNodes.setTemplateParent this parent st = Ok (tt, st')
    /\ TemplateNodes.template st' = TemplateNodes.template st
    /\ (forall x,
          TemplateNodes.getTemplateChildren <$> TemplateNodes.nodes st' !! x
          = TemplateNodes.getTemplateChildren <$> TemplateNodes.nodes st !! x)
    /\ TemplateNodes.getNextTemplateSibling this st'
       = Throw "Expected to have found self in parent's children.".
Proof.
  intros Hself Hparent Hnot.
  unfold TemplateNodes.setTemplateParent, TemplateNodes.deref, liftR, bind,
    modify.
  rewrite Hself. eexists. split; [reflexivity|]. split; [reflexivity|].
  assert (forall x,
            TemplateNodes.getTemplateChildren
            <$> (<[this := TemplateNodes.mkTemplateNode (Some parent)
                             (TemplateNodes.tokens self)
                             (TemplateNodes.locationSpan self)
                             (TemplateNodes.class self)]>
                   (TemplateNodes.nodes st)) !! x
            = TemplateNodes.getTemplateChildren
              <$> TemplateNodes.nodes st !! x) as Hchildren.
  { intros x. destruct (decide (x = this)) as [->|Hne].
    - by rewrite lookup_insert_eq, Hself.
    - by rewrite lookup_insert_ne. }
  split; [exact Hchildren|].
  unfold TemplateNodes.getNextTemplateSibling, TemplateNodes.getTemplateParent,
    TemplateNodes.deref.
  cbn [TemplateNodes.nodes]. rewrite lookup_insert_eq. simpl.
  specialize (Hchildren parent). rewrite Hparent in Hchildren.
  destruct (<[this:=_]> (TemplateNodes.nodes st) !! parent)
    as [parentNode'|]; [|discriminate].
  simpl in Hchildren. injection Hchildren as Hchildren.
  simpl. rewrite Hchildren.
  by rewrite (findIndex_missing _ _ Hnot).
Qed.

(** X15 on [<ul><li></li><li></li></ul><p></p>]: the [p] (node 3, a
    root with no next sibling) is given the [ul] (node 0) as parent. *)
Lemma X15_setTemplateParent_does_not_link_witness :
  TemplateNodes.getNextTemplateSibling 3%nat Samples.listStore = Ok None
  /\ exists st',
       TemplateNodes.setTemplateParent 3%nat 0%nat Samples.listStore
       = Ok (tt, st')
       /\ TemplateNodes.getNextTemplateSibling 3%nat st'
          = Throw "Expected to have found self in parent's children.".
Proof.
  split; [reflexivity|].
  destruct (X15_setTemplateParent_does_not_link Samples.listStore
              3%nat 0%nat _ _ eq_refl eq_refl)
    as (st' & Hrun & _ & _ & Hthrow).
  - intros H%list_elem_of_In. simpl in H. lia.
  - by exists st'.
Defined.

(* ===================================================================== *)
(** ** Properties of the attribute accessors *)
(* ===================================================================== *)

Section AccessorFacts.
Import TemplateNodes.

Lemma find_head_filter {A} (p : A -> bool) (l : list A) :
  List.find p l = head (List.filter p l).
Proof.
  induction l as [|x l IH]; [reflexivity|]. simpl.
  by destruct (p x).
Qed.

Lemma Array_get_0 {A} (l : list A) : Array_get l 0 = head l.
Proof. by destruct l. Qed.

Lemma findReferenceNamed_spec (name : string) (st : Store)
    (refs : list nat) :
  Forall (fun r => exists n, ReferenceTemplateNode_getName r st = Ok n) refs ->
  exists found,
    findReferenceNamed name st refs = Ok found
    /\ match found with
       | Some r =>
           exists before after,
             refs = before ++ r :: after
             /\ ReferenceTemplateNode_getName r st = Ok name
             /\ Forall (fun r' => ReferenceTemplateNode_getName r' st
                                  <> Ok name) before
       | None =>
           Forall (fun r' => ReferenceTemplateNode_getName r' st <> Ok name)
                  refs
       end.
Proof.
  induction 1 as [|r refs [n Hn] _ (found & Hrun & Hfound)].
  - exists None. split; [reflexivity | constructor].
  - simpl. rewrite Hn. simpl.
    destruct (String.eqb_spec n name) as [->|Hne].
    + exists (Some r). split; [reflexivity|].
      exists [], refs. repeat split; [done | constructor].
    + exists found. split; [exact Hrun|].
      assert (ReferenceTemplateNode_getName r st <> Ok name) as Hr
        by (rewrite Hn; congruence).
      destruct found as [r'|].
      * destruct Hfound as (before & after & -> & Hname & HF).
        exists (r :: before), after. repeat split; [done|].
        by constructor.
      * by constructor.
Qed.
End AccessorFacts.

(** X16. [getFirstAttribute] returns the first element of what
    [getAttributes] returns for the same predicate, and for no predicate
    alike (all attributes, and the first of them); when [getAttributes]
    returns the empty list, [getFirstAttributeOrThrow] throws. *)
Theorem X16_getFirstAttribute_is_first (this : nat)
    (predicate : option TemplateNodes.Predicate) (st : TemplateNodes.Store) :
  TemplateNodes.getFirstAttribute this predicate st
  = (let? attributes := TemplateNodes.getAttributes this predicate st in
     Ok (head attributes))
  /\ (forall fields,
        TemplateNodes.elementLikeFields this st = Ok fields ->
        TemplateNodes.getAttributes this None st
        = Ok (TemplateNodes.allAttributes fields))
  /\ (TemplateNodes.getAttributes this predicate st = Ok [] ->
      TemplateNodes.getFirstAttributeOrThrow this predicate st
      = Throw "Expected to find an attribute.").
Proof.
  assert (TemplateNodes.getFirstAttribute this predicate st
          = (let? attributes := TemplateNodes.getAttributes this predicate st in
             Ok (head attributes))) as Hfirst.
  { unfold TemplateNodes.getFirstAttribute, TemplateNodes.getAttributes.
    destruct (TemplateNodes.elementLikeFields this st) as [fields| |];
      simpl; try reflexivity.
    destruct predicate as [p|]; simpl.
    - unfold TemplateNodes.Array_find. by rewrite find_head_filter.
    - by rewrite Array_get_0. }
  split; [exact Hfirst|]. split.
  - intros fields Hfields. unfold TemplateNodes.getAttributes.
    by rewrite Hfields.
  - intros Hnone. unfold TemplateNodes.getFirstAttributeOrThrow.
    by rewrite Hfirst, Hnone.
Qed.

(** X16 on the [a] of [<a href='x'>] and on the attribute-less [div] of
    [<div></div>]. *)
Lemma X16_getFirstAttribute_is_first_witness :
  TemplateNodes.getFirstAttribute 0%nat None Samples.linkStore
  = Ok (Some 1%nat)
  /\ TemplateNodes.getAttributes 0%nat None Samples.linkStore = Ok [1%nat]
  /\ TemplateNodes.getFirstAttributeOrThrow 0%nat
       (Some (TemplateNodes.isReference)) Samples.linkStore
     = Throw "Expected to find an attribute.".
Proof.
  destruct (X16_getFirstAttribute_is_first 0%nat None Samples.linkStore)
    as (Hfirst & Hall & _).
  destruct (X16_getFirstAttribute_is_first 0%nat
              (Some TemplateNodes.isReference) Samples.linkStore)
    as (_ & _ & Hthrow).
  split; [|split].
  - rewrite Hfirst. reflexivity.
  - apply (Hall (TemplateNodes.mkElementLike [1%nat] []
                   (TemplateNodes.mkBuckets [1%nat] [] [] [] []))).
    reflexivity.
  - apply Hthrow. reflexivity.
Defined.

(** X17. On an element-like node whose reference bucket holds reference
    nodes, [getReferenceNamed] returns the first reference of the bucket
    whose text without its first character is the name asked for, and
    [undefined] when no reference of the bucket has that name;
    [hasReferenceNamed] tells which of the two it is. *)
Theorem X17_getReferenceNamed_finds_first (this : nat) (name : string)
    (st : TemplateNodes.Store) (fields : TemplateNodes.ElementLike) :
  TemplateNodes.elementLikeFields this st = Ok fields ->
  Forall (fun r => exists n,
                     TemplateNodes.ReferenceTemplateNode_getName r st = Ok n)
         (TemplateNodes.references (TemplateNodes.buckets fields)) ->
  exists found,
    TemplateNodes.getReferenceNamed this name st = Ok found
    /\ TemplateNodes.hasReferenceNamed this name st
       = Ok (match found with Some _ => true | None => false end)
    /\ match found with
       | Some r =>
           exists before after,
             TemplateNodes.references (TemplateNodes.buckets fields)
             = before ++ r :: after
             /\ TemplateNodes.ReferenceTemplateNode_getName r st = Ok name
             /\ Forall (fun r' =>
                          TemplateNodes.ReferenceTemplateNode_getName r' st
                          <> Ok name) before
       | None =>
           Forall (fun r' =>
                     TemplateNodes.ReferenceTemplateNode_getName r' st
                     <> Ok name)
                  (TemplateNodes.references (TemplateNodes.buckets fields))
       end.
Proof.
  intros Hfields Hrefs.
  destruct (findReferenceNamed_spec name st _ Hrefs)
    as (found & Hrun & Hfound).
  exists found.
  unfold TemplateNodes.hasReferenceNamed, TemplateNodes.getReferenceNamed.
  rewrite Hfields. simpl. rewrite Hrun. by repeat split.
Qed.

(** X17 on [<input [(ngModel)]=name (click)=go() #box>]: the reference
    [#box] is found under the name [box], and no reference is named
    [form]. *)
Lemma X17_getReferenceNamed_finds_first_witness :
  TemplateNodes.getReferenceNamed 0%nat "box" Samples.inputStore
  = Ok (Some 3%nat)
  /\ TemplateNodes.hasReferenceNamed 0%nat "form" Samples.inputStore
     = Ok false.
Proof.
  assert (Forall (fun r => exists n,
                    TemplateNodes.ReferenceTemplateNode_getName r
                      Samples.inputStore = Ok n) [3%nat]) as Hrefs
    by (repeat constructor; by eexists).
  split.
  - destruct (X17_getReferenceNamed_finds_first 0%nat "box"
                Samples.inputStore _ eq_refl Hrefs)
      as (found & Hrun & _).
    rewrite Hrun. f_equal. vm_compute in Hrun. by injection Hrun as <-.
  - destruct (X17_getReferenceNamed_finds_first 0%nat "form"
                Samples.inputStore _ eq_refl Hrefs)
      as (found & Hrun & Hhas & _).
    rewrite Hhas. vm_compute in Hrun. by injection Hrun as <-.
Defined.

(* ===================================================================== *)
(** ** Further properties of the visitor and of position lookup *)
(* ===================================================================== *)

Section MoreVisitAll.
Import Ast.
Context {S : Type}.

Lemma forEach_app {A R} (xs ys : list A) (body : A -> R -> M S R)
    (acc : R) (s : S) :
  forEach (xs ++ ys) body acc s
  = (let! acc' := forEach xs body acc in forEach ys body acc') s.
Proof.
  revert acc s. induction xs as [|x xs IH]; intros acc s; [reflexivity|].
  simpl. rewrite bind_assoc. apply bind_ext. intros acc' s'. apply IH.
Qed.

Lemma mapM_length {A B} (f : A -> M S B) (xs : list A) (s : S) ys s' :
  mapM f xs s = Ok (ys, s') -> length ys = length xs.
Proof.
  revert s ys s'. induction xs as [|x xs IH]; intros s ys s' H.
  - by injection H as <- <-.
  - simpl in H. unfold bind at 1 in H.
    destruct (f x s) as [[y s1]| |]; try discriminate.
    unfold bind at 1 in H.
    destruct (mapM f xs s1) as [[ys' s2]| |] eqn:E; try discriminate.
    injection H as <- <-. simpl. f_equal. by apply (IH s1 ys' s2).
Qed.

Lemma visitAll_app (visitor : Visitor S) (xs ys : list Node)
    (context : Any) (s : S) :
  visitAll visitor (xs ++ ys) context s
  = (let! rx := visitAll visitor xs context in
     let! ry := visitAll visitor ys context in
     ret (rx ++ ry)) s.
Proof.
  unfold visitAll. rewrite forEach_app.
  apply bind_ext. intros rx s1. rewrite visitAll_loop.
  unfold bind at 2. rewrite visitAll_loop. unfold bind.
  by destruct (mapM _ ys s1) as [[results s2]| |].
Qed.

Lemma visitAll_truthy (visitor : Visitor S) (nodes : list Node)
    (context : Any) (s : S) (results : list Any) (s' : S) :
  visitAll visitor nodes context s = Ok (results, s') ->
  Forall (fun r => truthy r = true) results
  /\ (length results <= length nodes)%nat.
Proof.
  unfold visitAll. rewrite visitAll_loop. unfold bind.
  destruct (mapM _ nodes s) as [[all s1]| |] eqn:E; try discriminate.
  intros [= <- <-]. apply mapM_length in E. rewrite <- E. simpl. split.
  - apply Forall_forall. intros r Hr%list_elem_of_In%filter_In. apply Hr.
  - clear. induction all as [|r all IH]; simpl; [lia|].
    destruct (truthy r); simpl; lia.
Qed.
End MoreVisitAll.

(** X18. [visitAll] over a list put together from two lists is [visitAll]
    over the first, then [visitAll] over the second from the state the
    first has left, with the two result lists joined; an error in the
    first part keeps the second from running. *)
Theorem X18_visitAll_app {S : Type} (visitor : Ast.Visitor S)
    (xs ys : list Ast.Node) (context : Any) (s : S) :
  Ast.visitAll visitor (xs ++ ys) context s
  = (let! rx := Ast.visitAll visitor xs context in
     let! ry := Ast.visitAll visitor ys context in
     ret (rx ++ ry)) s.
Proof. apply visitAll_app. Qed.

(** X19. Every element of the list [visitAll] returns is truthy, and the
    list is at most as long as the node list: a node contributes one
    result or none. *)
Theorem X19_visitAll_results_truthy {S : Type} (visitor : Ast.Visitor S)
    (nodes : list Ast.Node) (context : Any) (s : S)
    (results : list Any) (s' : S) :
  Ast.visitAll visitor nodes context s = Ok (results, s') ->
  Forall (fun r => truthy r = true) results
  /\ (length results <= length nodes)%nat.
Proof. apply visitAll_truthy. Qed.

Lemma X19_visitAll_results_truthy_witness :
  Forall (fun r => truthy r = true) [JStr "element"; JStr "attribute"]
  /\ (length [JStr "element"; JStr "attribute"]
      <= length [Samples.interpolationText; Samples.divElement;
                 Ast.NAttribute
                   (Ast.mkAttribute [] "id" "a" (span 5 11) None)])%nat.
Proof.
  apply (X19_visitAll_results_truthy Samples.kindVisitor
           [Samples.interpolationText; Samples.divElement;
            Ast.NAttribute (Ast.mkAttribute [] "id" "a" (span 5 11) None)]
           Null tt _ tt).
  reflexivity.
Defined.

Lemma elem_of_concat {A} (x : A) (ls : list (list A)) :
  x ∈ concat ls -> exists l, x ∈ l /\ l ∈ ls.
Proof.
  intros (l & Hl & Hx)%list_elem_of_In%in_concat.
  exists l. by rewrite !list_elem_of_In.
Qed.

Section FindNodeChain.
Import Ast.
Variable position : Z.

Lemma contains_not_element (ast : Node) :
  instanceofElement ast = false -> contains position ast = false.
Proof.
  intros Hel. destruct (contains position ast) eqn:E; [|reflexivity].
  apply in_span_is_element in E. congruence.
Qed.

Lemma containingChain_element tokens name attrs children sp startSpan endSpan :
  containingChain position
    (NElement (mkElement tokens name attrs children sp startSpan endSpan))
  = if contains position
         (NElement (mkElement tokens name attrs children sp startSpan endSpan))
    then NElement (mkElement tokens name attrs children sp startSpan endSpan)
         :: containingChains position children
    else [].
Proof.
  cbn [containingChain].
  destruct (contains position _); [|reflexivity]. f_equal.
  induction children as [|c cs IH]; [reflexivity|].
  unfold containingChains. rewrite fmap_cons. cbn [concat].
  f_equal. exact IH.
Qed.

Lemma containingChain_not_element (ast : Node) :
  instanceofElement ast = false -> containingChain position ast = [].
Proof.
  intros Hel. pose proof (contains_not_element _ Hel) as Hc.
  destruct ast; try discriminate; cbn [containingChain]; by rewrite Hc.
Qed.

Lemma containingChains_attributes (attrs : list Attribute) :
  containingChains position (NAttribute <$> attrs) = [].
Proof.
  induction attrs as [|a attrs IH]; [reflexivity|].
  unfold containingChains in *. rewrite fmap_cons, fmap_cons. cbn [concat].
  rewrite IH. by rewrite containingChain_not_element.
Qed.

Lemma mapM_chain {B} (f : Node -> M (list Node) B) (nodes : list Node) :
  (forall ast, ast ∈ nodes -> forall q,
     exists y, f ast q = Ok (y, q ++ containingChain position ast)) ->
  forall p, exists ys,
    mapM f nodes p = Ok (ys, p ++ containingChains position nodes).
Proof.
  induction nodes as [|ast nodes IH]; intros Hf p.
  - exists []. unfold containingChains. simpl. by rewrite app_nil_r.
  - destruct (Hf ast (list_elem_of_here _ _) p) as (y & E1).
    destruct (IH (fun a Ha => Hf a (list_elem_of_further _ _ _ Ha))
                 (p ++ containingChain position ast)) as (ys & E2).
    exists (y :: ys). simpl. unfold bind. rewrite E1, E2.
    unfold containingChains. rewrite fmap_cons. cbn [concat].
    by rewrite app_assoc.
Qed.

Lemma findNode_visit_chain (n : nat) :
  (forall m, (m < n)%nat -> forall nodes context p,
     (heights nodes <= m)%nat ->
     exists r,
       visitAll (findNode_object position (Datatypes.S m)) nodes context p
       = Ok (r, p ++ containingChains position nodes)) ->
  forall ast context q,
    (height ast <= n)%nat ->
    exists y,
      visitAll_visit (findNode_object position (Datatypes.S n)) context ast q
      = Ok (y, q ++ containingChain position ast).
Proof.
  intros IH ast context q Hast.
  destruct (contains position ast) eqn:Hin.
  - pose proof (in_span_is_element _ _ Hin) as Hel.
    destruct ast as [t|e|c|a|e|c]; try discriminate.
    destruct e as [tokens name attrs children sp startSpan endSpan].
    rewrite height_element in Hast.
    destruct n as [|n]; [lia|].
    rewrite containingChain_element, Hin.
    change (findNode_object position (Datatypes.S (Datatypes.S n)))
      with (findNode_visitor position
              (findNode_object position (Datatypes.S n))).
    remember (findNode_object position (Datatypes.S n)) as inner eqn:Hinner.
    unfold visitAll_visit. cbn [visit findNode_visitor RecursiveVisitor].
    unfold bind at 1. unfold contains in Hin. rewrite Hin.
    cbn -[visitAll]. unfold visitChildren. cbn -[visitAll]. unfold bind, ret.
    subst inner.
    destruct (IH n ltac:(lia) (NAttribute <$> attrs) context
                (q ++ [NElement (mkElement tokens name attrs children sp
                                   startSpan endSpan)]))
      as (r1 & E1); [rewrite heights_attributes; lia|].
    rewrite E1. rewrite containingChains_attributes, app_nil_r.
    destruct (IH n ltac:(lia) children context
                (q ++ [NElement (mkElement tokens name attrs children sp
                                   startSpan endSpan)]))
      as (r2 & E2); [lia|].
    rewrite E2. eexists. by rewrite <- app_assoc.
  - assert (containingChain position ast = []) as ->
      by (destruct ast as [t|e|c|a|[]|c]; cbn [containingChain];
          by rewrite Hin).
    unfold visitAll_visit. simpl. unfold bind at 1.
    unfold contains in Hin. rewrite Hin. rewrite app_nil_r. by eexists.
Qed.

Lemma findNode_object_chain (n : nat) :
  forall nodes context p,
    (heights nodes <= n)%nat ->
    exists r,
      visitAll (findNode_object position (Datatypes.S n)) nodes context p
      = Ok (r, p ++ containingChains position nodes).
Proof.
  induction n as [n IH] using lt_wf_ind. intros nodes context p Hh.
  destruct (mapM_chain
              (visitAll_visit (findNode_object position (Datatypes.S n)) context)
              nodes) with (p := p) as (rs & E).
  - intros ast Hast q. apply heights_elem_of in Hast.
    apply findNode_visit_chain; [exact IH | lia].
  - apply visitAll_of_mapM in E. eauto.
Qed.

Lemma containingChain_contains (ast x : Node) :
  x ∈ containingChain position ast -> contains position x = true.
Proof.
  revert x.
  enough (forall n ast, (height ast <= n)%nat -> forall x,
            x ∈ containingChain position ast -> contains position x = true)
    as H by (intros x; by apply (H (height ast))).
  clear ast. induction n as [n IH] using lt_wf_ind. intros ast Hn x.
  destruct (instanceofElement ast) eqn:Hel.
  - destruct ast as [t|e|c|a|e|c]; try discriminate.
    destruct e as [tokens name attrs children sp startSpan endSpan].
    rewrite containingChain_element. rewrite height_element in Hn.
    destruct (contains position _) eqn:Hin; [|by intros ?%elem_of_nil].
    intros [->|Hx]%elem_of_cons; [exact Hin|].
    unfold containingChains in Hx.
    apply elem_of_concat in Hx as (l & Hxl & Hl).
    apply list_elem_of_fmap in Hl as (c & -> & Hc).
    apply heights_elem_of in Hc.
    apply (IH (height c) ltac:(lia) c ltac:(lia) x Hxl).
  - rewrite containingChain_not_element by done. by intros ?%elem_of_nil.
Qed.
End FindNodeChain.

(** X20. [findNode] always returns, with the position it was given and
    with this path: for each node of the list in turn, the node itself if
    its computed span holds the position, followed by the same for its
    children; below a node whose span does not hold the position nothing
    is recorded. Every node of the path is an [Element] whose computed
    span holds the position. *)
Theorem X20_findNode_path (nodes : list Ast.Node) (position : Z) :
  Ast.findNode nodes position
  = Ok (Ast.mkAstPath (containingChains position nodes) position)
  /\ Forall (fun ast => Ast.instanceofElement ast = true
                        /\ contains position ast = true)
            (containingChains position nodes).
Proof.
  split.
  - unfold Ast.findNode.
    destruct (findNode_object_chain position (Ast.heights nodes) nodes Null [])
      as (r & E); [lia|].
    unfold findNode_object in E. by rewrite E.
  - apply Forall_forall. intros x Hx. unfold containingChains in Hx.
    apply elem_of_concat in Hx as (l & Hxl & Hl).
    apply list_elem_of_fmap in Hl as (c & -> & Hc).
    pose proof (containingChain_contains _ _ _ Hxl) as Hin.
    split; [|exact Hin]. by apply (in_span_is_element position).
Qed.

Section RecursiveVisitorFacts.
Import Ast.
Context {S : Type}.

Lemma heights_cases (cases : list ExpansionCase) :
  heights (NExpansionCase <$> cases) = O.
Proof. induction cases as [|c cases IH]; [reflexivity|]. exact IH. Qed.

Lemma recursiveResult_cases (cases : list ExpansionCase) :
  concat (recursiveResult <$> (NExpansionCase <$> cases)) = [].
Proof. induction cases as [|c cases IH]; [reflexivity|]. exact IH. Qed.

Lemma mapM_recursive {B} (f : Node -> M S B) (g : Node -> list B)
    (keep : B -> bool) (nodes : list Node) :
  (forall ast, ast ∈ nodes -> forall s,
     exists y, f ast s = Ok (y, s) /\ List.filter keep [y] = g ast) ->
  forall s, exists ys,
    mapM f nodes s = Ok (ys, s)
    /\ List.filter keep ys = concat (g <$> nodes).
Proof.
  induction nodes as [|ast nodes IH]; intros Hf s.
  - by exists [].
  - destruct (Hf ast (list_elem_of_here _ _) s) as (y & E1 & Hy).
    destruct (IH (fun a Ha => Hf a (list_elem_of_further _ _ _ Ha)) s)
      as (ys & E2 & Hys).
    exists (y :: ys). simpl. unfold bind. rewrite E1, E2.
    split; [reflexivity|].
    change (List.filter keep (y :: ys) = g ast ++ concat (g <$> nodes)).
    rewrite <- Hy, <- Hys. simpl. by destruct (keep y).
Qed.

Lemma recursive_visit (n : nat) :
  (forall m, (m < n)%nat -> forall nodes context (s : S),
     (heights nodes <= m)%nat ->
     visitAll (recursive_object S (Datatypes.S m)) nodes context s
     = Ok (concat (recursiveResult <$> nodes), s)) ->
  forall ast context (s : S),
    (height ast <= n)%nat ->
    exists y,
      visitAll_visit (recursive_object S (Datatypes.S n)) context ast s
      = Ok (y, s)
      /\ List.filter truthy [y] = recursiveResult ast.
Proof.
  intros IH ast context s Hast.
  destruct ast as [t|e|c|a|e|c]; try (by exists Undefined).
  - (* an expansion *)
    destruct e as [tokens switchValue ty cases sp switchSpan].
    simpl in Hast. destruct n as [|n]; [lia|].
    change (recursive_object S (Datatypes.S (Datatypes.S n)))
      with (RecursiveVisitor None (recursive_object S (Datatypes.S n))).
    remember (recursive_object S (Datatypes.S n)) as inner eqn:Hinner.
    unfold visitAll_visit. cbn [visit RecursiveVisitor Node_visit visitExpansion].
    unfold visitChildren. cbn -[visitAll]. unfold bind, ret. subst inner.
    rewrite (IH n ltac:(lia)) by (rewrite heights_cases; lia).
    rewrite recursiveResult_cases. by exists (JArr []).
  - (* an element *)
    destruct e as [tokens name attrs children sp startSpan endSpan].
    rewrite height_element in Hast. destruct n as [|n]; [lia|].
    change (recursive_object S (Datatypes.S (Datatypes.S n)))
      with (RecursiveVisitor None (recursive_object S (Datatypes.S n))).
    remember (recursive_object S (Datatypes.S n)) as inner eqn:Hinner.
    unfold visitAll_visit. cbn [visit RecursiveVisitor Node_visit visitElement].
    unfold visitChildren. cbn -[visitAll]. unfold bind, ret. subst inner.
    rewrite (IH n ltac:(lia)) by (rewrite heights_attributes; lia).
    rewrite (IH n ltac:(lia)) by lia.
    by exists Undefined.
Qed.

Lemma recursive_visitAll (n : nat) :
  forall nodes context (s : S),
    (heights nodes <= n)%nat ->
    visitAll (recursive_object S (Datatypes.S n)) nodes context s
    = Ok (concat (recursiveResult <$> nodes), s).
Proof.
  induction n as [n IH] using lt_wf_ind. intros nodes context s Hh.
  destruct (mapM_recursive
              (visitAll_visit (recursive_object S (Datatypes.S n)) context)
              recursiveResult truthy nodes) with (s := s) as (ys & E & Hys).
  - intros ast Hast s0. apply heights_elem_of in Hast.
    apply recursive_visit; [exact IH | lia].
  - apply visitAll_of_mapM in E. by rewrite E, Hys.
Qed.
End RecursiveVisitorFacts.

(** X21. The plain [RecursiveVisitor] walks a node list without touching
    the state and without an error, whatever the nesting; what [visitAll]
    returns for it is one empty array for each expansion of the list, in
    order, and nothing for the nodes of any other kind ([visitElement]
    returns no value, [visitExpansion] returns the results gathered from
    its cases, of which there are none). *)
Theorem X21_RecursiveVisitor_results {S : Type} (nodes : list Ast.Node)
    (context : Any) (s : S) :
  Ast.visitAll
    (Ast.new (Datatypes.S (Ast.heights nodes)) (Ast.RecursiveVisitor None))
    nodes context s
  = Ok (concat (recursiveResult <$> nodes), s).
Proof. by apply (recursive_visitAll (Ast.heights nodes)). Qed.

(* ===================================================================== *)
(** ** Properties of the token helpers of a node *)
(* ===================================================================== *)

Section TokenRangeFacts.
Import TemplateNodes.

(** Mapping a stretch of a list and then all that follows it maps
    everything from the start of the stretch on. *)
Lemma map_here_then_after {A} (fn : A -> A) (toks : list A)
    (first lastIndex : nat) :
  (first <= lastIndex)%nat -> (lastIndex < length toks)%nat ->
  let here :=
    take first toks
    ++ (fn <$> take (Datatypes.S lastIndex - first) (drop first toks))
    ++ drop (Nat.max first (Datatypes.S lastIndex)) toks in
  length here = length toks
  /\ take (Datatypes.S lastIndex) here
     ++ (fn <$> drop (Datatypes.S lastIndex) here)
     = take first toks ++ (fn <$> drop first toks).
Proof.
  intros Hle Hlt here. subst here.
  replace (Nat.max first (Datatypes.S lastIndex))
    with (Datatypes.S lastIndex) by lia.
  split.
  - rewrite !length_app, length_fmap, !length_take, !length_drop. lia.
  - rewrite app_assoc.
    assert (length (take first toks
                    ++ (fn <$> take (Datatypes.S lastIndex - first)
                                 (drop first toks)))
            = Datatypes.S lastIndex) as Hlen
      by (rewrite length_app, length_fmap, !length_take, length_drop; lia).
    rewrite take_app_length' by done. rewrite drop_app_length' by done.
    rewrite <- app_assoc, <- fmap_app. do 2 f_equal.
    replace (drop (Datatypes.S lastIndex) toks)
      with (drop (Datatypes.S lastIndex - first) (drop first toks))
      by (rewrite drop_drop; f_equal; lia).
    apply take_drop.
Qed.

Lemma forEachTokenHere_run (st : Store) (this : nat) (self : TemplateNode)
    (fn : Token -> Token) (first lastToken : nat) :
  nodes st !! this = Some self ->
  head (tokens self) = Some first ->
  last (tokens self) = Some lastToken ->
  (first < length (Template_tokens (template st)))%nat ->
  (lastToken < length (Template_tokens (template st)))%nat ->
  forEachTokenHere this fn st
  = Ok (tt,
        mkStore
          (mkTemplate
             (Template_text (template st))
             (take first (Template_tokens (template st))
              ++ (fn <$> take (Datatypes.S lastToken - first)
                           (drop first (Template_tokens (template st))))
              ++ drop (Nat.max first (Datatypes.S lastToken))
                   (Template_tokens (template st)))
             (getRoots (template st)))
          (nodes st)).
Proof.
  intros Hself Hfirst Hlast Hf Hl.
  apply head_Some in Hfirst as [rest Htokens].
  unfold forEachTokenHere, onTemplate, _forEachTokenBetween, bind, liftR,
    modify, deref, getTokenIndex, getFirstElementOrThrow,
    getLastElementOrThrow.
  rewrite Hself, Hlast, Htokens.
  destruct (Nat.ltb_spec first (length (Template_tokens (template st))));
    [|lia].
  destruct (Nat.ltb_spec lastToken (length (Template_tokens (template st))));
    [|lia].
  reflexivity.
Qed.

Lemma forEachTokenAfterHere_run (st : Store) (this : nat)
    (self : TemplateNode) (fn : Token -> Token) (lastToken : nat) :
  nodes st !! this = Some self ->
  last (tokens self) = Some lastToken ->
  (lastToken < length (Template_tokens (template st)))%nat ->
  forEachTokenAfterHere this fn st
  = Ok (tt,
        mkStore
          (mkTemplate
             (Template_text (template st))
             (take (Datatypes.S lastToken) (Template_tokens (template st))
              ++ (fn <$> drop (Datatypes.S lastToken)
                           (Template_tokens (template st))))
             (getRoots (template st)))
          (nodes st)).
Proof.
  intros Hself Hlast Hl.
  unfold forEachTokenAfterHere, onTemplate, _forEachTokenAfter, bind, liftR,
    modify, deref, getTokenIndex, getLastElementOrThrow.
  rewrite Hself, Hlast.
  destruct (Nat.ltb_spec lastToken (length (Template_tokens (template st))));
    [|lia].
  reflexivity.
Qed.
End TokenRangeFacts.

(** X22. [forEachTokenHereAndAfterHere] on a node whose first token does
    not come after its last one in the document calls the function once on
    every token of the document from the node's first token on, and on no
    token before it; the text, the roots and the nodes are untouched. On a
    node without tokens it throws. *)
Theorem X22_forEachTokenHereAndAfterHere (st : TemplateNodes.Store)
    (this : nat) (self : TemplateNodes.TemplateNode) (fn : Token -> Token) :
  TemplateNodes.nodes st !! this = Some self ->
  (TemplateNodes.tokens self = [] ->
   TemplateNodes.forEachTokenHereAndAfterHere this fn st
   = Throw "The tokens array is empty.")
  /\ (forall first lastToken,
        head (TemplateNodes.tokens self) = Some first ->
        last (TemplateNodes.tokens self) = Some lastToken ->
        (first <= lastToken)%nat ->
        (lastToken
         < length (Template_tokens (TemplateNodes.template st)))%nat ->
        TemplateNodes.forEachTokenHereAndAfterHere this fn st
        = Ok (tt,
              TemplateNodes.mkStore
                (mkTemplate
                   (Template_text (TemplateNodes.template st))
                   (take first (Template_tokens (TemplateNodes.template st))
                    ++ (fn <$> drop first
                                 (Template_tokens
                                    (TemplateNodes.template st))))
                   (getRoots (TemplateNodes.template st)))
                (TemplateNodes.nodes st))).
Proof.
  intros Hself. split.
  - intros Hnil.
    unfold TemplateNodes.forEachTokenHereAndAfterHere,
      TemplateNodes.forEachTokenHere, bind, liftR, TemplateNodes.deref.
    by rewrite Hself, Hnil.
  - intros first lastToken Hfirst Hlast Hle Hlt.
    destruct (map_here_then_after fn
                (Template_tokens (TemplateNodes.template st))
                first lastToken Hle Hlt) as [Hlen Heq].
    unfold TemplateNodes.forEachTokenHereAndAfterHere, bind.
    rewrite (forEachTokenHere_run _ _ _ _ _ _ Hself Hfirst Hlast)
      by lia.
    rewrite (forEachTokenAfterHere_run _ _ self _ lastToken);
      cbn [TemplateNodes.nodes TemplateNodes.template Template_tokens
           Template_text getRoots];
      [by rewrite Heq | done | done | by rewrite Hlen].
Qed.

(** X22 on the [span] of [<div><span>{{x}}</span></div>] (tokens 2, 3
    and 5), with every token moved by 10: the tokens 0 and 1 stay. *)
Lemma X22_forEachTokenHereAndAfterHere_witness :
  exists st',
    TemplateNodes.forEachTokenHereAndAfterHere 1%nat (Token_moveBy 10)
      Samples.nestedStore = Ok (tt, st')
    /\ Template_tokens (TemplateNodes.template st') !! 1%nat
       = Some (mkToken (OtherTokenType "TAG_OPEN_END") (span 4 5))
    /\ Template_tokens (TemplateNodes.template st') !! 4%nat
       = Some (mkToken TEXT (span 21 26)).
Proof.
  destruct (X22_forEachTokenHereAndAfterHere Samples.nestedStore 1%nat _
              (Token_moveBy 10) eq_refl) as (_ & Hrun).
  eexists. split.
  - apply (Hrun 2%nat 5%nat); [reflexivity | reflexivity | lia | simpl; lia].
  - split; reflexivity.
Defined.

(** X23. When the constructor of an element-like node returns, each bucket
    holds its attributes in the order of the attribute list, and an
    attribute that satisfies several of the predicates is in the bucket of
    the first one it satisfies, in the order text attribute, bound
    attribute, bound event, two-way binding, reference. *)
Theorem X23_buckets_first_match_in_order
    (isTextAttribute isBoundAttribute isBoundEvent isBananaInTheBox
       isReference : nat -> bool)
    (constructorNameOf : nat -> string)
    (locationSpan : LocationSpan) (tokens allAttributes children : list nat)
    (subclass : TemplateNodes.ElementLike -> TemplateNodes.NodeClass)
    (node : TemplateNodes.TemplateNode) :
  TemplateNodes.ElementLikeTemplateNode_constructor
    isTextAttribute isBoundAttribute isBoundEvent isBananaInTheBox
    isReference constructorNameOf
    locationSpan tokens allAttributes children subclass = Ok node ->
  exists b,
    TemplateNodes.class node
    = subclass (TemplateNodes.mkElementLike allAttributes children b)
    /\ TemplateNodes.parentTemplateNode node = None
    /\ TemplateNodes.textAttributes b
       = List.filter isTextAttribute allAttributes
    /\ TemplateNodes.boundAttributes b
       = List.filter (fun a => negb (isTextAttribute a) && isBoundAttribute a)
           allAttributes
    /\ TemplateNodes.boundEvents b
       = List.filter (fun a => negb (isTextAttribute a)
                               && negb (isBoundAttribute a)
                               && isBoundEvent a)
           allAttributes
    /\ TemplateNodes.bananaInTheBoxes b
       = List.filter (fun a => negb (isTextAttribute a)
                               && negb (isBoundAttribute a)
                               && negb (isBoundEvent a)
                               && isBananaInTheBox a)
           allAttributes
    /\ TemplateNodes.references b
       = List.filter (fun a => negb (isTextAttribute a)
                               && negb (isBoundAttribute a)
                               && negb (isBoundEvent a)
                               && negb (isBananaInTheBox a)
                               && isReference a)
           allAttributes.
Proof.
  unfold TemplateNodes.ElementLikeTemplateNode_constructor.
  destruct (TemplateNodes.classify _ _ _ _ _ _ allAttributes _)
    as [b| |] eqn:E; simpl; try discriminate.
  intros [= <-]. exists b.
  apply classify_Ok in E as (H0 & H1 & H2 & H3 & H4 & _).
  by repeat split.
Qed.

(** X23 on [<input [(ngModel)]=name (click)=go() #box>]. *)
Lemma X23_buckets_first_match_in_order_witness :
  exists node b,
    TemplateNodes.newElementTemplateNode Samples.attributeStore (span 0 41)
      [] "input" [1%nat; 2%nat; 3%nat] [] = Ok node
    /\ TemplateNodes.fieldsOf (TemplateNodes.class node)
       = Some (TemplateNodes.mkElementLike [1%nat; 2%nat; 3%nat] [] b)
    /\ TemplateNodes.bananaInTheBoxes b = [1%nat]
    /\ TemplateNodes.boundEvents b = [2%nat]
    /\ TemplateNodes.references b = [3%nat].
Proof.
  destruct (X23_buckets_first_match_in_order
              (TemplateNodes.isTextAttribute Samples.attributeStore)
              (TemplateNodes.isBoundAttribute Samples.attributeStore)
              (TemplateNodes.isBoundEvent Samples.attributeStore)
              (TemplateNodes.isBananaInTheBox Samples.attributeStore)
              (TemplateNodes.isReference Samples.attributeStore)
              (TemplateNodes.constructorNameOf Samples.attributeStore)
              (span 0 41) [] [1%nat; 2%nat; 3%nat] []
              (TemplateNodes.ElementTemplateNode "input") _ eq_refl)
    as (b & Hclass & _ & _ & _ & Hevents & Hbanana & Hrefs).
  eexists _, b. split; [reflexivity|].
  split; [|by rewrite Hevents, Hbanana, Hrefs].
  simpl in Hclass. simpl. by injection Hclass as <-.
Defined.
